(** * ParkPal: booking, payment and license-plate logic

    A shallow embedding of the decision logic of the ParkPal client:
    the booking screen ([handleBooking]), the payment library
    ([createPaymentIntent], [confirmPayment], [formatAmount]), the payment
    sheet ([handlePayment]), the license-plate verification library and the
    license-plate manager component.

    The remote document store, the authentication state, the clock and the
    random source are made explicit as a [World] that every asynchronous
    operation threads through; an exception is a [Throw] result. *)

From Stdlib Require Import ZArith NArith Bool Ascii String List SpecFloat.
From stdpp Require Import base option list strings gmap fin_maps stringmap pretty sorting.

Local Open Scope string_scope.
Local Open Scope Z_scope.

(** ** JavaScript values *)

(** A JS [number] is an IEEE-754 binary64 value: [spec_float] of the
    Standard Library at precision 53 and maximal exponent 1024, with the
    round-to-nearest-even operations of [SpecFloat]. *)
Module JS.

Definition number : Type := spec_float.

Definition prec : Z := 53.
Definition emax : Z := 1024.

(** The number denoted by an integer literal or an integral time value. *)
Definition of_Z (z : Z) : number := binary_normalize prec emax z 0 false.

(** [m * 2^e], used for the literals 0.5 and 2.5. *)
Definition of_scaled (m e : Z) : number := binary_normalize prec emax m e false.

Definition mul (x y : number) : number := SFmul prec emax x y.
Definition div (x y : number) : number := SFdiv prec emax x y.
Definition eqb (x y : number) : bool := SFeqb x y.

(** ToBoolean on a number: [0], [-0] and [NaN] are falsy. *)
Definition truthy (x : number) : bool :=
  match x with
  | S754_zero _ | S754_nan => false
  | _ => true
  end.

(** [x || y] on numbers. *)
Definition or (x y : number) : number := if truthy x then x else y.

(** [Number.isInteger]. *)
Definition isInteger (x : number) : bool :=
  match x with
  | S754_zero _ => true
  | S754_finite _ m e => ((0 <=? e) || (Z.land (Zpos m) (Z.ones (- e)) =? 0))%Z
  | _ => false
  end.

(** ToBoolean on a string: only the empty string is falsy. *)
Definition truthy_string (s : string) : bool :=
  match s with
  | EmptyString => false
  | _ => true
  end.

(** *** Strings

    A JS string is a sequence of UTF-16 code units. A string of this
    development is the Rocq string that holds, unit after unit, the UTF-8
    encoding of each code unit's value: ASCII text is written as itself, a
    character of the Basic Multilingual Plane as its UTF-8 bytes, a surrogate
    as the three bytes of its own value. [units] reads the code units of a
    string and [of_units] writes them; a byte that starts no such encoding is
    read as the code unit of its value. Equality of strings is equality of
    their code units, and appending strings appends them. *)

Definition is_cont (b : N) : bool := ((0x80 <=? b) && (b <? 0xC0))%N.
Definition is_lead2 (b : N) : bool := ((0xC0 <=? b) && (b <? 0xE0))%N.
Definition is_lead3 (b : N) : bool := ((0xE0 <=? b) && (b <? 0xF0))%N.

Fixpoint units (s : string) : list N :=
  match s with
  | EmptyString => []
  | String c0 s1 =>
      let b0 := N_of_ascii c0 in
      match s1 with
      | EmptyString => [b0]
      | String c1 s2 =>
          let b1 := N_of_ascii c1 in
          if is_lead2 b0 && is_cont b1
          then ((b0 - 0xC0) * 0x40 + (b1 - 0x80))%N :: units s2
          else
            match s2 with
            | EmptyString => b0 :: units s1
            | String c2 s3 =>
                let b2 := N_of_ascii c2 in
                if is_lead3 b0 && is_cont b1 && is_cont b2
                then ((b0 - 0xE0) * 0x1000 + (b1 - 0x80) * 0x40 + (b2 - 0x80))%N :: units s3
                else b0 :: units s1
            end
      end
  end.

Definition put_unit (u : N) (s : string) : string :=
  if (u <? 0x80)%N then String (ascii_of_N u) s
  else if (u <? 0x800)%N then
    String (ascii_of_N (0xC0 + u / 0x40)) (String (ascii_of_N (0x80 + u mod 0x40)) s)
  else
    String (ascii_of_N (0xE0 + u / 0x1000))
           (String (ascii_of_N (0x80 + (u / 0x40) mod 0x40))
                   (String (ascii_of_N (0x80 + u mod 0x40)) s)).

Definition of_units (l : list N) : string := foldr put_unit EmptyString l.

(** [s.length]. *)
Definition length (s : string) : nat := List.length (units s).

(** [/^[...]+$/.test(s)] for a class of code units, on a non-empty string,
    and [/^[...]*$/.test(s)] on any. *)
Definition all_units (class : N -> bool) (s : string) : bool := forallb class (units s).

(** *** Code points

    [toUpperCase] works on the code points of the string: a high surrogate
    followed by a low surrogate is one code point, every other code unit,
    an unpaired surrogate included, is a code point by itself. *)

Definition is_high (u : N) : bool := ((0xD800 <=? u) && (u <? 0xDC00))%N.
Definition is_low (u : N) : bool := ((0xDC00 <=? u) && (u <? 0xE000))%N.
Definition is_surrogate (u : N) : bool := ((0xD800 <=? u) && (u <? 0xE000))%N.

Fixpoint code_points (l : list N) : list N :=
  match l with
  | [] => []
  | u :: l1 =>
      match l1 with
      | [] => [u]
      | v :: l2 =>
          if is_high u && is_low v
          then (0x10000 + (u - 0xD800) * 0x400 + (v - 0xDC00))%N :: code_points l2
          else u :: code_points l1
      end
  end.

Definition code_units (cp : N) : list N :=
  if (cp <? 0x10000)%N then [cp]
  else [(0xD800 + (cp - 0x10000) / 0x400)%N; (0xDC00 + (cp - 0x10000) mod 0x400)%N].

(** A string without unpaired surrogates. *)
Definition well_formed_units (l : list N) : bool :=
  forallb (fun cp => negb (is_surrogate cp)) (code_points l).

Definition well_formed (s : string) : bool := well_formed_units (units s).

(** The uppercase mapping of Unicode 14.0 (the [Uppercase_Mapping] of
    UnicodeData.txt with the unconditional entries of SpecialCasing.txt):
    the code points that do not map to themselves, each with the code points
    it maps to. *)
Definition upper_table : list (N * list N) :=
  [
   (0x0061, [0x0041]); (0x0062, [0x0042]); (0x0063, [0x0043]); (0x0064, [0x0044]);
   (0x0065, [0x0045]); (0x0066, [0x0046]); (0x0067, [0x0047]); (0x0068, [0x0048]);
   (0x0069, [0x0049]); (0x006A, [0x004A]); (0x006B, [0x004B]); (0x006C, [0x004C]);
   (0x006D, [0x004D]); (0x006E, [0x004E]); (0x006F, [0x004F]); (0x0070, [0x0050]);
   (0x0071, [0x0051]); (0x0072, [0x0052]); (0x0073, [0x0053]); (0x0074, [0x0054]);
   (0x0075, [0x0055]); (0x0076, [0x0056]); (0x0077, [0x0057]); (0x0078, [0x0058]);
   (0x0079, [0x0059]); (0x007A, [0x005A]); (0x00B5, [0x039C]); (0x00DF, [0x0053; 0x0053]);
   (0x00E0, [0x00C0]); (0x00E1, [0x00C1]); (0x00E2, [0x00C2]); (0x00E3, [0x00C3]);
   (0x00E4, [0x00C4]); (0x00E5, [0x00C5]); (0x00E6, [0x00C6]); (0x00E7, [0x00C7]);
   (0x00E8, [0x00C8]); (0x00E9, [0x00C9]); (0x00EA, [0x00CA]); (0x00EB, [0x00CB]);
   (0x00EC, [0x00CC]); (0x00ED, [0x00CD]); (0x00EE, [0x00CE]); (0x00EF, [0x00CF]);
   (0x00F0, [0x00D0]); (0x00F1, [0x00D1]); (0x00F2, [0x00D2]); (0x00F3, [0x00D3]);
   (0x00F4, [0x00D4]); (0x00F5, [0x00D5]); (0x00F6, [0x00D6]); (0x00F8, [0x00D8]);
   (0x00F9, [0x00D9]); (0x00FA, [0x00DA]); (0x00FB, [0x00DB]); (0x00FC, [0x00DC]);
   (0x00FD, [0x00DD]); (0x00FE, [0x00DE]); (0x00FF, [0x0178]); (0x0101, [0x0100]);
   (0x0103, [0x0102]); (0x0105, [0x0104]); (0x0107, [0x0106]); (0x0109, [0x0108]);
   (0x010B, [0x010A]); (0x010D, [0x010C]); (0x010F, [0x010E]); (0x0111, [0x0110]);
   (0x0113, [0x0112]); (0x0115, [0x0114]); (0x0117, [0x0116]); (0x0119, [0x0118]);
   (0x011B, [0x011A]); (0x011D, [0x011C]); (0x011F, [0x011E]); (0x0121, [0x0120]);
   (0x0123, [0x0122]); (0x0125, [0x0124]); (0x0127, [0x0126]); (0x0129, [0x0128]);
   (0x012B, [0x012A]); (0x012D, [0x012C]); (0x012F, [0x012E]); (0x0131, [0x0049]);
   (0x0133, [0x0132]); (0x0135, [0x0134]); (0x0137, [0x0136]); (0x013A, [0x0139]);
   (0x013C, [0x013B]); (0x013E, [0x013D]); (0x0140, [0x013F]); (0x0142, [0x0141]);
   (0x0144, [0x0143]); (0x0146, [0x0145]); (0x0148, [0x0147]); (0x0149, [0x02BC; 0x004E]);
   (0x014B, [0x014A]); (0x014D, [0x014C]); (0x014F, [0x014E]); (0x0151, [0x0150]);
   (0x0153, [0x0152]); (0x0155, [0x0154]); (0x0157, [0x0156]); (0x0159, [0x0158]);
   (0x015B, [0x015A]); (0x015D, [0x015C]); (0x015F, [0x015E]); (0x0161, [0x0160]);
   (0x0163, [0x0162]); (0x0165, [0x0164]); (0x0167, [0x0166]); (0x0169, [0x0168]);
   (0x016B, [0x016A]); (0x016D, [0x016C]); (0x016F, [0x016E]); (0x0171, [0x0170]);
   (0x0173, [0x0172]); (0x0175, [0x0174]); (0x0177, [0x0176]); (0x017A, [0x0179]);
   (0x017C, [0x017B]); (0x017E, [0x017D]); (0x017F, [0x0053]); (0x0180, [0x0243]);
   (0x0183, [0x0182]); (0x0185, [0x0184]); (0x0188, [0x0187]); (0x018C, [0x018B]);
   (0x0192, [0x0191]); (0x0195, [0x01F6]); (0x0199, [0x0198]); (0x019A, [0x023D]);
   (0x019E, [0x0220]); (0x01A1, [0x01A0]); (0x01A3, [0x01A2]); (0x01A5, [0x01A4]);
   (0x01A8, [0x01A7]); (0x01AD, [0x01AC]); (0x01B0, [0x01AF]); (0x01B4, [0x01B3]);
   (0x01B6, [0x01B5]); (0x01B9, [0x01B8]); (0x01BD, [0x01BC]); (0x01BF, [0x01F7]);
   (0x01C5, [0x01C4]); (0x01C6, [0x01C4]); (0x01C8, [0x01C7]); (0x01C9, [0x01C7]);
   (0x01CB, [0x01CA]); (0x01CC, [0x01CA]); (0x01CE, [0x01CD]); (0x01D0, [0x01CF]);
   (0x01D2, [0x01D1]); (0x01D4, [0x01D3]); (0x01D6, [0x01D5]); (0x01D8, [0x01D7]);
   (0x01DA, [0x01D9]); (0x01DC, [0x01DB]); (0x01DD, [0x018E]); (0x01DF, [0x01DE]);
   (0x01E1, [0x01E0]); (0x01E3, [0x01E2]); (0x01E5, [0x01E4]); (0x01E7, [0x01E6]);
   (0x01E9, [0x01E8]); (0x01EB, [0x01EA]); (0x01ED, [0x01EC]); (0x01EF, [0x01EE]);
   (0x01F0, [0x004A; 0x030C]); (0x01F2, [0x01F1]); (0x01F3, [0x01F1]); (0x01F5, [0x01F4]);
   (0x01F9, [0x01F8]); (0x01FB, [0x01FA]); (0x01FD, [0x01FC]); (0x01FF, [0x01FE]);
   (0x0201, [0x0200]); (0x0203, [0x0202]); (0x0205, [0x0204]); (0x0207, [0x0206]);
   (0x0209, [0x0208]); (0x020B, [0x020A]); (0x020D, [0x020C]); (0x020F, [0x020E]);
   (0x0211, [0x0210]); (0x0213, [0x0212]); (0x0215, [0x0214]); (0x0217, [0x0216]);
   (0x0219, [0x0218]); (0x021B, [0x021A]); (0x021D, [0x021C]); (0x021F, [0x021E]);
   (0x0223, [0x0222]); (0x0225, [0x0224]); (0x0227, [0x0226]); (0x0229, [0x0228]);
   (0x022B, [0x022A]); (0x022D, [0x022C]); (0x022F, [0x022E]); (0x0231, [0x0230]);
   (0x0233, [0x0232]); (0x023C, [0x023B]); (0x023F, [0x2C7E]); (0x0240, [0x2C7F]);
   (0x0242, [0x0241]); (0x0247, [0x0246]); (0x0249, [0x0248]); (0x024B, [0x024A]);
   (0x024D, [0x024C]); (0x024F, [0x024E]); (0x0250, [0x2C6F]); (0x0251, [0x2C6D]);
   (0x0252, [0x2C70]); (0x0253, [0x0181]); (0x0254, [0x0186]); (0x0256, [0x0189]);
   (0x0257, [0x018A]); (0x0259, [0x018F]); (0x025B, [0x0190]); (0x025C, [0xA7AB]);
   (0x0260, [0x0193]); (0x0261, [0xA7AC]); (0x0263, [0x0194]); (0x0265, [0xA78D]);
   (0x0266, [0xA7AA]); (0x0268, [0x0197]); (0x0269, [0x0196]); (0x026A, [0xA7AE]);
   (0x026B, [0x2C62]); (0x026C, [0xA7AD]); (0x026F, [0x019C]); (0x0271, [0x2C6E]);
   (0x0272, [0x019D]); (0x0275, [0x019F]); (0x027D, [0x2C64]); (0x0280, [0x01A6]);
   (0x0282, [0xA7C5]); (0x0283, [0x01A9]); (0x0287, [0xA7B1]); (0x0288, [0x01AE]);
   (0x0289, [0x0244]); (0x028A, [0x01B1]); (0x028B, [0x01B2]); (0x028C, [0x0245]);
   (0x0292, [0x01B7]); (0x029D, [0xA7B2]); (0x029E, [0xA7B0]); (0x0345, [0x0399]);
   (0x0371, [0x0370]); (0x0373, [0x0372]); (0x0377, [0x0376]); (0x037B, [0x03FD]);
   (0x037C, [0x03FE]); (0x037D, [0x03FF]); (0x0390, [0x0399; 0x0308; 0x0301]); (0x03AC, [0x0386]);
   (0x03AD, [0x0388]); (0x03AE, [0x0389]); (0x03AF, [0x038A]); (0x03B0, [0x03A5; 0x0308; 0x0301]);
   (0x03B1, [0x0391]); (0x03B2, [0x0392]); (0x03B3, [0x0393]); (0x03B4, [0x0394]);
   (0x03B5, [0x0395]); (0x03B6, [0x0396]); (0x03B7, [0x0397]); (0x03B8, [0x0398]);
   (0x03B9, [0x0399]); (0x03BA, [0x039A]); (0x03BB, [0x039B]); (0x03BC, [0x039C]);
   (0x03BD, [0x039D]); (0x03BE, [0x039E]); (0x03BF, [0x039F]); (0x03C0, [0x03A0]);
   (0x03C1, [0x03A1]); (0x03C2, [0x03A3]); (0x03C3, [0x03A3]); (0x03C4, [0x03A4]);
   (0x03C5, [0x03A5]); (0x03C6, [0x03A6]); (0x03C7, [0x03A7]); (0x03C8, [0x03A8]);
   (0x03C9, [0x03A9]); (0x03CA, [0x03AA]); (0x03CB, [0x03AB]); (0x03CC, [0x038C]);
   (0x03CD, [0x038E]); (0x03CE, [0x038F]); (0x03D0, [0x0392]); (0x03D1, [0x0398]);
   (0x03D5, [0x03A6]); (0x03D6, [0x03A0]); (0x03D7, [0x03CF]); (0x03D9, [0x03D8]);
   (0x03DB, [0x03DA]); (0x03DD, [0x03DC]); (0x03DF, [0x03DE]); (0x03E1, [0x03E0]);
   (0x03E3, [0x03E2]); (0x03E5, [0x03E4]); (0x03E7, [0x03E6]); (0x03E9, [0x03E8]);
   (0x03EB, [0x03EA]); (0x03ED, [0x03EC]); (0x03EF, [0x03EE]); (0x03F0, [0x039A]);
   (0x03F1, [0x03A1]); (0x03F2, [0x03F9]); (0x03F3, [0x037F]); (0x03F5, [0x0395]);
   (0x03F8, [0x03F7]); (0x03FB, [0x03FA]); (0x0430, [0x0410]); (0x0431, [0x0411]);
   (0x0432, [0x0412]); (0x0433, [0x0413]); (0x0434, [0x0414]); (0x0435, [0x0415]);
   (0x0436, [0x0416]); (0x0437, [0x0417]); (0x0438, [0x0418]); (0x0439, [0x0419]);
   (0x043A, [0x041A]); (0x043B, [0x041B]); (0x043C, [0x041C]); (0x043D, [0x041D]);
   (0x043E, [0x041E]); (0x043F, [0x041F]); (0x0440, [0x0420]); (0x0441, [0x0421]);
   (0x0442, [0x0422]); (0x0443, [0x0423]); (0x0444, [0x0424]); (0x0445, [0x0425]);
   (0x0446, [0x0426]); (0x0447, [0x0427]); (0x0448, [0x0428]); (0x0449, [0x0429]);
   (0x044A, [0x042A]); (0x044B, [0x042B]); (0x044C, [0x042C]); (0x044D, [0x042D]);
   (0x044E, [0x042E]); (0x044F, [0x042F]); (0x0450, [0x0400]); (0x0451, [0x0401]);
   (0x0452, [0x0402]); (0x0453, [0x0403]); (0x0454, [0x0404]); (0x0455, [0x0405]);
   (0x0456, [0x0406]); (0x0457, [0x0407]); (0x0458, [0x0408]); (0x0459, [0x0409]);
   (0x045A, [0x040A]); (0x045B, [0x040B]); (0x045C, [0x040C]); (0x045D, [0x040D]);
   (0x045E, [0x040E]); (0x045F, [0x040F]); (0x0461, [0x0460]); (0x0463, [0x0462]);
   (0x0465, [0x0464]); (0x0467, [0x0466]); (0x0469, [0x0468]); (0x046B, [0x046A]);
   (0x046D, [0x046C]); (0x046F, [0x046E]); (0x0471, [0x0470]); (0x0473, [0x0472]);
   (0x0475, [0x0474]); (0x0477, [0x0476]); (0x0479, [0x0478]); (0x047B, [0x047A]);
   (0x047D, [0x047C]); (0x047F, [0x047E]); (0x0481, [0x0480]); (0x048B, [0x048A]);
   (0x048D, [0x048C]); (0x048F, [0x048E]); (0x0491, [0x0490]); (0x0493, [0x0492]);
   (0x0495, [0x0494]); (0x0497, [0x0496]); (0x0499, [0x0498]); (0x049B, [0x049A]);
   (0x049D, [0x049C]); (0x049F, [0x049E]); (0x04A1, [0x04A0]); (0x04A3, [0x04A2]);
   (0x04A5, [0x04A4]); (0x04A7, [0x04A6]); (0x04A9, [0x04A8]); (0x04AB, [0x04AA]);
   (0x04AD, [0x04AC]); (0x04AF, [0x04AE]); (0x04B1, [0x04B0]); (0x04B3, [0x04B2]);
   (0x04B5, [0x04B4]); (0x04B7, [0x04B6]); (0x04B9, [0x04B8]); (0x04BB, [0x04BA]);
   (0x04BD, [0x04BC]); (0x04BF, [0x04BE]); (0x04C2, [0x04C1]); (0x04C4, [0x04C3]);
   (0x04C6, [0x04C5]); (0x04C8, [0x04C7]); (0x04CA, [0x04C9]); (0x04CC, [0x04CB]);
   (0x04CE, [0x04CD]); (0x04CF, [0x04C0]); (0x04D1, [0x04D0]); (0x04D3, [0x04D2]);
   (0x04D5, [0x04D4]); (0x04D7, [0x04D6]); (0x04D9, [0x04D8]); (0x04DB, [0x04DA]);
   (0x04DD, [0x04DC]); (0x04DF, [0x04DE]); (0x04E1, [0x04E0]); (0x04E3, [0x04E2]);
   (0x04E5, [0x04E4]); (0x04E7, [0x04E6]); (0x04E9, [0x04E8]); (0x04EB, [0x04EA]);
   (0x04ED, [0x04EC]); (0x04EF, [0x04EE]); (0x04F1, [0x04F0]); (0x04F3, [0x04F2]);
   (0x04F5, [0x04F4]); (0x04F7, [0x04F6]); (0x04F9, [0x04F8]); (0x04FB, [0x04FA]);
   (0x04FD, [0x04FC]); (0x04FF, [0x04FE]); (0x0501, [0x0500]); (0x0503, [0x0502]);
   (0x0505, [0x0504]); (0x0507, [0x0506]); (0x0509, [0x0508]); (0x050B, [0x050A]);
   (0x050D, [0x050C]); (0x050F, [0x050E]); (0x0511, [0x0510]); (0x0513, [0x0512]);
   (0x0515, [0x0514]); (0x0517, [0x0516]); (0x0519, [0x0518]); (0x051B, [0x051A]);
   (0x051D, [0x051C]); (0x051F, [0x051E]); (0x0521, [0x0520]); (0x0523, [0x0522]);
   (0x0525, [0x0524]); (0x0527, [0x0526]); (0x0529, [0x0528]); (0x052B, [0x052A]);
   (0x052D, [0x052C]); (0x052F, [0x052E]); (0x0561, [0x0531]); (0x0562, [0x0532]);
   (0x0563, [0x0533]); (0x0564, [0x0534]); (0x0565, [0x0535]); (0x0566, [0x0536]);
   (0x0567, [0x0537]); (0x0568, [0x0538]); (0x0569, [0x0539]); (0x056A, [0x053A]);
   (0x056B, [0x053B]); (0x056C, [0x053C]); (0x056D, [0x053D]); (0x056E, [0x053E]);
   (0x056F, [0x053F]); (0x0570, [0x0540]); (0x0571, [0x0541]); (0x0572, [0x0542]);
   (0x0573, [0x0543]); (0x0574, [0x0544]); (0x0575, [0x0545]); (0x0576, [0x0546]);
   (0x0577, [0x0547]); (0x0578, [0x0548]); (0x0579, [0x0549]); (0x057A, [0x054A]);
   (0x057B, [0x054B]); (0x057C, [0x054C]); (0x057D, [0x054D]); (0x057E, [0x054E]);
   (0x057F, [0x054F]); (0x0580, [0x0550]); (0x0581, [0x0551]); (0x0582, [0x0552]);
   (0x0583, [0x0553]); (0x0584, [0x0554]); (0x0585, [0x0555]); (0x0586, [0x0556]);
   (0x0587, [0x0535; 0x0552]); (0x10D0, [0x1C90]); (0x10D1, [0x1C91]); (0x10D2, [0x1C92]);
   (0x10D3, [0x1C93]); (0x10D4, [0x1C94]); (0x10D5, [0x1C95]); (0x10D6, [0x1C96]);
   (0x10D7, [0x1C97]); (0x10D8, [0x1C98]); (0x10D9, [0x1C99]); (0x10DA, [0x1C9A]);
   (0x10DB, [0x1C9B]); (0x10DC, [0x1C9C]); (0x10DD, [0x1C9D]); (0x10DE, [0x1C9E]);
   (0x10DF, [0x1C9F]); (0x10E0, [0x1CA0]); (0x10E1, [0x1CA1]); (0x10E2, [0x1CA2]);
   (0x10E3, [0x1CA3]); (0x10E4, [0x1CA4]); (0x10E5, [0x1CA5]); (0x10E6, [0x1CA6]);
   (0x10E7, [0x1CA7]); (0x10E8, [0x1CA8]); (0x10E9, [0x1CA9]); (0x10EA, [0x1CAA]);
   (0x10EB, [0x1CAB]); (0x10EC, [0x1CAC]); (0x10ED, [0x1CAD]); (0x10EE, [0x1CAE]);
   (0x10EF, [0x1CAF]); (0x10F0, [0x1CB0]); (0x10F1, [0x1CB1]); (0x10F2, [0x1CB2]);
   (0x10F3, [0x1CB3]); (0x10F4, [0x1CB4]); (0x10F5, [0x1CB5]); (0x10F6, [0x1CB6]);
   (0x10F7, [0x1CB7]); (0x10F8, [0x1CB8]); (0x10F9, [0x1CB9]); (0x10FA, [0x1CBA]);
   (0x10FD, [0x1CBD]); (0x10FE, [0x1CBE]); (0x10FF, [0x1CBF]); (0x13F8, [0x13F0]);
   (0x13F9, [0x13F1]); (0x13FA, [0x13F2]); (0x13FB, [0x13F3]); (0x13FC, [0x13F4]);
   (0x13FD, [0x13F5]); (0x1C80, [0x0412]); (0x1C81, [0x0414]); (0x1C82, [0x041E]);
   (0x1C83, [0x0421]); (0x1C84, [0x0422]); (0x1C85, [0x0422]); (0x1C86, [0x042A]);
   (0x1C87, [0x0462]); (0x1C88, [0xA64A]); (0x1D79, [0xA77D]); (0x1D7D, [0x2C63]);
   (0x1D8E, [0xA7C6]); (0x1E01, [0x1E00]); (0x1E03, [0x1E02]); (0x1E05, [0x1E04]);
   (0x1E07, [0x1E06]); (0x1E09, [0x1E08]); (0x1E0B, [0x1E0A]); (0x1E0D, [0x1E0C]);
   (0x1E0F, [0x1E0E]); (0x1E11, [0x1E10]); (0x1E13, [0x1E12]); (0x1E15, [0x1E14]);
   (0x1E17, [0x1E16]); (0x1E19, [0x1E18]); (0x1E1B, [0x1E1A]); (0x1E1D, [0x1E1C]);
   (0x1E1F, [0x1E1E]); (0x1E21, [0x1E20]); (0x1E23, [0x1E22]); (0x1E25, [0x1E24]);
   (0x1E27, [0x1E26]); (0x1E29, [0x1E28]); (0x1E2B, [0x1E2A]); (0x1E2D, [0x1E2C]);
   (0x1E2F, [0x1E2E]); (0x1E31, [0x1E30]); (0x1E33, [0x1E32]); (0x1E35, [0x1E34]);
   (0x1E37, [0x1E36]); (0x1E39, [0x1E38]); (0x1E3B, [0x1E3A]); (0x1E3D, [0x1E3C]);
   (0x1E3F, [0x1E3E]); (0x1E41, [0x1E40]); (0x1E43, [0x1E42]); (0x1E45, [0x1E44]);
   (0x1E47, [0x1E46]); (0x1E49, [0x1E48]); (0x1E4B, [0x1E4A]); (0x1E4D, [0x1E4C]);
   (0x1E4F, [0x1E4E]); (0x1E51, [0x1E50]); (0x1E53, [0x1E52]); (0x1E55, [0x1E54]);
   (0x1E57, [0x1E56]); (0x1E59, [0x1E58]); (0x1E5B, [0x1E5A]); (0x1E5D, [0x1E5C]);
   (0x1E5F, [0x1E5E]); (0x1E61, [0x1E60]); (0x1E63, [0x1E62]); (0x1E65, [0x1E64]);
   (0x1E67, [0x1E66]); (0x1E69, [0x1E68]); (0x1E6B, [0x1E6A]); (0x1E6D, [0x1E6C]);
   (0x1E6F, [0x1E6E]); (0x1E71, [0x1E70]); (0x1E73, [0x1E72]); (0x1E75, [0x1E74]);
   (0x1E77, [0x1E76]); (0x1E79, [0x1E78]); (0x1E7B, [0x1E7A]); (0x1E7D, [0x1E7C]);
   (0x1E7F, [0x1E7E]); (0x1E81, [0x1E80]); (0x1E83, [0x1E82]); (0x1E85, [0x1E84]);
   (0x1E87, [0x1E86]); (0x1E89, [0x1E88]); (0x1E8B, [0x1E8A]); (0x1E8D, [0x1E8C]);
   (0x1E8F, [0x1E8E]); (0x1E91, [0x1E90]); (0x1E93, [0x1E92]); (0x1E95, [0x1E94]);
   (0x1E96, [0x0048; 0x0331]); (0x1E97, [0x0054; 0x0308]); (0x1E98, [0x0057; 0x030A]);
   (0x1E99, [0x0059; 0x030A]); (0x1E9A, [0x0041; 0x02BE]); (0x1E9B, [0x1E60]); (0x1EA1, [0x1EA0]);
   (0x1EA3, [0x1EA2]); (0x1EA5, [0x1EA4]); (0x1EA7, [0x1EA6]); (0x1EA9, [0x1EA8]);
   (0x1EAB, [0x1EAA]); (0x1EAD, [0x1EAC]); (0x1EAF, [0x1EAE]); (0x1EB1, [0x1EB0]);
   (0x1EB3, [0x1EB2]); (0x1EB5, [0x1EB4]); (0x1EB7, [0x1EB6]); (0x1EB9, [0x1EB8]);
   (0x1EBB, [0x1EBA]); (0x1EBD, [0x1EBC]); (0x1EBF, [0x1EBE]); (0x1EC1, [0x1EC0]);
   (0x1EC3, [0x1EC2]); (0x1EC5, [0x1EC4]); (0x1EC7, [0x1EC6]); (0x1EC9, [0x1EC8]);
   (0x1ECB, [0x1ECA]); (0x1ECD, [0x1ECC]); (0x1ECF, [0x1ECE]); (0x1ED1, [0x1ED0]);
   (0x1ED3, [0x1ED2]); (0x1ED5, [0x1ED4]); (0x1ED7, [0x1ED6]); (0x1ED9, [0x1ED8]);
   (0x1EDB, [0x1EDA]); (0x1EDD, [0x1EDC]); (0x1EDF, [0x1EDE]); (0x1EE1, [0x1EE0]);
   (0x1EE3, [0x1EE2]); (0x1EE5, [0x1EE4]); (0x1EE7, [0x1EE6]); (0x1EE9, [0x1EE8]);
   (0x1EEB, [0x1EEA]); (0x1EED, [0x1EEC]); (0x1EEF, [0x1EEE]); (0x1EF1, [0x1EF0]);
   (0x1EF3, [0x1EF2]); (0x1EF5, [0x1EF4]); (0x1EF7, [0x1EF6]); (0x1EF9, [0x1EF8]);
   (0x1EFB, [0x1EFA]); (0x1EFD, [0x1EFC]); (0x1EFF, [0x1EFE]); (0x1F00, [0x1F08]);
   (0x1F01, [0x1F09]); (0x1F02, [0x1F0A]); (0x1F03, [0x1F0B]); (0x1F04, [0x1F0C]);
   (0x1F05, [0x1F0D]); (0x1F06, [0x1F0E]); (0x1F07, [0x1F0F]); (0x1F10, [0x1F18]);
   (0x1F11, [0x1F19]); (0x1F12, [0x1F1A]); (0x1F13, [0x1F1B]); (0x1F14, [0x1F1C]);
   (0x1F15, [0x1F1D]); (0x1F20, [0x1F28]); (0x1F21, [0x1F29]); (0x1F22, [0x1F2A]);
   (0x1F23, [0x1F2B]); (0x1F24, [0x1F2C]); (0x1F25, [0x1F2D]); (0x1F26, [0x1F2E]);
   (0x1F27, [0x1F2F]); (0x1F30, [0x1F38]); (0x1F31, [0x1F39]); (0x1F32, [0x1F3A]);
   (0x1F33, [0x1F3B]); (0x1F34, [0x1F3C]); (0x1F35, [0x1F3D]); (0x1F36, [0x1F3E]);
   (0x1F37, [0x1F3F]); (0x1F40, [0x1F48]); (0x1F41, [0x1F49]); (0x1F42, [0x1F4A]);
   (0x1F43, [0x1F4B]); (0x1F44, [0x1F4C]); (0x1F45, [0x1F4D]); (0x1F50, [0x03A5; 0x0313]);
   (0x1F51, [0x1F59]); (0x1F52, [0x03A5; 0x0313; 0x0300]); (0x1F53, [0x1F5B]);
   (0x1F54, [0x03A5; 0x0313; 0x0301]); (0x1F55, [0x1F5D]); (0x1F56, [0x03A5; 0x0313; 0x0342]);
   (0x1F57, [0x1F5F]); (0x1F60, [0x1F68]); (0x1F61, [0x1F69]); (0x1F62, [0x1F6A]);
   (0x1F63, [0x1F6B]); (0x1F64, [0x1F6C]); (0x1F65, [0x1F6D]); (0x1F66, [0x1F6E]);
   (0x1F67, [0x1F6F]); (0x1F70, [0x1FBA]); (0x1F71, [0x1FBB]); (0x1F72, [0x1FC8]);
   (0x1F73, [0x1FC9]); (0x1F74, [0x1FCA]); (0x1F75, [0x1FCB]); (0x1F76, [0x1FDA]);
   (0x1F77, [0x1FDB]); (0x1F78, [0x1FF8]); (0x1F79, [0x1FF9]); (0x1F7A, [0x1FEA]);
   (0x1F7B, [0x1FEB]); (0x1F7C, [0x1FFA]); (0x1F7D, [0x1FFB]); (0x1F80, [0x1F08; 0x0399]);
   (0x1F81, [0x1F09; 0x0399]); (0x1F82, [0x1F0A; 0x0399]); (0x1F83, [0x1F0B; 0x0399]);
   (0x1F84, [0x1F0C; 0x0399]); (0x1F85, [0x1F0D; 0x0399]); (0x1F86, [0x1F0E; 0x0399]);
   (0x1F87, [0x1F0F; 0x0399]); (0x1F88, [0x1F08; 0x0399]); (0x1F89, [0x1F09; 0x0399]);
   (0x1F8A, [0x1F0A; 0x0399]); (0x1F8B, [0x1F0B; 0x0399]); (0x1F8C, [0x1F0C; 0x0399]);
   (0x1F8D, [0x1F0D; 0x0399]); (0x1F8E, [0x1F0E; 0x0399]); (0x1F8F, [0x1F0F; 0x0399]);
   (0x1F90, [0x1F28; 0x0399]); (0x1F91, [0x1F29; 0x0399]); (0x1F92, [0x1F2A; 0x0399]);
   (0x1F93, [0x1F2B; 0x0399]); (0x1F94, [0x1F2C; 0x0399]); (0x1F95, [0x1F2D; 0x0399]);
   (0x1F96, [0x1F2E; 0x0399]); (0x1F97, [0x1F2F; 0x0399]); (0x1F98, [0x1F28; 0x0399]);
   (0x1F99, [0x1F29; 0x0399]); (0x1F9A, [0x1F2A; 0x0399]); (0x1F9B, [0x1F2B; 0x0399]);
   (0x1F9C, [0x1F2C; 0x0399]); (0x1F9D, [0x1F2D; 0x0399]); (0x1F9E, [0x1F2E; 0x0399]);
   (0x1F9F, [0x1F2F; 0x0399]); (0x1FA0, [0x1F68; 0x0399]); (0x1FA1, [0x1F69; 0x0399]);
   (0x1FA2, [0x1F6A; 0x0399]); (0x1FA3, [0x1F6B; 0x0399]); (0x1FA4, [0x1F6C; 0x0399]);
   (0x1FA5, [0x1F6D; 0x0399]); (0x1FA6, [0x1F6E; 0x0399]); (0x1FA7, [0x1F6F; 0x0399]);
   (0x1FA8, [0x1F68; 0x0399]); (0x1FA9, [0x1F69; 0x0399]); (0x1FAA, [0x1F6A; 0x0399]);
   (0x1FAB, [0x1F6B; 0x0399]); (0x1FAC, [0x1F6C; 0x0399]); (0x1FAD, [0x1F6D; 0x0399]);
   (0x1FAE, [0x1F6E; 0x0399]); (0x1FAF, [0x1F6F; 0x0399]); (0x1FB0, [0x1FB8]); (0x1FB1, [0x1FB9]);
   (0x1FB2, [0x1FBA; 0x0399]); (0x1FB3, [0x0391; 0x0399]); (0x1FB4, [0x0386; 0x0399]);
   (0x1FB6, [0x0391; 0x0342]); (0x1FB7, [0x0391; 0x0342; 0x0399]); (0x1FBC, [0x0391; 0x0399]);
   (0x1FBE, [0x0399]); (0x1FC2, [0x1FCA; 0x0399]); (0x1FC3, [0x0397; 0x0399]);
   (0x1FC4, [0x0389; 0x0399]); (0x1FC6, [0x0397; 0x0342]); (0x1FC7, [0x0397; 0x0342; 0x0399]);
   (0x1FCC, [0x0397; 0x0399]); (0x1FD0, [0x1FD8]); (0x1FD1, [0x1FD9]);
   (0x1FD2, [0x0399; 0x0308; 0x0300]); (0x1FD3, [0x0399; 0x0308; 0x0301]);
   (0x1FD6, [0x0399; 0x0342]); (0x1FD7, [0x0399; 0x0308; 0x0342]); (0x1FE0, [0x1FE8]);
   (0x1FE1, [0x1FE9]); (0x1FE2, [0x03A5; 0x0308; 0x0300]); (0x1FE3, [0x03A5; 0x0308; 0x0301]);
   (0x1FE4, [0x03A1; 0x0313]); (0x1FE5, [0x1FEC]); (0x1FE6, [0x03A5; 0x0342]);
   (0x1FE7, [0x03A5; 0x0308; 0x0342]); (0x1FF2, [0x1FFA; 0x0399]); (0x1FF3, [0x03A9; 0x0399]);
   (0x1FF4, [0x038F; 0x0399]); (0x1FF6, [0x03A9; 0x0342]); (0x1FF7, [0x03A9; 0x0342; 0x0399]);
   (0x1FFC, [0x03A9; 0x0399]); (0x214E, [0x2132]); (0x2170, [0x2160]); (0x2171, [0x2161]);
   (0x2172, [0x2162]); (0x2173, [0x2163]); (0x2174, [0x2164]); (0x2175, [0x2165]);
   (0x2176, [0x2166]); (0x2177, [0x2167]); (0x2178, [0x2168]); (0x2179, [0x2169]);
   (0x217A, [0x216A]); (0x217B, [0x216B]); (0x217C, [0x216C]); (0x217D, [0x216D]);
   (0x217E, [0x216E]); (0x217F, [0x216F]); (0x2184, [0x2183]); (0x24D0, [0x24B6]);
   (0x24D1, [0x24B7]); (0x24D2, [0x24B8]); (0x24D3, [0x24B9]); (0x24D4, [0x24BA]);
   (0x24D5, [0x24BB]); (0x24D6, [0x24BC]); (0x24D7, [0x24BD]); (0x24D8, [0x24BE]);
   (0x24D9, [0x24BF]); (0x24DA, [0x24C0]); (0x24DB, [0x24C1]); (0x24DC, [0x24C2]);
   (0x24DD, [0x24C3]); (0x24DE, [0x24C4]); (0x24DF, [0x24C5]); (0x24E0, [0x24C6]);
   (0x24E1, [0x24C7]); (0x24E2, [0x24C8]); (0x24E3, [0x24C9]); (0x24E4, [0x24CA]);
   (0x24E5, [0x24CB]); (0x24E6, [0x24CC]); (0x24E7, [0x24CD]); (0x24E8, [0x24CE]);
   (0x24E9, [0x24CF]); (0x2C30, [0x2C00]); (0x2C31, [0x2C01]); (0x2C32, [0x2C02]);
   (0x2C33, [0x2C03]); (0x2C34, [0x2C04]); (0x2C35, [0x2C05]); (0x2C36, [0x2C06]);
   (0x2C37, [0x2C07]); (0x2C38, [0x2C08]); (0x2C39, [0x2C09]); (0x2C3A, [0x2C0A]);
   (0x2C3B, [0x2C0B]); (0x2C3C, [0x2C0C]); (0x2C3D, [0x2C0D]); (0x2C3E, [0x2C0E]);
   (0x2C3F, [0x2C0F]); (0x2C40, [0x2C10]); (0x2C41, [0x2C11]); (0x2C42, [0x2C12]);
   (0x2C43, [0x2C13]); (0x2C44, [0x2C14]); (0x2C45, [0x2C15]); (0x2C46, [0x2C16]);
   (0x2C47, [0x2C17]); (0x2C48, [0x2C18]); (0x2C49, [0x2C19]); (0x2C4A, [0x2C1A]);
   (0x2C4B, [0x2C1B]); (0x2C4C, [0x2C1C]); (0x2C4D, [0x2C1D]); (0x2C4E, [0x2C1E]);
   (0x2C4F, [0x2C1F]); (0x2C50, [0x2C20]); (0x2C51, [0x2C21]); (0x2C52, [0x2C22]);
   (0x2C53, [0x2C23]); (0x2C54, [0x2C24]); (0x2C55, [0x2C25]); (0x2C56, [0x2C26]);
   (0x2C57, [0x2C27]); (0x2C58, [0x2C28]); (0x2C59, [0x2C29]); (0x2C5A, [0x2C2A]);
   (0x2C5B, [0x2C2B]); (0x2C5C, [0x2C2C]); (0x2C5D, [0x2C2D]); (0x2C5E, [0x2C2E]);
   (0x2C5F, [0x2C2F]); (0x2C61, [0x2C60]); (0x2C65, [0x023A]); (0x2C66, [0x023E]);
   (0x2C68, [0x2C67]); (0x2C6A, [0x2C69]); (0x2C6C, [0x2C6B]); (0x2C73, [0x2C72]);
   (0x2C76, [0x2C75]); (0x2C81, [0x2C80]); (0x2C83, [0x2C82]); (0x2C85, [0x2C84]);
   (0x2C87, [0x2C86]); (0x2C89, [0x2C88]); (0x2C8B, [0x2C8A]); (0x2C8D, [0x2C8C]);
   (0x2C8F, [0x2C8E]); (0x2C91, [0x2C90]); (0x2C93, [0x2C92]); (0x2C95, [0x2C94]);
   (0x2C97, [0x2C96]); (0x2C99, [0x2C98]); (0x2C9B, [0x2C9A]); (0x2C9D, [0x2C9C]);
   (0x2C9F, [0x2C9E]); (0x2CA1, [0x2CA0]); (0x2CA3, [0x2CA2]); (0x2CA5, [0x2CA4]);
   (0x2CA7, [0x2CA6]); (0x2CA9, [0x2CA8]); (0x2CAB, [0x2CAA]); (0x2CAD, [0x2CAC]);
   (0x2CAF, [0x2CAE]); (0x2CB1, [0x2CB0]); (0x2CB3, [0x2CB2]); (0x2CB5, [0x2CB4]);
   (0x2CB7, [0x2CB6]); (0x2CB9, [0x2CB8]); (0x2CBB, [0x2CBA]); (0x2CBD, [0x2CBC]);
   (0x2CBF, [0x2CBE]); (0x2CC1, [0x2CC0]); (0x2CC3, [0x2CC2]); (0x2CC5, [0x2CC4]);
   (0x2CC7, [0x2CC6]); (0x2CC9, [0x2CC8]); (0x2CCB, [0x2CCA]); (0x2CCD, [0x2CCC]);
   (0x2CCF, [0x2CCE]); (0x2CD1, [0x2CD0]); (0x2CD3, [0x2CD2]); (0x2CD5, [0x2CD4]);
   (0x2CD7, [0x2CD6]); (0x2CD9, [0x2CD8]); (0x2CDB, [0x2CDA]); (0x2CDD, [0x2CDC]);
   (0x2CDF, [0x2CDE]); (0x2CE1, [0x2CE0]); (0x2CE3, [0x2CE2]); (0x2CEC, [0x2CEB]);
   (0x2CEE, [0x2CED]); (0x2CF3, [0x2CF2]); (0x2D00, [0x10A0]); (0x2D01, [0x10A1]);
   (0x2D02, [0x10A2]); (0x2D03, [0x10A3]); (0x2D04, [0x10A4]); (0x2D05, [0x10A5]);
   (0x2D06, [0x10A6]); (0x2D07, [0x10A7]); (0x2D08, [0x10A8]); (0x2D09, [0x10A9]);
   (0x2D0A, [0x10AA]); (0x2D0B, [0x10AB]); (0x2D0C, [0x10AC]); (0x2D0D, [0x10AD]);
   (0x2D0E, [0x10AE]); (0x2D0F, [0x10AF]); (0x2D10, [0x10B0]); (0x2D11, [0x10B1]);
   (0x2D12, [0x10B2]); (0x2D13, [0x10B3]); (0x2D14, [0x10B4]); (0x2D15, [0x10B5]);
   (0x2D16, [0x10B6]); (0x2D17, [0x10B7]); (0x2D18, [0x10B8]); (0x2D19, [0x10B9]);
   (0x2D1A, [0x10BA]); (0x2D1B, [0x10BB]); (0x2D1C, [0x10BC]); (0x2D1D, [0x10BD]);
   (0x2D1E, [0x10BE]); (0x2D1F, [0x10BF]); (0x2D20, [0x10C0]); (0x2D21, [0x10C1]);
   (0x2D22, [0x10C2]); (0x2D23, [0x10C3]); (0x2D24, [0x10C4]); (0x2D25, [0x10C5]);
   (0x2D27, [0x10C7]); (0x2D2D, [0x10CD]); (0xA641, [0xA640]); (0xA643, [0xA642]);
   (0xA645, [0xA644]); (0xA647, [0xA646]); (0xA649, [0xA648]); (0xA64B, [0xA64A]);
   (0xA64D, [0xA64C]); (0xA64F, [0xA64E]); (0xA651, [0xA650]); (0xA653, [0xA652]);
   (0xA655, [0xA654]); (0xA657, [0xA656]); (0xA659, [0xA658]); (0xA65B, [0xA65A]);
   (0xA65D, [0xA65C]); (0xA65F, [0xA65E]); (0xA661, [0xA660]); (0xA663, [0xA662]);
   (0xA665, [0xA664]); (0xA667, [0xA666]); (0xA669, [0xA668]); (0xA66B, [0xA66A]);
   (0xA66D, [0xA66C]); (0xA681, [0xA680]); (0xA683, [0xA682]); (0xA685, [0xA684]);
   (0xA687, [0xA686]); (0xA689, [0xA688]); (0xA68B, [0xA68A]); (0xA68D, [0xA68C]);
   (0xA68F, [0xA68E]); (0xA691, [0xA690]); (0xA693, [0xA692]); (0xA695, [0xA694]);
   (0xA697, [0xA696]); (0xA699, [0xA698]); (0xA69B, [0xA69A]); (0xA723, [0xA722]);
   (0xA725, [0xA724]); (0xA727, [0xA726]); (0xA729, [0xA728]); (0xA72B, [0xA72A]);
   (0xA72D, [0xA72C]); (0xA72F, [0xA72E]); (0xA733, [0xA732]); (0xA735, [0xA734]);
   (0xA737, [0xA736]); (0xA739, [0xA738]); (0xA73B, [0xA73A]); (0xA73D, [0xA73C]);
   (0xA73F, [0xA73E]); (0xA741, [0xA740]); (0xA743, [0xA742]); (0xA745, [0xA744]);
   (0xA747, [0xA746]); (0xA749, [0xA748]); (0xA74B, [0xA74A]); (0xA74D, [0xA74C]);
   (0xA74F, [0xA74E]); (0xA751, [0xA750]); (0xA753, [0xA752]); (0xA755, [0xA754]);
   (0xA757, [0xA756]); (0xA759, [0xA758]); (0xA75B, [0xA75A]); (0xA75D, [0xA75C]);
   (0xA75F, [0xA75E]); (0xA761, [0xA760]); (0xA763, [0xA762]); (0xA765, [0xA764]);
   (0xA767, [0xA766]); (0xA769, [0xA768]); (0xA76B, [0xA76A]); (0xA76D, [0xA76C]);
   (0xA76F, [0xA76E]); (0xA77A, [0xA779]); (0xA77C, [0xA77B]); (0xA77F, [0xA77E]);
   (0xA781, [0xA780]); (0xA783, [0xA782]); (0xA785, [0xA784]); (0xA787, [0xA786]);
   (0xA78C, [0xA78B]); (0xA791, [0xA790]); (0xA793, [0xA792]); (0xA794, [0xA7C4]);
   (0xA797, [0xA796]); (0xA799, [0xA798]); (0xA79B, [0xA79A]); (0xA79D, [0xA79C]);
   (0xA79F, [0xA79E]); (0xA7A1, [0xA7A0]); (0xA7A3, [0xA7A2]); (0xA7A5, [0xA7A4]);
   (0xA7A7, [0xA7A6]); (0xA7A9, [0xA7A8]); (0xA7B5, [0xA7B4]); (0xA7B7, [0xA7B6]);
   (0xA7B9, [0xA7B8]); (0xA7BB, [0xA7BA]); (0xA7BD, [0xA7BC]); (0xA7BF, [0xA7BE]);
   (0xA7C1, [0xA7C0]); (0xA7C3, [0xA7C2]); (0xA7C8, [0xA7C7]); (0xA7CA, [0xA7C9]);
   (0xA7D1, [0xA7D0]); (0xA7D7, [0xA7D6]); (0xA7D9, [0xA7D8]); (0xA7F6, [0xA7F5]);
   (0xAB53, [0xA7B3]); (0xAB70, [0x13A0]); (0xAB71, [0x13A1]); (0xAB72, [0x13A2]);
   (0xAB73, [0x13A3]); (0xAB74, [0x13A4]); (0xAB75, [0x13A5]); (0xAB76, [0x13A6]);
   (0xAB77, [0x13A7]); (0xAB78, [0x13A8]); (0xAB79, [0x13A9]); (0xAB7A, [0x13AA]);
   (0xAB7B, [0x13AB]); (0xAB7C, [0x13AC]); (0xAB7D, [0x13AD]); (0xAB7E, [0x13AE]);
   (0xAB7F, [0x13AF]); (0xAB80, [0x13B0]); (0xAB81, [0x13B1]); (0xAB82, [0x13B2]);
   (0xAB83, [0x13B3]); (0xAB84, [0x13B4]); (0xAB85, [0x13B5]); (0xAB86, [0x13B6]);
   (0xAB87, [0x13B7]); (0xAB88, [0x13B8]); (0xAB89, [0x13B9]); (0xAB8A, [0x13BA]);
   (0xAB8B, [0x13BB]); (0xAB8C, [0x13BC]); (0xAB8D, [0x13BD]); (0xAB8E, [0x13BE]);
   (0xAB8F, [0x13BF]); (0xAB90, [0x13C0]); (0xAB91, [0x13C1]); (0xAB92, [0x13C2]);
   (0xAB93, [0x13C3]); (0xAB94, [0x13C4]); (0xAB95, [0x13C5]); (0xAB96, [0x13C6]);
   (0xAB97, [0x13C7]); (0xAB98, [0x13C8]); (0xAB99, [0x13C9]); (0xAB9A, [0x13CA]);
   (0xAB9B, [0x13CB]); (0xAB9C, [0x13CC]); (0xAB9D, [0x13CD]); (0xAB9E, [0x13CE]);
   (0xAB9F, [0x13CF]); (0xABA0, [0x13D0]); (0xABA1, [0x13D1]); (0xABA2, [0x13D2]);
   (0xABA3, [0x13D3]); (0xABA4, [0x13D4]); (0xABA5, [0x13D5]); (0xABA6, [0x13D6]);
   (0xABA7, [0x13D7]); (0xABA8, [0x13D8]); (0xABA9, [0x13D9]); (0xABAA, [0x13DA]);
   (0xABAB, [0x13DB]); (0xABAC, [0x13DC]); (0xABAD, [0x13DD]); (0xABAE, [0x13DE]);
   (0xABAF, [0x13DF]); (0xABB0, [0x13E0]); (0xABB1, [0x13E1]); (0xABB2, [0x13E2]);
   (0xABB3, [0x13E3]); (0xABB4, [0x13E4]); (0xABB5, [0x13E5]); (0xABB6, [0x13E6]);
   (0xABB7, [0x13E7]); (0xABB8, [0x13E8]); (0xABB9, [0x13E9]); (0xABBA, [0x13EA]);
   (0xABBB, [0x13EB]); (0xABBC, [0x13EC]); (0xABBD, [0x13ED]); (0xABBE, [0x13EE]);
   (0xABBF, [0x13EF]); (0xFB00, [0x0046; 0x0046]); (0xFB01, [0x0046; 0x0049]);
   (0xFB02, [0x0046; 0x004C]); (0xFB03, [0x0046; 0x0046; 0x0049]);
   (0xFB04, [0x0046; 0x0046; 0x004C]); (0xFB05, [0x0053; 0x0054]); (0xFB06, [0x0053; 0x0054]);
   (0xFB13, [0x0544; 0x0546]); (0xFB14, [0x0544; 0x0535]); (0xFB15, [0x0544; 0x053B]);
   (0xFB16, [0x054E; 0x0546]); (0xFB17, [0x0544; 0x053D]); (0xFF41, [0xFF21]); (0xFF42, [0xFF22]);
   (0xFF43, [0xFF23]); (0xFF44, [0xFF24]); (0xFF45, [0xFF25]); (0xFF46, [0xFF26]);
   (0xFF47, [0xFF27]); (0xFF48, [0xFF28]); (0xFF49, [0xFF29]); (0xFF4A, [0xFF2A]);
   (0xFF4B, [0xFF2B]); (0xFF4C, [0xFF2C]); (0xFF4D, [0xFF2D]); (0xFF4E, [0xFF2E]);
   (0xFF4F, [0xFF2F]); (0xFF50, [0xFF30]); (0xFF51, [0xFF31]); (0xFF52, [0xFF32]);
   (0xFF53, [0xFF33]); (0xFF54, [0xFF34]); (0xFF55, [0xFF35]); (0xFF56, [0xFF36]);
   (0xFF57, [0xFF37]); (0xFF58, [0xFF38]); (0xFF59, [0xFF39]); (0xFF5A, [0xFF3A]);
   (0x10428, [0x10400]); (0x10429, [0x10401]); (0x1042A, [0x10402]); (0x1042B, [0x10403]);
   (0x1042C, [0x10404]); (0x1042D, [0x10405]); (0x1042E, [0x10406]); (0x1042F, [0x10407]);
   (0x10430, [0x10408]); (0x10431, [0x10409]); (0x10432, [0x1040A]); (0x10433, [0x1040B]);
   (0x10434, [0x1040C]); (0x10435, [0x1040D]); (0x10436, [0x1040E]); (0x10437, [0x1040F]);
   (0x10438, [0x10410]); (0x10439, [0x10411]); (0x1043A, [0x10412]); (0x1043B, [0x10413]);
   (0x1043C, [0x10414]); (0x1043D, [0x10415]); (0x1043E, [0x10416]); (0x1043F, [0x10417]);
   (0x10440, [0x10418]); (0x10441, [0x10419]); (0x10442, [0x1041A]); (0x10443, [0x1041B]);
   (0x10444, [0x1041C]); (0x10445, [0x1041D]); (0x10446, [0x1041E]); (0x10447, [0x1041F]);
   (0x10448, [0x10420]); (0x10449, [0x10421]); (0x1044A, [0x10422]); (0x1044B, [0x10423]);
   (0x1044C, [0x10424]); (0x1044D, [0x10425]); (0x1044E, [0x10426]); (0x1044F, [0x10427]);
   (0x104D8, [0x104B0]); (0x104D9, [0x104B1]); (0x104DA, [0x104B2]); (0x104DB, [0x104B3]);
   (0x104DC, [0x104B4]); (0x104DD, [0x104B5]); (0x104DE, [0x104B6]); (0x104DF, [0x104B7]);
   (0x104E0, [0x104B8]); (0x104E1, [0x104B9]); (0x104E2, [0x104BA]); (0x104E3, [0x104BB]);
   (0x104E4, [0x104BC]); (0x104E5, [0x104BD]); (0x104E6, [0x104BE]); (0x104E7, [0x104BF]);
   (0x104E8, [0x104C0]); (0x104E9, [0x104C1]); (0x104EA, [0x104C2]); (0x104EB, [0x104C3]);
   (0x104EC, [0x104C4]); (0x104ED, [0x104C5]); (0x104EE, [0x104C6]); (0x104EF, [0x104C7]);
   (0x104F0, [0x104C8]); (0x104F1, [0x104C9]); (0x104F2, [0x104CA]); (0x104F3, [0x104CB]);
   (0x104F4, [0x104CC]); (0x104F5, [0x104CD]); (0x104F6, [0x104CE]); (0x104F7, [0x104CF]);
   (0x104F8, [0x104D0]); (0x104F9, [0x104D1]); (0x104FA, [0x104D2]); (0x104FB, [0x104D3]);
   (0x10597, [0x10570]); (0x10598, [0x10571]); (0x10599, [0x10572]); (0x1059A, [0x10573]);
   (0x1059B, [0x10574]); (0x1059C, [0x10575]); (0x1059D, [0x10576]); (0x1059E, [0x10577]);
   (0x1059F, [0x10578]); (0x105A0, [0x10579]); (0x105A1, [0x1057A]); (0x105A3, [0x1057C]);
   (0x105A4, [0x1057D]); (0x105A5, [0x1057E]); (0x105A6, [0x1057F]); (0x105A7, [0x10580]);
   (0x105A8, [0x10581]); (0x105A9, [0x10582]); (0x105AA, [0x10583]); (0x105AB, [0x10584]);
   (0x105AC, [0x10585]); (0x105AD, [0x10586]); (0x105AE, [0x10587]); (0x105AF, [0x10588]);
   (0x105B0, [0x10589]); (0x105B1, [0x1058A]); (0x105B3, [0x1058C]); (0x105B4, [0x1058D]);
   (0x105B5, [0x1058E]); (0x105B6, [0x1058F]); (0x105B7, [0x10590]); (0x105B8, [0x10591]);
   (0x105B9, [0x10592]); (0x105BB, [0x10594]); (0x105BC, [0x10595]); (0x10CC0, [0x10C80]);
   (0x10CC1, [0x10C81]); (0x10CC2, [0x10C82]); (0x10CC3, [0x10C83]); (0x10CC4, [0x10C84]);
   (0x10CC5, [0x10C85]); (0x10CC6, [0x10C86]); (0x10CC7, [0x10C87]); (0x10CC8, [0x10C88]);
   (0x10CC9, [0x10C89]); (0x10CCA, [0x10C8A]); (0x10CCB, [0x10C8B]); (0x10CCC, [0x10C8C]);
   (0x10CCD, [0x10C8D]); (0x10CCE, [0x10C8E]); (0x10CCF, [0x10C8F]); (0x10CD0, [0x10C90]);
   (0x10CD1, [0x10C91]); (0x10CD2, [0x10C92]); (0x10CD3, [0x10C93]); (0x10CD4, [0x10C94]);
   (0x10CD5, [0x10C95]); (0x10CD6, [0x10C96]); (0x10CD7, [0x10C97]); (0x10CD8, [0x10C98]);
   (0x10CD9, [0x10C99]); (0x10CDA, [0x10C9A]); (0x10CDB, [0x10C9B]); (0x10CDC, [0x10C9C]);
   (0x10CDD, [0x10C9D]); (0x10CDE, [0x10C9E]); (0x10CDF, [0x10C9F]); (0x10CE0, [0x10CA0]);
   (0x10CE1, [0x10CA1]); (0x10CE2, [0x10CA2]); (0x10CE3, [0x10CA3]); (0x10CE4, [0x10CA4]);
   (0x10CE5, [0x10CA5]); (0x10CE6, [0x10CA6]); (0x10CE7, [0x10CA7]); (0x10CE8, [0x10CA8]);
   (0x10CE9, [0x10CA9]); (0x10CEA, [0x10CAA]); (0x10CEB, [0x10CAB]); (0x10CEC, [0x10CAC]);
   (0x10CED, [0x10CAD]); (0x10CEE, [0x10CAE]); (0x10CEF, [0x10CAF]); (0x10CF0, [0x10CB0]);
   (0x10CF1, [0x10CB1]); (0x10CF2, [0x10CB2]); (0x118C0, [0x118A0]); (0x118C1, [0x118A1]);
   (0x118C2, [0x118A2]); (0x118C3, [0x118A3]); (0x118C4, [0x118A4]); (0x118C5, [0x118A5]);
   (0x118C6, [0x118A6]); (0x118C7, [0x118A7]); (0x118C8, [0x118A8]); (0x118C9, [0x118A9]);
   (0x118CA, [0x118AA]); (0x118CB, [0x118AB]); (0x118CC, [0x118AC]); (0x118CD, [0x118AD]);
   (0x118CE, [0x118AE]); (0x118CF, [0x118AF]); (0x118D0, [0x118B0]); (0x118D1, [0x118B1]);
   (0x118D2, [0x118B2]); (0x118D3, [0x118B3]); (0x118D4, [0x118B4]); (0x118D5, [0x118B5]);
   (0x118D6, [0x118B6]); (0x118D7, [0x118B7]); (0x118D8, [0x118B8]); (0x118D9, [0x118B9]);
   (0x118DA, [0x118BA]); (0x118DB, [0x118BB]); (0x118DC, [0x118BC]); (0x118DD, [0x118BD]);
   (0x118DE, [0x118BE]); (0x118DF, [0x118BF]); (0x16E60, [0x16E40]); (0x16E61, [0x16E41]);
   (0x16E62, [0x16E42]); (0x16E63, [0x16E43]); (0x16E64, [0x16E44]); (0x16E65, [0x16E45]);
   (0x16E66, [0x16E46]); (0x16E67, [0x16E47]); (0x16E68, [0x16E48]); (0x16E69, [0x16E49]);
   (0x16E6A, [0x16E4A]); (0x16E6B, [0x16E4B]); (0x16E6C, [0x16E4C]); (0x16E6D, [0x16E4D]);
   (0x16E6E, [0x16E4E]); (0x16E6F, [0x16E4F]); (0x16E70, [0x16E50]); (0x16E71, [0x16E51]);
   (0x16E72, [0x16E52]); (0x16E73, [0x16E53]); (0x16E74, [0x16E54]); (0x16E75, [0x16E55]);
   (0x16E76, [0x16E56]); (0x16E77, [0x16E57]); (0x16E78, [0x16E58]); (0x16E79, [0x16E59]);
   (0x16E7A, [0x16E5A]); (0x16E7B, [0x16E5B]); (0x16E7C, [0x16E5C]); (0x16E7D, [0x16E5D]);
   (0x16E7E, [0x16E5E]); (0x16E7F, [0x16E5F]); (0x1E922, [0x1E900]); (0x1E923, [0x1E901]);
   (0x1E924, [0x1E902]); (0x1E925, [0x1E903]); (0x1E926, [0x1E904]); (0x1E927, [0x1E905]);
   (0x1E928, [0x1E906]); (0x1E929, [0x1E907]); (0x1E92A, [0x1E908]); (0x1E92B, [0x1E909]);
   (0x1E92C, [0x1E90A]); (0x1E92D, [0x1E90B]); (0x1E92E, [0x1E90C]); (0x1E92F, [0x1E90D]);
   (0x1E930, [0x1E90E]); (0x1E931, [0x1E90F]); (0x1E932, [0x1E910]); (0x1E933, [0x1E911]);
   (0x1E934, [0x1E912]); (0x1E935, [0x1E913]); (0x1E936, [0x1E914]); (0x1E937, [0x1E915]);
   (0x1E938, [0x1E916]); (0x1E939, [0x1E917]); (0x1E93A, [0x1E918]); (0x1E93B, [0x1E919]);
   (0x1E93C, [0x1E91A]); (0x1E93D, [0x1E91B]); (0x1E93E, [0x1E91C]); (0x1E93F, [0x1E91D]);
   (0x1E940, [0x1E91E]); (0x1E941, [0x1E91F]); (0x1E942, [0x1E920]); (0x1E943, [0x1E921])
  ]%N.

Definition upper_cp (cp : N) : list N :=
  match List.find (fun e => N.eqb (fst e) cp) upper_table with
  | Some e => snd e
  | None => [cp]
  end.

(** [String.prototype.toUpperCase]: every code point is replaced by its
    uppercase mapping. *)
Definition upper_units (l : list N) : list N :=
  flat_map code_units (flat_map upper_cp (code_points l)).

Definition toUpperCase (s : string) : string := of_units (upper_units (units s)).

(** The class [\s]: the white space and the line terminators of ECMAScript,
    that is tab, line feed, vertical tab, form feed, carriage return, the
    space separators of Unicode, the line and paragraph separators and the
    byte order mark. *)
Definition is_space (u : N) : bool :=
  (((0x09 <=? u) && (u <=? 0x0D)) || (u =? 0x20) || (u =? 0xA0) || (u =? 0x1680)
   || ((0x2000 <=? u) && (u <=? 0x200A)) || (u =? 0x2028) || (u =? 0x2029)
   || (u =? 0x202F) || (u =? 0x205F) || (u =? 0x3000) || (u =? 0xFEFF))%N.

(** [s.replace(/\s/g, '')]. *)
Definition strip_units (l : list N) : list N := List.filter (fun u => negb (is_space u)) l.

Definition strip_spaces (s : string) : string := of_units (strip_units (units s)).

End JS.

(** ** Plate normalisation (lib/licensePlateVerification) *)

(** [licensePlate.toUpperCase().replace(/\s/g, '')], the expression bound to
    [cleanPlate] in [validateLicensePlateFormat], and applied to both plates
    in [verifyLicensePlateForBooking] and [createLicensePlateVerification]. *)
Definition cleanPlate (licensePlate : string) : string :=
  JS.strip_spaces (JS.toUpperCase licensePlate).

(** [plate.replace(/\s/g, '').toUpperCase()], the order used by the
    license-plate manager component. *)
Definition cleanPlate_manager (plate : string) : string :=
  JS.toUpperCase (JS.strip_spaces plate).

(** ** Intervals and the overlap predicate *)

(** A booking interval [[start, end)], as the instants (milliseconds since
    the epoch) that the ISO-8601 strings [start_time] and [end_time] denote. *)
Record Interval : Type := mkInterval { i_start : Z; i_end : Z }.

(** Modelled from the spec: [getOverlappingBookings] lives in lib/bookings,
    which is not among the sources; its intersection test is the spec's
    [existing.start < candidate.end AND existing.end > candidate.start]. *)
Definition overlaps (existing candidate : Interval) : bool :=
  (i_start existing <? i_end candidate) && (i_end existing >? i_start candidate).

(** ** Exceptions and results *)

(** A thrown JS value: [new Error(message)] has no [code]; a rejected store
    call is a [FirebaseError] carrying one. *)
Record JSError : Type := mkError { err_code : option string; err_message : string }.

Definition Error (message : string) : JSError := mkError None message.
Definition FirebaseError (code : string) : JSError := mkError (Some code) code.

(** The [ReferenceError] thrown when an identifier that is bound nowhere is
    evaluated. The wording of its message is the engine's; no caller in the
    sources reads it. *)
Definition ReferenceError (name : string) : JSError :=
  mkError None (name +:+ " is not defined").

Inductive Result (A : Type) : Type :=
  | Ok (a : A)
  | Throw (e : JSError).
Arguments Ok {A} a.
Arguments Throw {A} e.

(** ** Entities of the document store *)

Inductive BookingStatus := BookingPending | BookingConfirmed | BookingCancelled | BookingCompleted.
Inductive PaymentStatus :=
  PaymentPending | PaymentProcessing | PaymentCompleted | PaymentFailed | PaymentRefunded.
Inductive VerificationStatus := Pending | Verified | Failed | Disputed.
Inductive VerifiedBy := ByHost | ByDriver | BySystem | ByAdmin.
Inductive VerificationMethod := Manual | Automatic | Photo | QrCode.

(** A document of the [bookings] collection: the payload written by the
    booking screen, and the fields [confirmPayment] adds later. Documents are
    schemaless, so the plate fields read with [?.] may be absent. *)
Record Booking : Type := mkBooking {
  listing_id : string;
  listing_title : string;
  b_user_id : string;
  b_host_id : string;
  start_time : Z;
  end_time : Z;
  total_price : JS.number;
  b_status : BookingStatus;
  license_plate : option string;
  license_plate_state : option string;
  payment_id : option string;
  b_updated_at : option Z
}.

(** A document of the [payments] collection (interface [Payment] without its
    [id], which is the document key). *)
Record Payment : Type := mkPayment {
  booking_id : string;
  p_user_id : string;
  p_host_id : string;
  amount : JS.number;
  currency : string;
  p_status : PaymentStatus;
  payment_intent_id : option string;
  payment_method_id : option string;
  p_created_at : Z;
  p_updated_at : Z
}.

(** A document of the [license_plate_verifications] collection. *)
Record LicensePlateVerification : Type := mkVerification {
  v_booking_id : string;
  v_license_plate : string;
  v_license_plate_state : string;
  verification_status : VerificationStatus;
  verified_by : VerifiedBy;
  verified_at : option Z;
  verification_method : VerificationMethod;
  verification_notes : option string;
  v_created_at : Z;
  v_updated_at : Z
}.

(** A plate embedded in the user profile. *)
Record LicensePlate : Type := mkPlate {
  lp_id : string;
  plateNumber : string;
  lp_state : string;
  isDefault : bool;
  createdAt : Z
}.

(** A document of the [users] collection, as far as the plate manager reads
    and writes it; [licensePlates] is absent until the first write. *)
Record UserDoc : Type := mkUserDoc {
  licensePlates : option (list LicensePlate);
  updatedAt : option Z
}.

(** ** The world an operation runs in *)

(** What the outside decides: whether the n-th remote call is rejected, what
    the n-th reading of the clock returns, and the n-th
    [Math.random().toString(36).substr(2, 9)]. *)
Record Env : Type := mkEnv {
  faults : nat -> bool;
  clock : nat -> Z;
  random : nat -> string
}.

Record World : Type := mkWorld {
  env : Env;
  calls : nat;
  ticks : nat;
  draws : nat;
  currentUser : option string;
  users : gmap string UserDoc;
  bookings : gmap string Booking;
  payments : gmap string Payment;
  verifications : gmap string LicensePlateVerification
}.

Definition set_calls (n : nat) (w : World) : World :=
  mkWorld (env w) n (ticks w) (draws w) (currentUser w)
          (users w) (bookings w) (payments w) (verifications w).
Definition set_ticks (n : nat) (w : World) : World :=
  mkWorld (env w) (calls w) n (draws w) (currentUser w)
          (users w) (bookings w) (payments w) (verifications w).
Definition set_draws (n : nat) (w : World) : World :=
  mkWorld (env w) (calls w) (ticks w) n (currentUser w)
          (users w) (bookings w) (payments w) (verifications w).
Definition set_users (m : gmap string UserDoc) (w : World) : World :=
  mkWorld (env w) (calls w) (ticks w) (draws w) (currentUser w)
          m (bookings w) (payments w) (verifications w).
Definition set_bookings (m : gmap string Booking) (w : World) : World :=
  mkWorld (env w) (calls w) (ticks w) (draws w) (currentUser w)
          (users w) m (payments w) (verifications w).
Definition set_payments (m : gmap string Payment) (w : World) : World :=
  mkWorld (env w) (calls w) (ticks w) (draws w) (currentUser w)
          (users w) (bookings w) m (verifications w).
Definition set_verifications (m : gmap string LicensePlateVerification) (w : World) : World :=
  mkWorld (env w) (calls w) (ticks w) (draws w) (currentUser w)
          (users w) (bookings w) (payments w) m.

(** The store answers every call. *)
Definition available (w : World) : Prop := forall n, faults (env w) n = false.

(** ** Asynchronous operations: state and exceptions *)

Definition M (A : Type) : Type := World -> Result A * World.

Definition ret {A} (a : A) : M A := fun w => (Ok a, w).
Definition throw {A} (e : JSError) : M A := fun w => (Throw e, w).
Definition bind {A B} (c : M A) (k : A -> M B) : M B :=
  fun w => match c w with
           | (Ok a, w') => k a w'
           | (Throw e, w') => (Throw e, w')
           end.
(** [try { c } catch (error) { h error }]. *)
Definition try_catch {A} (c : M A) (h : JSError -> M A) : M A :=
  fun w => match c w with
           | (Ok a, w') => (Ok a, w')
           | (Throw e, w') => h e w'
           end.

#[global] Instance M_ret : MRet M := @ret.
#[global] Instance M_bind : MBind M := fun A B k c => bind c k.

(** [Date.now()], [new Date()]: the next reading of the clock. *)
Definition dateNow : M Z :=
  fun w => (Ok (clock (env w) (ticks w)), set_ticks (S (ticks w)) w).

(** [Math.random().toString(36).substr(2, 9)]. *)
Definition randomSuffix : M string :=
  fun w => (Ok (random (env w) (draws w)), set_draws (S (draws w)) w).

(** ** The document store (firebase/firestore) *)

(** A collection of documents of type [D], as a view on the world. *)
Record Collection (D : Type) : Type := mkCollection {
  docs : World -> gmap string D;
  set_docs : gmap string D -> World -> World
}.
Arguments docs {D} _ _.
Arguments set_docs {D} _ _ _.

Definition usersC : Collection UserDoc := mkCollection _ users set_users.
Definition bookingsC : Collection Booking := mkCollection _ bookings set_bookings.
Definition paymentsC : Collection Payment := mkCollection _ payments set_payments.
Definition verificationsC : Collection LicensePlateVerification :=
  mkCollection _ verifications set_verifications.

(** A remote call: counted, and rejected when the outside says so. *)
Definition remote {A} (k : M A) : M A :=
  fun w =>
    let w' := set_calls (S (calls w)) w in
    if faults (env w) (calls w) then (Throw (FirebaseError "unavailable"), w')
    else k w'.

(** [getDoc(doc(db, c, id))]: [None] when [exists()] is false. *)
Definition getDoc {D} (c : Collection D) (id : string) : M (option D) :=
  remote (fun w => (Ok (docs c w !! id), w)).

(** [addDoc(collection(db, c), data)]: stores [data] under a key not yet in
    the collection and returns the key. *)
Definition addDoc {D} (c : Collection D) (data : D) : M string :=
  remote (fun w =>
            let id := fresh_string "doc" (docs c w) in
            (Ok id, set_docs c (<[id := data]> (docs c w)) w)).

(** [updateDoc(doc(db, c, id), fields)]: [upd] overwrites the given fields;
    the call is rejected when the document does not exist. *)
Definition updateDoc {D} (c : Collection D) (id : string) (upd : D -> D) : M unit :=
  remote (fun w =>
            match docs c w !! id with
            | Some d => (Ok tt, set_docs c (<[id := upd d]> (docs c w)) w)
            | None => (Throw (FirebaseError "not-found"), w)
            end).

(** [getDocs(query(collection(db, c), where...))]: the documents satisfying
    the [where] clauses, in the order of the store. *)
Definition getDocs {D} (c : Collection D) (where_ : string * D -> bool)
  : M (list (string * D)) :=
  remote (fun w => (Ok (List.filter where_ (map_to_list (docs c w))), w)).

(** [auth.currentUser], as the signed-in user's uid. *)
Definition getCurrentUser : M (option string) := fun w => (Ok (currentUser w), w).

(** [s || d] for a possibly missing string [s]. *)
Definition or_string (s : option string) (d : string) : string :=
  match s with
  | Some s' => if JS.truthy_string s' then s' else d
  | None => d
  end.

(** ** lib/bookings *)

Definition booking_interval (b : Booking) : Interval :=
  mkInterval (start_time b) (end_time b).

(** Modelled from the spec: [getOverlappingBookings] of lib/bookings is not
    among the sources. Given a listing id and a candidate interval it queries
    the existing bookings of that listing and returns those that intersect
    the candidate. *)
Definition getOverlappingBookings (listingId : string) (startTime endTime : Z)
  : M (list (string * Booking)) :=
  getDocs bookingsC
          (fun d => bool_decide (listing_id (snd d) = listingId)
                    && overlaps (booking_interval (snd d)) (mkInterval startTime endTime)).

(** Modelled from the spec: [createBooking] of lib/bookings is not among the
    sources. It persists the payload it is given and returns the generated
    identifier; the status it stores is the payload's. *)
Definition createBooking (bookingData : Booking) : M string :=
  addDoc bookingsC bookingData.

(** ** The listing screen: [handleBooking] *)

Record User : Type := mkUser { uid : string; role : string }.

(** The [listing] state, as [loadListing] leaves it. *)
Record Listing : Type := mkListing {
  l_id : string;
  title : option string;
  l_user_id : string;
  price_per_hour : JS.number
}.

Record TimeSlot : Type := mkTimeSlot { startTime : string; endTime : string }.

(** The state of the screen that [handleBooking] reads. [selectedDate] is the
    time value of the chosen day. *)
Record ListingDetail : Type := mkListingDetail {
  user : option User;
  listing : option Listing;
  selectedDate : option Z;
  selectedTimeSlot : option TimeSlot;
  selectedLicensePlate : option LicensePlate
}.

(** What the user sees after [handleBooking]: an [alert], the prompt to add
    a plate, or the payment sheet opened with [bookingId] and
    [bookingAmount] set. *)
Inductive BookingOutcome : Type :=
  | BookingAlert (message : string)
  | LicensePlateRequired
  | PaymentModal (bookingId : string) (bookingAmount : JS.number).

Definition ms_per_hour : Z := 1000 * 60 * 60.

(** [(endDate.getTime() - startDate.getTime()) / (1000 * 60 * 60)]. Time
    values are integral and below 2^53, so both are exact doubles and their
    difference is the correctly rounded integer difference. *)
Definition durationInHours (startDate endDate : Z) : JS.number :=
  JS.div (JS.of_Z (endDate - startDate)) (JS.of_Z ms_per_hour).

(** [listing?.price_per_hour || 0]. *)
Definition hourly_price (l : option Listing) : JS.number :=
  match l with
  | Some l' => JS.or (price_per_hour l') (JS.of_Z 0)
  | None => JS.of_Z 0
  end.

Definition totalPrice (l : option Listing) (startDate endDate : Z) : JS.number :=
  JS.mul (durationInHours startDate endDate) (hourly_price l).

(** The [bookingData] payload built by [handleBooking]. *)
Definition bookingData (u : User) (l : option Listing) (plate : LicensePlate)
           (startDate endDate : Z) : Booking :=
  {| listing_id := or_string (l_id <$> l) "";
     listing_title := or_string (l ≫= title) "Parking Space";
     b_user_id := uid u;
     b_host_id := or_string (l_user_id <$> l) "unknown";
     start_time := startDate;
     end_time := endDate;
     total_price := totalPrice l startDate endDate;
     b_status := BookingPending;
     license_plate := Some (plateNumber plate);
     license_plate_state := Some (lp_state plate);
     payment_id := None;
     b_updated_at := None |}.

Section BookingScreen.

(** [new Date(selectedDate)] followed by [setHours(hours, minutes, 0, 0)]
    with the hours and minutes read from an ["HH:MM"] string: the platform's
    local-time arithmetic. [None] is the Invalid Date. *)
Variable slotDate : Z -> string -> option Z.

(** The two functions imported from lib/bookings. *)
Variable getOverlapping : string -> Z -> Z -> M (list (string * Booking)).
Variable create : Booking -> M string.

(** The inner [try]: [true] when the query answered with at least one
    booking (the handler alerts and returns); a failing query is logged and
    the flow goes on. *)
Definition slot_taken (l : option Listing) (startDate endDate : Z) : M bool :=
  try_catch
    (overlappingBookings ← getOverlapping (or_string (l_id <$> l) "") startDate endDate;
     mret (bool_decide (0 < length overlappingBookings)%nat))
    (fun _ => mret false).

Definition handleBooking (st : ListingDetail) : M BookingOutcome :=
  try_catch
    (match user st with
     | None => mret (BookingAlert "Please sign in to make a booking")
     | Some u =>
         match selectedDate st, selectedTimeSlot st with
         | Some day, Some slot =>
             match selectedLicensePlate st with
             | None => mret LicensePlateRequired
             | Some plate =>
                 match slotDate day (startTime slot), slotDate day (endTime slot) with
                 | Some startDate, Some endDate =>
                     if startDate >=? endDate
                     then mret (BookingAlert "Start time must be before end time")
                     else
                       taken ← slot_taken (listing st) startDate endDate;
                       if (taken : bool)
                       then mret (BookingAlert
                                    "This time slot is already booked. Please choose another time.")
                       else
                         bookingId ← create (bookingData u (listing st) plate startDate endDate);
                         mret (PaymentModal bookingId
                                            (totalPrice (listing st) startDate endDate))
                 | _, _ => mret (BookingAlert "Invalid date or time chosen")
                 end
             end
         | _, _ => mret (BookingAlert "Please select a date and time slot")
         end
     end)
    (fun _ => mret (BookingAlert "Failed to create booking. Please try again.")).

End BookingScreen.

(** The state of the screen passes every check that precedes the overlap
    query, with [startDate] and [endDate] the two dates it computes. *)
Definition ready (slotDate : Z -> string -> option Z) (st : ListingDetail) (u : User)
           (plate : LicensePlate) (startDate endDate : Z) : Prop :=
  user st = Some u /\
  selectedLicensePlate st = Some plate /\
  (exists day slot,
      selectedDate st = Some day /\ selectedTimeSlot st = Some slot /\
      slotDate day (startTime slot) = Some startDate /\
      slotDate day (endTime slot) = Some endDate) /\
  startDate < endDate.

(** ** lib/payments *)

Inductive PaymentIntentStatus :=
  | requires_payment_method | requires_confirmation | requires_action
  | processing | requires_capture | canceled | succeeded.

Record PaymentIntent : Type := mkPaymentIntent {
  pi_id : string;
  pi_amount : JS.number;
  pi_currency : string;
  pi_status : PaymentIntentStatus;
  client_secret : string
}.

Definition set_payment_intent_id (i : string) (p : Payment) : Payment :=
  mkPayment (booking_id p) (p_user_id p) (p_host_id p) (amount p) (currency p)
            (p_status p) (Some i) (payment_method_id p) (p_created_at p) (p_updated_at p).

(** [createPaymentIntent(bookingId, amount)]. The surrounding
    [try { ... } catch (error) { console.error(...); throw error; }] rethrows
    and so changes nothing. *)
Definition createPaymentIntent (bookingId : string) (amount_ : JS.number) : M PaymentIntent :=
  currentUser_ ← getCurrentUser;
  match currentUser_ with
  | None => throw (Error "User must be authenticated to create payment")
  | Some uid_ =>
      bookingDoc ← getDoc bookingsC bookingId;
      match bookingDoc with
      | None => throw (Error "Booking not found")
      | Some bookingData_ =>
          created ← dateNow;
          updated ← dateNow;
          paymentRef ← addDoc paymentsC
                       {| booking_id := bookingId;
                          p_user_id := uid_;
                          p_host_id := b_host_id bookingData_;
                          amount := amount_;
                          currency := "usd";
                          p_status := PaymentPending;
                          payment_intent_id := None;
                          payment_method_id := None;
                          p_created_at := created;
                          p_updated_at := updated |};
          t1 ← dateNow;
          r1 ← randomSuffix;
          t2 ← dateNow;
          r2 ← randomSuffix;
          let mockPaymentIntent :=
            {| pi_id := "pi_" +:+ pretty t1 +:+ "_" +:+ r1;
               pi_amount := JS.mul amount_ (JS.of_Z 100);
               pi_currency := "usd";
               pi_status := requires_payment_method;
               client_secret := "pi_" +:+ pretty t2 +:+ "_secret_" +:+ r2 |} in
          updateDoc paymentsC paymentRef (set_payment_intent_id (pi_id mockPaymentIntent));;
          mret mockPaymentIntent
      end
  end.

(** [{ ...paymentData, status: 'completed', payment_method_id, updated_at }]. *)
Definition updatedPaymentData (paymentData : Payment) (paymentMethodId : string) (now : Z)
  : Payment :=
  mkPayment (booking_id paymentData) (p_user_id paymentData) (p_host_id paymentData)
            (amount paymentData) (currency paymentData)
            PaymentCompleted (payment_intent_id paymentData) (Some paymentMethodId)
            (p_created_at paymentData) now.

(** [{ status: 'confirmed', payment_id, updated_at: serverTimestamp() }]. *)
Definition confirm_booking (paymentId : string) (ts : Z) (b : Booking) : Booking :=
  mkBooking (listing_id b) (listing_title b) (b_user_id b) (b_host_id b)
            (start_time b) (end_time b) (total_price b)
            BookingConfirmed (license_plate b) (license_plate_state b)
            (Some paymentId) (Some ts).

(** [where('payment_intent_id', '==', paymentIntentId)] and
    [where('user_id', '==', currentUser.uid)]. *)
Definition payment_matches (paymentIntentId uid_ : string) (d : string * Payment) : bool :=
  bool_decide (payment_intent_id (snd d) = Some paymentIntentId)
  && bool_decide (p_user_id (snd d) = uid_).

(** [confirmPayment(paymentIntentId, paymentMethodId)]; the result is the
    payment's id with the updated document. *)
Definition confirmPayment (paymentIntentId paymentMethodId : string)
  : M (string * Payment) :=
  currentUser_ ← getCurrentUser;
  match currentUser_ with
  | None => throw (Error "User must be authenticated to confirm payment")
  | Some uid_ =>
      paymentsSnapshot ←
        getDocs paymentsC (payment_matches paymentIntentId uid_);
      match paymentsSnapshot with
      | [] => throw (Error "Payment not found")
      | paymentDoc :: _ =>
          let paymentData := snd paymentDoc in
          now ← dateNow;
          let updated := updatedPaymentData paymentData paymentMethodId now in
          updateDoc paymentsC (fst paymentDoc) (fun _ => updated);;
          ts ← dateNow;
          updateDoc bookingsC (booking_id paymentData) (confirm_booking (fst paymentDoc) ts);;
          mret (fst paymentDoc, updated)
      end
  end.

(** [formatAmount(amount, currency)]: the currency code and the number handed
    to [Intl.NumberFormat('en-US', { style: 'currency', currency }).format],
    which is [amount / 100] ("convert cents to dollars"). *)
Definition formatAmount (amount_ : JS.number) (currency_ : string) : string * JS.number :=
  (JS.toUpperCase currency_, JS.div amount_ (JS.of_Z 100)).

(** ** lib/stripe *)

Module STRIPE_ERRORS.
Definition CARD_DECLINED := "Your card was declined. Please try a different payment method.".
Definition INSUFFICIENT_FUNDS := "Your card has insufficient funds.".
Definition EXPIRED_CARD := "Your card has expired. Please use a different card.".
Definition INCORRECT_CVC := "Your card's security code is incorrect.".
Definition PROCESSING_ERROR :=
  "An error occurred while processing your payment. Please try again.".
Definition NETWORK_ERROR := "Network error. Please check your connection and try again.".
End STRIPE_ERRORS.

Definition getStripeErrorMessage (error : JSError) : string :=
  let fallback := or_string (Some (err_message error)) STRIPE_ERRORS.PROCESSING_ERROR in
  match err_code error with
  | Some code =>
      if negb (JS.truthy_string code) then fallback
      else if String.eqb code "card_declined" then STRIPE_ERRORS.CARD_DECLINED
      else if String.eqb code "insufficient_funds" then STRIPE_ERRORS.INSUFFICIENT_FUNDS
      else if String.eqb code "expired_card" then STRIPE_ERRORS.EXPIRED_CARD
      else if String.eqb code "incorrect_cvc" then STRIPE_ERRORS.INCORRECT_CVC
      else if String.eqb code "processing_error" then STRIPE_ERRORS.PROCESSING_ERROR
      else fallback
  | None => fallback
  end.

(** ** The payment sheet component *)

Inductive PaymentStep := StepInitial | StepProcessing | StepSuccess | StepError.

Record PaymentSheet : Type := mkSheet {
  paymentIntent : option PaymentIntent;
  paymentStep : PaymentStep;
  loading : bool
}.

(** Calls of the props [onSuccess], [onFailure] and [onClose]. *)
Inductive Callback : Type :=
  | OnSuccess
  | OnFailure (error : string)
  | OnClose.

(** The error object the payment provider's SDK reports. *)
Record StripeError : Type := mkStripeError { se_code : string; se_message : string }.

(** [initializePayment], run when the sheet becomes visible. *)
Definition initializePayment (u : option User) (bookingId : string) (amount_ : JS.number)
           (sheet : PaymentSheet) : M (PaymentSheet * list Callback) :=
  match u with
  | None => mret (sheet, [OnFailure "User not authenticated"])
  | Some _ =>
      try_catch
        (intent ← createPaymentIntent bookingId amount_;
         mret (mkSheet (Some intent) StepInitial false, []))
        (fun _ => mret (mkSheet (paymentIntent sheet) (paymentStep sheet) false,
                        [OnFailure "Failed to initialize payment"]))
  end.

(** [handlePayment]. [initError] and [presentError] are what
    [initPaymentSheet] and [presentPaymentSheet] of the provider's SDK report
    (the second is only asked for when the first reports no error). The
    callbacks listed after a success are the ones the 1.5 s timer runs. *)
Definition handlePayment (initError presentError : option StripeError)
           (sheet : PaymentSheet) : M (PaymentSheet * list Callback) :=
  match paymentIntent sheet with
  | None => mret (sheet, [])
  | Some intent =>
      try_catch
        (match initError with
         | Some e => throw (Error (se_message e))
         | None =>
             match presentError with
             | Some e =>
                 if String.eqb (se_code e) "Canceled"
                 then mret (mkSheet (Some intent) StepProcessing false, [])
                 else throw (Error (se_message e))
             | None =>
                 confirmPayment (pi_id intent) "stripe_payment_method";;
                 mret (mkSheet (Some intent) StepSuccess false, [OnSuccess; OnClose])
             end
         end)
        (fun error =>
           mret (mkSheet (Some intent) StepError false,
                 [OnFailure (getStripeErrorMessage error)]))
  end.

(** ** lib/licensePlateVerification *)

Record Details : Type := mkDetails {
  expected : option string * option string;
  provided : string * string
}.

Record VerificationResult : Type := mkResult {
  success : bool;
  message : string;
  confidence : option JS.number;
  details : option Details
}.

Definition is_upper_or_digit (u : N) : bool :=
  (((0x41 <=? u) && (u <=? 0x5A)) || ((0x30 <=? u) && (u <=? 0x39)))%N.

(** The character class [[A-Z0-9\-\.]]. *)
Definition is_plate_char (u : N) : bool :=
  is_upper_or_digit u || (u =? 0x2D)%N || (u =? 0x2E)%N.

(** The state patterns: [^[A-Z0-9]{1,n}$] with [n] the number below. *)
Definition statePatterns (stateUpper : string) : option nat :=
  if String.eqb stateUpper "CA" then Some 7%nat
  else if String.eqb stateUpper "NY" then Some 8%nat
  else if String.eqb stateUpper "TX" then Some 7%nat
  else if String.eqb stateUpper "FL" then Some 7%nat
  else if String.eqb stateUpper "IL" then Some 7%nat
  else None.

(** The double written [0.8]. *)
Definition confidence_format : JS.number := S754_finite false 7205759403792794 (-53).

(** [validateLicensePlateFormat]. *)
Definition validateLicensePlateFormat (licensePlate state_ : string) : VerificationResult :=
  let cleaned := cleanPlate licensePlate in
  let len := JS.length cleaned in
  if ((len <? 2) || (8 <? len))%nat then
    mkResult false "License plate must be 2-8 characters long" None None
  else if negb (JS.all_units is_plate_char cleaned) then
    mkResult false "License plate contains invalid characters" None None
  else
    match statePatterns (JS.toUpperCase state_) with
    | Some n =>
        if ((len <=? n)%nat && JS.all_units is_upper_or_digit cleaned)
        then mkResult true "License plate format is valid" (Some confidence_format) None
        else mkResult false ("License plate format is not valid for " +:+ state_) None None
    | None => mkResult true "License plate format is valid" (Some confidence_format) None
    end.

Definition createLicensePlateVerification (bookingId licensePlate licensePlateState : string)
  : M string :=
  created ← dateNow;
  updated ← dateNow;
  addDoc verificationsC
         {| v_booking_id := bookingId;
            v_license_plate := cleanPlate licensePlate;
            v_license_plate_state := JS.toUpperCase licensePlateState;
            verification_status := Pending;
            verified_by := BySystem;
            verified_at := None;
            verification_method := Automatic;
            verification_notes := None;
            v_created_at := created;
            v_updated_at := updated |}.

(** The [forEach] over all verification documents: every document of the
    booking overwrites [verificationId], so the last one stays. *)
Definition findVerificationId (snapshot : list (string * LicensePlateVerification))
           (bookingId : string) : option string :=
  fold_left (fun acc d => if bool_decide (v_booking_id (snd d) = bookingId)
                          then Some (fst d) else acc)
            snapshot None.

(** The fields [updateData] overwrites. *)
Definition apply_updateData (status : VerificationStatus) (verifiedBy : VerifiedBy)
           (method : VerificationMethod) (updated : Z) (verifiedAt : option Z)
           (notes : option string) (v : LicensePlateVerification)
  : LicensePlateVerification :=
  {| v_booking_id := v_booking_id v;
     v_license_plate := v_license_plate v;
     v_license_plate_state := v_license_plate_state v;
     verification_status := status;
     verified_by := verifiedBy;
     verified_at := match verifiedAt with Some t => Some t | None => verified_at v end;
     verification_method := method;
     verification_notes :=
       match notes with
       | Some n => if JS.truthy_string n then Some n else verification_notes v
       | None => verification_notes v
       end;
     v_created_at := v_created_at v;
     v_updated_at := updated |}.

Definition is_final (status : VerificationStatus) : bool :=
  match status with
  | Verified | Failed => true
  | _ => false
  end.

(** [getDocs] as this module sees it. The module imports [doc], [getDoc],
    [updateDoc], [collection], [addDoc] and [serverTimestamp] from
    firebase/firestore, not [getDocs], and binds the name nowhere else: the
    expression [getDocs(verificationsRef)] evaluates an unbound identifier
    and throws a [ReferenceError], before anything is asked of the store. *)
Definition getDocs_unbound {A} : M A := throw (ReferenceError "getDocs").

(** [updateLicensePlateVerification]. The call of [getDocs] is the first
    statement that can throw; the [catch] logs and rethrows. *)
Definition updateLicensePlateVerification (bookingId : string) (status : VerificationStatus)
           (verifiedBy : VerifiedBy) (method : VerificationMethod) (notes : option string)
  : M unit :=
  try_catch
    (verificationQuery ← getDocs_unbound;
     match findVerificationId verificationQuery bookingId with
     | Some verificationId =>
         if JS.truthy_string verificationId then
           updated ← dateNow;
           verifiedAt ← (if is_final status then t ← dateNow; mret (Some t) else mret None);
           updateDoc verificationsC verificationId
                     (apply_updateData status verifiedBy method updated verifiedAt notes)
         else mret tt
     | None => mret tt
     end)
    (fun error => throw error).

(** [verifyLicensePlateForBooking]. A missing stored plate or state stays
    [undefined] through [?.] and then equals no provided string. *)
Definition verifyLicensePlateForBooking (bookingId providedLicensePlate providedState : string)
  : M VerificationResult :=
  try_catch
    (bookingDoc ← getDoc bookingsC bookingId;
     match bookingDoc with
     | None => mret (mkResult false "Booking not found" None None)
     | Some bookingData_ =>
         let expectedPlate := cleanPlate <$> license_plate bookingData_ in
         let expectedState := JS.toUpperCase <$> license_plate_state bookingData_ in
         let providedPlate := cleanPlate providedLicensePlate in
         let providedStateUpper := JS.toUpperCase providedState in
         let details_ := Some (mkDetails (expectedPlate, expectedState)
                                         (providedPlate, providedStateUpper)) in
         if bool_decide (expectedPlate = Some providedPlate)
            && bool_decide (expectedState = Some providedStateUpper)
         then
           updateLicensePlateVerification bookingId Verified BySystem Automatic None;;
           mret (mkResult true "License plate matches booking" (Some (JS.of_Z 1)) details_)
         else if bool_decide (expectedPlate = Some providedPlate)
                 && negb (bool_decide (expectedState = Some providedStateUpper))
         then
           mret (mkResult false "License plate matches but state is different"
                          (Some (JS.of_scaled 1 (-1))) details_)
         else
           updateLicensePlateVerification bookingId Failed BySystem Automatic None;;
           mret (mkResult false "License plate does not match booking"
                          (Some (JS.of_Z 0)) details_)
     end)
    (fun _ => mret (mkResult false "Error during verification process" None None)).

(** [getLicensePlateVerification]: the first document of the booking, were
    [getDocs] bound; the [catch] logs and returns [null]. *)
Definition getLicensePlateVerification (bookingId : string)
  : M (option (string * LicensePlateVerification)) :=
  try_catch
    (verificationQuery ← getDocs_unbound;
     mret (List.find (fun d => bool_decide (v_booking_id (snd d) = bookingId))
                     verificationQuery))
    (fun _ => mret None).

(** [manualLicensePlateVerification]. *)
Definition manualLicensePlateVerification (bookingId : string) (isVerified : bool)
           (hostId : string) (notes : option string) : M unit :=
  let status := if isVerified then Verified else Failed in
  updateLicensePlateVerification bookingId status ByHost Manual notes.

(** ** The license-plate manager component *)

(** [validatePlateNumber]: 2 to 8 characters after cleaning, all of them in the
    class above. *)
Definition validatePlateNumber (plate : string) : bool :=
  let cleaned := cleanPlate_manager plate in
  let len := JS.length cleaned in
  if ((len <? 2) || (8 <? len))%nat then false
  else JS.all_units is_plate_char cleaned.

Definition set_isDefault (b : bool) (p : LicensePlate) : LicensePlate :=
  mkPlate (lp_id p) (plateNumber p) (lp_state p) b (createdAt p).

(** The slice of the component state the three operations read and write. *)
Record PlateManager : Type := mkManager {
  m_user : option User;
  m_licensePlates : list LicensePlate;
  m_plateNumber : string;
  m_selectedState : string;
  m_modalVisible : bool
}.

Definition set_licensePlates (l : list LicensePlate) (st : PlateManager) : PlateManager :=
  mkManager (m_user st) l (m_plateNumber st) (m_selectedState st) (m_modalVisible st).

(** [Alert.alert(title, message)]. *)
Definition Alert : Type := (string * string)%type.

(** [user?.uid], when truthy. *)
Definition signed_in_uid (u : option User) : option string :=
  match u with
  | Some u' => if JS.truthy_string (uid u') then Some (uid u') else None
  | None => None
  end.

(** [updateDoc(doc(db, 'users', uid), { licensePlates, updatedAt: new Date() })]. *)
Definition write_licensePlates (uid_ : string) (updatedPlates : list LicensePlate) : M unit :=
  now ← dateNow;
  updateDoc usersC uid_ (fun _ => mkUserDoc (Some updatedPlates) (Some now)).

(** The list [addLicensePlate] builds: the new plate goes last and is the
    default exactly when it is the first plate. *)
Definition add_updatedPlates (licensePlates_ : list LicensePlate) (id_ : string)
           (cleaned state_ : string) (created : Z) : list LicensePlate :=
  licensePlates_ ++ [mkPlate id_ cleaned state_
                             (bool_decide (length licensePlates_ = 0%nat)) created].

Definition addLicensePlate (st : PlateManager) : M (PlateManager * option Alert) :=
  match signed_in_uid (m_user st) with
  | None => mret (st, None)
  | Some uid_ =>
      let cleaned := cleanPlate_manager (m_plateNumber st) in
      if negb (validatePlateNumber cleaned) then
        mret (st, Some ("Invalid Plate Number",
                        "Please enter a valid license plate number (2-8 characters, letters and numbers only)"))
      else if existsb (fun plate => bool_decide (plateNumber plate = cleaned)
                                    && bool_decide (lp_state plate = m_selectedState st))
                      (m_licensePlates st) then
        mret (st, Some ("Duplicate Plate", "This license plate is already registered"))
      else
        try_catch
          (id_ ← dateNow;
           created ← dateNow;
           let updatedPlates :=
             add_updatedPlates (m_licensePlates st) (pretty id_) cleaned
                               (m_selectedState st) created in
           write_licensePlates uid_ updatedPlates;;
           mret (mkManager (m_user st) updatedPlates "" (m_selectedState st) false,
                 Some ("Success", "License plate added successfully")))
          (fun _ => mret (st, Some ("Error", "Failed to add license plate")))
  end.

(** [licensePlates.filter(plate => plate.id !== plateId)]. *)
Definition without_plate (plateId : string) (l : list LicensePlate) : list LicensePlate :=
  List.filter (fun plate => negb (bool_decide (lp_id plate = plateId))) l.

(** [removedPlate?.isDefault && updatedPlates.length > 0]. *)
Definition promotes (plateId : string) (l : list LicensePlate) : bool :=
  match List.find (fun plate => bool_decide (lp_id plate = plateId)) l with
  | Some removedPlate => isDefault removedPlate && bool_decide (0 < length (without_plate plateId l))%nat
  | None => false
  end.

(** [updatedPlates[0].isDefault = true]. *)
Definition promote_first (l : list LicensePlate) : list LicensePlate :=
  match l with
  | [] => []
  | plate :: rest => set_isDefault true plate :: rest
  end.

(** The list [removeLicensePlate] writes. *)
Definition remove_updatedPlates (plateId : string) (l : list LicensePlate) : list LicensePlate :=
  if promotes plateId l then promote_first (without_plate plateId l)
  else without_plate plateId l.

(** [filter] copies the array, not the plates: the plate at
    [updatedPlates[0]] is the first plate of [licensePlates] that is kept, so
    the assignment shows through [licensePlates] as well. *)
Fixpoint promote_first_kept (plateId : string) (l : list LicensePlate) : list LicensePlate :=
  match l with
  | [] => []
  | plate :: rest =>
      if bool_decide (lp_id plate = plateId) then plate :: promote_first_kept plateId rest
      else set_isDefault true plate :: rest
  end.

Definition remove_aliased (plateId : string) (l : list LicensePlate) : list LicensePlate :=
  if promotes plateId l then promote_first_kept plateId l else l.

(** [removeLicensePlate]; [confirmed] is the button pressed in the
    confirmation dialog. When the write fails the state keeps its array, with
    the assignment already made. *)
Definition removeLicensePlate (plateId : string) (confirmed : bool) (st : PlateManager)
  : M (PlateManager * option Alert) :=
  match signed_in_uid (m_user st) with
  | None => mret (st, None)
  | Some uid_ =>
      if negb confirmed then mret (st, None)
      else
        let updatedPlates := remove_updatedPlates plateId (m_licensePlates st) in
        try_catch
          (write_licensePlates uid_ updatedPlates;;
           mret (set_licensePlates updatedPlates st,
                 Some ("Success", "License plate removed successfully")))
          (fun _ => mret (set_licensePlates (remove_aliased plateId (m_licensePlates st)) st,
                          Some ("Error", "Failed to remove license plate")))
  end.

(** The list [setDefaultPlate] writes. *)
Definition setDefault_updatedPlates (plateId : string) (l : list LicensePlate)
  : list LicensePlate :=
  List.map (fun plate => set_isDefault (bool_decide (lp_id plate = plateId)) plate) l.

Definition setDefaultPlate (plateId : string) (st : PlateManager)
  : M (PlateManager * option Alert) :=
  match signed_in_uid (m_user st) with
  | None => mret (st, None)
  | Some uid_ =>
      let updatedPlates := setDefault_updatedPlates plateId (m_licensePlates st) in
      try_catch
        (write_licensePlates uid_ updatedPlates;;
         mret (set_licensePlates updatedPlates st,
               Some ("Success", "Default license plate updated")))
        (fun _ => mret (st, Some ("Error", "Failed to update default plate")))
  end.

(** The list held by the component after an operation, the alert it raised,
    and the list stored in the user's document ([data.licensePlates || []]). *)
Definition plates_after (r : Result (PlateManager * option Alert) * World)
  : list LicensePlate :=
  match fst r with
  | Ok (st, _) => m_licensePlates st
  | Throw _ => []
  end.

Definition alert_after (r : Result (PlateManager * option Alert) * World) : option Alert :=
  match fst r with
  | Ok (_, a) => a
  | Throw _ => None
  end.

Definition stored_plates (uid_ : string) (w : World) : list LicensePlate :=
  match users w !! uid_ with
  | Some d => default [] (licensePlates d)
  | None => []
  end.

(** The number of plates carrying the default flag. *)
Definition defaults (l : list LicensePlate) : nat := length (List.filter isDefault l).

(** The intended invariant: a non-empty list has exactly one default plate. *)
Definition one_default (l : list LicensePlate) : Prop := l <> [] -> defaults l = 1%nat.

(** ** lib/payments: reading and refunding *)

(** [x >= y] on numbers: false as soon as one of them is [NaN]. *)
Definition js_geb (x y : JS.number) : bool := SFleb y x.

(** [getPayment(paymentId)]: [None] is the [null] returned for a missing
    document; the result pairs the document with its id. *)
Definition getPayment (paymentId : string) : M (option (string * Payment)) :=
  paymentDoc ← getDoc paymentsC paymentId;
  match paymentDoc with
  | None => mret None
  | Some p => mret (Some (paymentId, p))
  end.

(** [orderBy('created_at', 'desc')]: newest first. *)
Definition newer_first (a b : string * Payment) : Prop :=
  p_created_at (snd b) <= p_created_at (snd a).

#[global] Instance newer_first_dec (a b : string * Payment) : Decision (newer_first a b).
Proof. unfold newer_first. apply _. Defined.

(** [getUserPayments(userId)]. *)
Definition getUserPayments (userId : string) : M (list (string * Payment)) :=
  paymentsSnapshot ← getDocs paymentsC (fun d => bool_decide (p_user_id (snd d) = userId));
  mret (merge_sort newer_first paymentsSnapshot).

(** [getHostPayments(hostId)]. *)
Definition getHostPayments (hostId : string) : M (list (string * Payment)) :=
  paymentsSnapshot ← getDocs paymentsC (fun d => bool_decide (p_host_id (snd d) = hostId));
  mret (merge_sort newer_first paymentsSnapshot).

(** [{ ...paymentData, status: 'refunded', refunded_at, updated_at }]. The
    payment record of this development has no [refunded_at] field: the clock
    is read for it and the reading is returned next to the document. *)
Definition refundedPaymentData (paymentData : Payment) (now : Z) : Payment :=
  mkPayment (booking_id paymentData) (p_user_id paymentData) (p_host_id paymentData)
            (amount paymentData) (currency paymentData)
            PaymentRefunded (payment_intent_id paymentData) (payment_method_id paymentData)
            (p_created_at paymentData) now.

(** [{ status: 'cancelled', updated_at: serverTimestamp() }]. *)
Definition cancel_booking (ts : Z) (b : Booking) : Booking :=
  mkBooking (listing_id b) (listing_title b) (b_user_id b) (b_host_id b)
            (start_time b) (end_time b) (total_price b)
            BookingCancelled (license_plate b) (license_plate_state b)
            (payment_id b) (Some ts).

(** [!amount || amount >= paymentData.amount]: the refund counts as full. *)
Definition full_refund (amount_ : option JS.number) (paymentData : Payment) : bool :=
  match amount_ with
  | None => true
  | Some a => negb (JS.truthy a) || js_geb a (amount paymentData)
  end.

(** [processRefund(paymentId, amount)]; the result is the payment's id, the
    updated document and the [refunded_at] reading. *)
Definition processRefund (paymentId : string) (amount_ : option JS.number)
  : M (string * Payment * Z) :=
  currentUser_ ← getCurrentUser;
  match currentUser_ with
  | None => throw (Error "User must be authenticated to process refund")
  | Some uid_ =>
      paymentDoc ← getDoc paymentsC paymentId;
      match paymentDoc with
      | None => throw (Error "Payment not found")
      | Some paymentData =>
          if negb (bool_decide (p_user_id paymentData = uid_))
             && negb (bool_decide (p_host_id paymentData = uid_))
          then throw (Error "Not authorized to refund this payment")
          else
            refundedAt ← dateNow;
            now ← dateNow;
            let updated := refundedPaymentData paymentData now in
            updateDoc paymentsC paymentId (fun _ => updated);;
            (if full_refund amount_ paymentData
             then ts ← dateNow;
                  updateDoc bookingsC (booking_id paymentData) (cancel_booking ts)
             else mret tt);;
            mret (paymentId, updated, refundedAt)
      end
  end.

(** ** Displaying a plate: [formatPlateNumber] / [formatLicensePlate] *)

(** The class [.]: every code unit but the line terminators. *)
Definition is_line_terminator (u : N) : bool :=
  ((u =? 0x0A) || (u =? 0x0D) || (u =? 0x2028) || (u =? 0x2029))%N.

(** [s.replace(/(.{3})/g, '$1 ')]: scanning from the left, every three
    consecutive code units that are no line terminators are followed by a
    space; where no such triple starts, one code unit is copied. *)
Fixpoint group_units (l : list N) : list N :=
  match l with
  | [] => []
  | a :: l1 =>
      match l1 with
      | b :: c :: rest =>
          if negb (is_line_terminator a) && negb (is_line_terminator b)
             && negb (is_line_terminator c)
          then a :: b :: c :: 0x20%N :: group_units rest
          else a :: group_units l1
      | _ => a :: group_units l1
      end
  end.

Definition group_by_three (s : string) : string := JS.of_units (group_units (JS.units s)).

(** [trim()]: leading and trailing white space and line terminators go. *)
Fixpoint trim_start_units (l : list N) : list N :=
  match l with
  | [] => []
  | u :: l' => if JS.is_space u then trim_start_units l' else l
  end.

Fixpoint trim_end_units (l : list N) : list N :=
  match l with
  | [] => []
  | u :: l' =>
      match trim_end_units l' with
      | [] => if JS.is_space u then [] else [u]
      | t => u :: t
      end
  end.

Definition trim (s : string) : string :=
  JS.of_units (trim_end_units (trim_start_units (JS.units s))).

(** [formatPlateNumber] of the plate manager, and [formatLicensePlate] of the
    verification component, which is the same expression. *)
Definition formatPlateNumber (plate : string) : string := trim (group_by_three plate).

(** The pair that [addLicensePlate] compares to find a duplicate. *)
Definition plate_key (plate : LicensePlate) : string * string :=
  (plateNumber plate, lp_state plate).

(** What identifies a plate apart from its default flag. *)
Definition plate_identity (plate : LicensePlate) : string * string * string * Z :=
  (lp_id plate, plateNumber plate, lp_state plate, createdAt plate).

(** What the manager's checks establish for the list it holds: no two plates
    share number and state, and every number passed validation in its
    normalised form. *)
Definition plates_wellformed (l : list LicensePlate) : Prop :=
  NoDup (plate_key <$> l)
  /\ Forall (fun plate => validatePlateNumber (plateNumber plate) = true
                          /\ cleanPlate (plateNumber plate) = plateNumber plate) l.

(** ** The verification component *)

Record VerificationScreen : Type := mkVerificationScreen {
  vs_user : option User;
  vs_bookingData : option Booking;
  vs_verification : option (string * LicensePlateVerification);
  vs_manualNotes : string;
  vs_showManualVerification : bool
}.

(** [loadVerificationData]: the booking is kept when it exists, the
    verification is whatever [getLicensePlateVerification] answers. Only the
    booking read can throw, before any state is set. *)
Definition loadVerificationData (bookingId : string) (st : VerificationScreen)
  : M (VerificationScreen * option Alert) :=
  try_catch
    (bookingDoc ← getDoc bookingsC bookingId;
     verificationData ← getLicensePlateVerification bookingId;
     mret (mkVerificationScreen
             (vs_user st)
             (match bookingDoc with Some b => Some b | None => vs_bookingData st end)
             verificationData (vs_manualNotes st) (vs_showManualVerification st),
           None))
    (fun _ => mret (st, Some ("Error", "Failed to load verification data"))).

(** [verifyLicensePlateForBooking] as the component calls it, with fields of
    a schemaless document that may be [undefined]: [.toUpperCase()] on
    [undefined] throws a [TypeError] inside the [try], after the booking was
    read and found. *)
Definition verifyLicensePlateForBooking_js
           (bookingId : string) (providedLicensePlate providedState : option string)
  : M VerificationResult :=
  match providedLicensePlate, providedState with
  | Some plate, Some state_ => verifyLicensePlateForBooking bookingId plate state_
  | _, _ =>
      try_catch
        (bookingDoc ← getDoc bookingsC bookingId;
         match bookingDoc with
         | None => mret (mkResult false "Booking not found" None None)
         | Some _ => throw (Error "TypeError")
         end)
        (fun _ => mret (mkResult false "Error during verification process" None None))
  end.

(** [handleAutomaticVerification]: the alerts raised, in order. *)
Definition handleAutomaticVerification (bookingId : string) (st : VerificationScreen)
  : M (VerificationScreen * list Alert) :=
  match vs_bookingData st with
  | None => mret (st, [])
  | Some bookingData_ =>
      try_catch
        (result ← verifyLicensePlateForBooking_js bookingId (license_plate bookingData_)
                                                  (license_plate_state bookingData_);
         let shown := if success result
                      then ("Verification Successful", message result)
                      else ("Verification Failed", message result) in
         loaded ← loadVerificationData bookingId st;
         mret (fst loaded, shown :: option_list (snd loaded)))
        (fun _ => mret (st, [("Error", "Failed to perform automatic verification")]))
  end.

(** [handleManualVerification]. *)
Definition handleManualVerification (bookingId : string) (isVerified : bool)
           (st : VerificationScreen) : M (VerificationScreen * list Alert) :=
  match signed_in_uid (vs_user st) with
  | None => mret (st, [])
  | Some uid_ =>
      try_catch
        (manualLicensePlateVerification bookingId isVerified uid_ (Some (vs_manualNotes st));;
         let shown := ("Verification Updated",
                       "License plate has been marked as "
                       +:+ (if isVerified then "verified" else "failed")) in
         let st1 := mkVerificationScreen (vs_user st) (vs_bookingData st)
                                         (vs_verification st) "" false in
         loaded ← loadVerificationData bookingId st1;
         mret (fst loaded, shown :: option_list (snd loaded)))
        (fun _ => mret (st, [("Error", "Failed to update verification")]))
  end.

(** [doc.data().booking_id === bookingId]. *)
Definition of_booking (bookingId : string) (d : string * LicensePlateVerification) : bool :=
  bool_decide (v_booking_id (snd d) = bookingId).

(** The records of a booking, in the order of the store. *)
Definition records_of (w : World) (bookingId : string)
  : list (string * LicensePlateVerification) :=
  List.filter (of_booking bookingId) (map_to_list (verifications w)).

(** ** Loading the plates: the manager and the listing screen *)

(** [loadLicensePlates] of the plate manager: [data.licensePlates || []]
    replaces a missing list only, an array being truthy even when empty. *)
Definition loadLicensePlates (st : PlateManager) : M (PlateManager * option Alert) :=
  match signed_in_uid (m_user st) with
  | None => mret (st, None)
  | Some uid_ =>
      try_catch
        (userDoc ← getDoc usersC uid_;
         match userDoc with
         | Some data => mret (set_licensePlates (default [] (licensePlates data)) st, None)
         | None => mret (st, None)
         end)
        (fun _ => mret (st, Some ("Error", "Failed to load license plates")))
  end.

Definition set_selectedLicensePlate (p : LicensePlate) (st : ListingDetail) : ListingDetail :=
  mkListingDetail (user st) (listing st) (selectedDate st) (selectedTimeSlot st) (Some p).

(** [loadUserLicensePlates] of the listing screen. The screen's
    [licensePlates] state is passed and returned next to the state that
    [handleBooking] reads; a failure is logged only. *)
Definition loadUserLicensePlates (st : ListingDetail) (licensePlates_ : list LicensePlate)
  : M (ListingDetail * list LicensePlate) :=
  match signed_in_uid (user st) with
  | None => mret (st, licensePlates_)
  | Some uid_ =>
      try_catch
        (userDoc ← getDoc usersC uid_;
         match userDoc with
         | Some data =>
             let plates := default [] (licensePlates data) in
             match List.find isDefault plates with
             | Some defaultPlate => mret (set_selectedLicensePlate defaultPlate st, plates)
             | None => mret (st, plates)
             end
         | None => mret (st, licensePlates_)
         end)
        (fun _ => mret (st, licensePlates_))
  end.

(** ** The payments screen *)

Record PaymentsScreen : Type := mkPaymentsScreen {
  ps_user : option User;
  ps_payments : list (string * Payment);
  ps_bookings : gmap string Booking
}.

(** The loop of [loadPayments] over the payments: each booking is read in a
    [try] of its own, a failed read is logged and the loop goes on. *)
Fixpoint loadBookingDetails (userPayments : list (string * Payment))
         (bookingDetails : gmap string Booking) : M (gmap string Booking) :=
  match userPayments with
  | [] => mret bookingDetails
  | payment :: rest =>
      bookingDetails' ←
        try_catch
          (bookingDoc ← getDoc bookingsC (booking_id (snd payment));
           mret (match bookingDoc with
                 | Some b => <[booking_id (snd payment) := b]> bookingDetails
                 | None => bookingDetails
                 end))
          (fun _ => mret bookingDetails);
      loadBookingDetails rest bookingDetails'
  end.

(** [loadPayments]. Only the payments query can reach the outer [catch], and
    it does so before any state is set. *)
Definition loadPayments (st : PaymentsScreen) : M (PaymentsScreen * option Alert) :=
  match ps_user st with
  | None => mret (st, None)
  | Some u =>
      if JS.truthy_string (uid u) then
        try_catch
          (userPayments ← (if String.eqb (role u) "host"
                           then getHostPayments (uid u)
                           else getUserPayments (uid u));
           bookingDetails ← loadBookingDetails userPayments ∅;
           mret (mkPaymentsScreen (ps_user st) userPayments bookingDetails, None))
          (fun _ => mret (st, Some ("Error", "Failed to load payment history")))
      else mret (st, None)
  end.

(** The payments a user sees: as host those they receive, otherwise those
    they made. *)
Definition concerns (u : User) (p : Payment) : Prop :=
  (if String.eqb (role u) "host" then p_host_id p else p_user_id p) = uid u.

(** ** Bookings of one listing *)

(** No two stored bookings of one listing intersect. *)
Definition no_double_booking (m : gmap string Booking) : Prop :=
  forall i j b1 b2,
    i <> j -> m !! i = Some b1 -> m !! j = Some b2 ->
    listing_id b1 = listing_id b2 ->
    overlaps (booking_interval b1) (booking_interval b2) = false.

(** The checks of [handleBooking] that precede the overlap query do not all
    pass. *)
Definition not_ready (slotDate : Z -> string -> option Z) (st : ListingDetail) : Prop :=
  forall u plate startDate endDate, ~ ready slotDate st u plate startDate endDate.

(** ** Code units and code points: the vocabulary of the string proofs *)

(** Code units are 16-bit values, code points lie below [0x110000], and a
    scalar value is a code point that is no surrogate. *)
Definition bounded (l : list N) : Prop := Forall (fun u => (u < 0x10000)%N) l.

Definition scalar (cp : N) : Prop := (cp < 0x110000)%N /\ JS.is_surrogate cp = false.

Definition no_space (u : N) : bool := negb (JS.is_space u).

Definition is_key (cp : N) : bool := existsb (fun e => (fst e =? cp)%N) JS.upper_table.

(** What the proofs use of the table, checked entry by entry: a code point
    with a mapping is a scalar value, no white space and no plate character;
    what it maps to is a non-empty list of scalar values that are no white
    space and map to themselves, in the same plane. *)
Definition entry_ok (e : N * list N) : bool :=
  let k := fst e in
  (k <? 0x110000)%N && negb (JS.is_surrogate k) && negb (JS.is_space k)
  && negb (is_plate_char k)
  && negb (Nat.eqb (List.length (snd e)) 0)
  && forallb (fun x => (x <? 0x110000)%N && negb (JS.is_surrogate x) && negb (JS.is_space x)
                       && negb (is_key x) && Bool.eqb (k <? 0x10000)%N (x <? 0x10000)%N)
             (snd e).

(** Lists of code points in which no unpaired high surrogate is followed by
    an unpaired low one: the lists that decoding produces. *)
Fixpoint valid_cps (V : list N) : Prop :=
  match V with
  | [] => True
  | a :: V' =>
      match V' with
      | [] => True
      | b :: _ => ~ (JS.is_high a = true /\ JS.is_low b = true)
      end /\ valid_cps V'
  end.

(** A code point that is encoded with a surrogate: an unpaired surrogate or
    a code point beyond the Basic Multilingual Plane. *)
Definition needs_surrogate (cp : N) : bool := JS.is_surrogate cp || (0x10000 <=? cp)%N.


(** ** Scenarios

    Concrete data for the scenarios of the specification: a platform whose
    local time is UTC, a quiet store, a store whose first call fails, a
    listing at $10 per hour and a booking of it from 09:00 to 10:00. *)

Definition digit (c : ascii) : option Z :=
  let n := nat_of_ascii c in
  if ((48 <=? n) && (n <=? 57))%nat then Some (Z.of_nat (n - 48)) else None.

(** [setHours] on a platform in UTC, for slots written ["HH:MM"]. *)
Definition utcSlotDate (day : Z) (s : string) : option Z :=
  match s with
  | String h1 (String h2 (String ":" (String m1 (String m2 EmptyString)))) =>
      a ← digit h1; b ← digit h2; c ← digit m1; d ← digit m2;
      Some (day + (10 * a + b) * ms_per_hour + (10 * c + d) * 60000)
  | _ => None
  end.

Definition quiet : Env :=
  mkEnv (fun _ => false) (fun n => 1700000000000 + Z.of_nat n)
        (fun n => match n with O => "k3x9q2m1z" | _ => "w7p4t8c5v" end).

Definition first_call_fails : Env :=
  mkEnv (fun n => bool_decide (n = 0%nat)) (clock quiet) (random quiet).

Definition driver : User := mkUser "driver1" "driver".

Definition listing10 : Listing := mkListing "listing1" (Some "Garage") "host1" (JS.of_Z 10).

(** A listing at 4 per hour. *)
Definition listing4 : Listing := mkListing "listing4" (Some "Driveway") "host1" (JS.of_Z 4).

Definition plateABC : LicensePlate := mkPlate "1" "ABC123" "CA" true 0.

(** Booking A: 09:00 to 10:00 on the day with time value 0. *)
Definition bookingA : Booking :=
  bookingData driver (Some listing10) plateABC (9 * ms_per_hour) (10 * ms_per_hour).

Definition world_A (e : Env) : World :=
  mkWorld e 0 0 0 (Some "driver1") ∅ {[ "A" := bookingA ]} ∅ ∅.

Definition world_signed_out : World :=
  mkWorld quiet 0 0 0 None ∅ {[ "A" := bookingA ]} ∅ ∅.

(** Booking A with its payment recorded and the payment sheet holding the
    handle. *)
Definition paymentA : Payment :=
  {| booking_id := "A"; p_user_id := "driver1"; p_host_id := "host1";
     amount := JS.of_Z 10; currency := "usd"; p_status := PaymentPending;
     payment_intent_id := Some "pi_1_k3x9q2m1z"; payment_method_id := None;
     p_created_at := 1; p_updated_at := 1 |}.

Definition intentA : PaymentIntent :=
  mkPaymentIntent "pi_1_k3x9q2m1z" (JS.of_Z 1000) "usd" requires_payment_method
                  "pi_1_secret_w7p4t8c5v".

Definition world_A_paying : World :=
  mkWorld quiet 0 0 0 (Some "driver1") ∅ {[ "A" := bookingA ]} {[ "payA" := paymentA ]} ∅.

(** Booking A with its verification record, and a booking of the same plate
    registered in New York. *)
Definition verificationA : LicensePlateVerification :=
  {| v_booking_id := "A"; v_license_plate := "ABC123"; v_license_plate_state := "CA";
     verification_status := Pending; verified_by := BySystem; verified_at := None;
     verification_method := Automatic; verification_notes := None;
     v_created_at := 1; v_updated_at := 1 |}.

Definition world_A_verifying : World :=
  mkWorld quiet 0 0 0 (Some "host1") ∅ {[ "A" := bookingA ]} ∅ {[ "verA" := verificationA ]}.

(** A second plate, the manager holding a list, and the world whose user
    document stores that list. *)
Definition plateXYZ : LicensePlate := mkPlate "2" "XYZ999" "NY" false 0.

Definition manager (l : list LicensePlate) : PlateManager :=
  mkManager (Some driver) l "DEF456" "CA" false.

Definition world_plates (e : Env) (l : list LicensePlate) : World :=
  mkWorld e 0 0 0 (Some "driver1") {[ "driver1" := mkUserDoc (Some l) None ]} ∅ ∅ ∅.

Definition screen (l : Listing) (from to : string) : ListingDetail :=
  mkListingDetail (Some driver) (Some l) (Some 0) (Some (mkTimeSlot from to)) (Some plateABC).

(** Booking A's payment seen by another signed-in user, and the payment
    left behind after its booking was deleted. *)
Definition world_A_intruder : World :=
  mkWorld quiet 0 0 0 (Some "mallory") ∅ {[ "A" := bookingA ]} {[ "payA" := paymentA ]} ∅.

Definition world_orphan_payment : World :=
  mkWorld quiet 0 0 0 (Some "driver1") ∅ ∅ {[ "payA" := paymentA ]} ∅.

(** A later payment of the same driver, for another booking. *)
Definition paymentB : Payment :=
  {| booking_id := "B"; p_user_id := "driver1"; p_host_id := "host2";
     amount := JS.of_Z 30; currency := "usd"; p_status := PaymentCompleted;
     payment_intent_id := Some "pi_5_w7p4t8c5v"; payment_method_id := None;
     p_created_at := 5; p_updated_at := 6 |}.

Definition world_two_payments : World :=
  mkWorld quiet 0 0 0 (Some "driver1") ∅ {[ "A" := bookingA ]}
          (<[ "payB" := paymentB ]> {[ "payA" := paymentA ]}) ∅.

(** Two bookings being paid: the store holds the driver's payment for
    booking B next to the payment for booking A and to another user's payment
    that carries the same handle. *)
Definition bookingB : Booking :=
  bookingData driver (Some listing4) plateABC (12 * ms_per_hour) (13 * ms_per_hour).

Definition paymentB4 : Payment :=
  {| booking_id := "B"; p_user_id := "driver1"; p_host_id := "host1";
     amount := JS.of_Z 4; currency := "usd"; p_status := PaymentPending;
     payment_intent_id := Some "pi_5_w7p4t8c5v"; payment_method_id := None;
     p_created_at := 5; p_updated_at := 5 |}.

Definition paymentM : Payment :=
  {| booking_id := "A"; p_user_id := "mallory"; p_host_id := "host1";
     amount := JS.of_Z 10; currency := "usd"; p_status := PaymentPending;
     payment_intent_id := Some "pi_5_w7p4t8c5v"; payment_method_id := None;
     p_created_at := 7; p_updated_at := 7 |}.

Definition intentB : PaymentIntent :=
  mkPaymentIntent "pi_5_w7p4t8c5v" (JS.of_Z 400) "usd" requires_payment_method
                  "pi_5_secret_k3x9q2m1z".

Definition world_B_paying : World :=
  mkWorld quiet 0 0 0 (Some "driver1") ∅
          (<[ "B" := bookingB ]> {[ "A" := bookingA ]})
          (<[ "payM" := paymentM ]> (<[ "payB" := paymentB4 ]> {[ "payA" := paymentA ]})) ∅.

(** The verification records of two bookings, and the component showing
    booking A to its host. *)
Definition verificationB : LicensePlateVerification :=
  {| v_booking_id := "B"; v_license_plate := "XYZ999"; v_license_plate_state := "NY";
     verification_status := Pending; verified_by := BySystem; verified_at := None;
     verification_method := Automatic; verification_notes := None;
     v_created_at := 2; v_updated_at := 2 |}.

Definition world_two_records : World :=
  mkWorld quiet 0 0 0 (Some "host1") ∅ {[ "A" := bookingA ]} ∅
          (<[ "verB" := verificationB ]> {[ "verA" := verificationA ]}).

Definition host : User := mkUser "host1" "host".

Definition verification_screen (b : option Booking) : VerificationScreen :=
  mkVerificationScreen (Some host) b None "seen at the gate" true.

(** The payments screen of the driver, and a user document with two plates. *)
Definition payments_screen : PaymentsScreen := mkPaymentsScreen (Some driver) [] ∅.

Definition world_payments_first_call_fails : World :=
  mkWorld first_call_fails 0 0 0 (Some "driver1") ∅ {[ "A" := bookingA ]}
          (<[ "payB" := paymentB ]> {[ "payA" := paymentA ]}) ∅.

(** * Properties *)

(** * Strings *)

Section Strings.

Local Open Scope N_scope.

Ltac ndiv :=
  repeat match goal with
         | |- context [N.div ?a ?b] => let q := fresh "q" in set (q := N.div a b) in *; clearbody q
         | |- context [N.modulo ?a ?b] =>
             let r := fresh "r" in set (r := N.modulo a b) in *; clearbody r
         | H : context [N.div ?a ?b] |- _ =>
             let q := fresh "q" in set (q := N.div a b) in *; clearbody q
         | H : context [N.modulo ?a ?b] |- _ =>
             let r := fresh "r" in set (r := N.modulo a b) in *; clearbody r
         end;
  lia.

Ltac bsolve :=
  unfold JS.is_lead2, JS.is_lead3, JS.is_cont, JS.is_high, JS.is_low, JS.is_surrogate;
  repeat match goal with
         | |- context [(?a <=? ?b)%N] => destruct (N.leb_spec a b)
         | |- context [(?a <? ?b)%N] => destruct (N.ltb_spec a b)
         end;
  simpl; try done; try (exfalso; ndiv).

Ltac bhyp :=
  unfold JS.is_lead2, JS.is_lead3, JS.is_cont, JS.is_high, JS.is_low, JS.is_surrogate in *;
  rewrite ?andb_true_iff, ?N.leb_le, ?N.ltb_lt in *.

Lemma units_cons c0 s1 :
  JS.units (String c0 s1)
  = match s1 with
    | EmptyString => [N_of_ascii c0]
    | String c1 s2 =>
        if JS.is_lead2 (N_of_ascii c0) && JS.is_cont (N_of_ascii c1)
        then ((N_of_ascii c0 - 0xC0) * 0x40 + (N_of_ascii c1 - 0x80)) :: JS.units s2
        else
          match s2 with
          | EmptyString => N_of_ascii c0 :: JS.units s1
          | String c2 s3 =>
              if JS.is_lead3 (N_of_ascii c0) && JS.is_cont (N_of_ascii c1)
                 && JS.is_cont (N_of_ascii c2)
              then ((N_of_ascii c0 - 0xE0) * 0x1000 + (N_of_ascii c1 - 0x80) * 0x40
                    + (N_of_ascii c2 - 0x80)) :: JS.units s3
              else N_of_ascii c0 :: JS.units s1
          end
    end.
Proof. destruct s1; reflexivity. Qed.

Lemma units_single c0 s :
  JS.is_lead2 (N_of_ascii c0) = false -> JS.is_lead3 (N_of_ascii c0) = false ->
  JS.units (String c0 s) = N_of_ascii c0 :: JS.units s.
Proof.
  intros H2 H3. rewrite units_cons.
  destruct s as [|c1 [|c2 s3]]; [done| |]; by rewrite H2, ?H3.
Qed.

Lemma units_lead2 c0 c1 s :
  JS.is_lead2 (N_of_ascii c0) = true -> JS.is_cont (N_of_ascii c1) = true ->
  JS.units (String c0 (String c1 s))
  = ((N_of_ascii c0 - 0xC0) * 0x40 + (N_of_ascii c1 - 0x80)) :: JS.units s.
Proof. intros H0 H1. rewrite (units_cons c0). by rewrite H0, H1. Qed.

Lemma units_lead3 c0 c1 c2 s :
  JS.is_lead3 (N_of_ascii c0) = true -> JS.is_cont (N_of_ascii c1) = true ->
  JS.is_cont (N_of_ascii c2) = true ->
  JS.units (String c0 (String c1 (String c2 s)))
  = ((N_of_ascii c0 - 0xE0) * 0x1000 + (N_of_ascii c1 - 0x80) * 0x40
     + (N_of_ascii c2 - 0x80)) :: JS.units s.
Proof.
  intros H0 H1 H2. rewrite (units_cons c0).
  assert (JS.is_lead2 (N_of_ascii c0) = false) as ->.
  { revert H0. unfold JS.is_lead2, JS.is_lead3. bsolve. }
  by rewrite H0, H1, H2.
Qed.

Lemma units_put_unit u s : u < 0x10000 -> JS.units (JS.put_unit u s) = u :: JS.units s.
Proof.
  intros Hu. unfold JS.put_unit.
  destruct (N.ltb_spec u 0x80) as [H1|H1].
  - rewrite units_single; rewrite N_ascii_embedding by lia; [done| |]; bsolve.
  - pose proof (N.div_mod u 0x40 ltac:(lia)) as Hd.
    pose proof (N.mod_lt u 0x40 ltac:(lia)) as Hm.
    destruct (N.ltb_spec u 0x800) as [H2|H2].
    + assert (u / 0x40 < 0x20) by (apply N.Div0.div_lt_upper_bound; lia).
      rewrite units_lead2; rewrite !N_ascii_embedding by lia; [|bsolve..].
      f_equal. ndiv.
    + pose proof (N.div_mod (u / 0x40) 0x40 ltac:(lia)) as Hd2.
      pose proof (N.mod_lt (u / 0x40) 0x40 ltac:(lia)) as Hm2.
      assert (u / 0x40 / 0x40 = u / 0x1000) as Hdd by (by rewrite N.Div0.div_div).
      assert (u / 0x1000 < 0x10) by (apply N.Div0.div_lt_upper_bound; lia).
      rewrite units_lead3; rewrite !N_ascii_embedding by lia; [|bsolve..].
      f_equal. ndiv.
Qed.

Lemma units_of_units l : bounded l -> JS.units (JS.of_units l) = l.
Proof.
  induction 1 as [|u l Hu _ IH]; [done|].
  simpl. by rewrite units_put_unit, IH.
Qed.

Lemma units_bounded s : bounded (JS.units s).
Proof.
  assert (forall n s, (String.length s <= n)%nat -> bounded (JS.units s)) as H.
  { clear s. induction n as [|n IH]; intros s Hn.
    { destruct s; [constructor|simpl in Hn; lia]. }
    destruct s as [|c0 s1]; [constructor|].
    pose proof (N_ascii_bounded c0) as B0.
    rewrite units_cons.
    destruct s1 as [|c1 s2]; [constructor; [lia|constructor]|].
    pose proof (N_ascii_bounded c1) as B1.
    assert (bounded (JS.units (String c1 s2))) as IH1 by (apply IH; simpl in *; lia).
    assert (bounded (JS.units s2)) as IH2 by (apply IH; simpl in *; lia).
    destruct (JS.is_lead2 _ && JS.is_cont _) eqn:E2.
    { constructor; [|done]. bhyp. lia. }
    destruct s2 as [|c2 s3]; [by constructor; [lia|]|].
    pose proof (N_ascii_bounded c2) as B2.
    assert (bounded (JS.units s3)) as IH3 by (apply IH; simpl in *; lia).
    destruct (JS.is_lead3 _ && JS.is_cont _ && JS.is_cont _) eqn:E3.
    { constructor; [|done]. clear E2. bhyp. lia. }
    constructor; [lia|done]. }
  by apply (H (String.length s)).
Qed.

(** ** Code points *)

Lemma code_points_cons u l1 :
  JS.code_points (u :: l1)
  = match l1 with
    | [] => [u]
    | v :: l2 =>
        if JS.is_high u && JS.is_low v
        then (0x10000 + (u - 0xD800) * 0x400 + (v - 0xDC00)) :: JS.code_points l2
        else u :: JS.code_points l1
    end.
Proof. destruct l1; reflexivity. Qed.

Lemma code_points_single u l :
  JS.is_high u = false -> JS.code_points (u :: l) = u :: JS.code_points l.
Proof. intros Hu. rewrite code_points_cons. destruct l; [done|]. by rewrite Hu. Qed.

Lemma code_points_pair u v l :
  JS.is_high u = true -> JS.is_low v = true ->
  JS.code_points (u :: v :: l)
  = (0x10000 + (u - 0xD800) * 0x400 + (v - 0xDC00)) :: JS.code_points l.
Proof. intros Hu Hv. rewrite code_points_cons. by rewrite Hu, Hv. Qed.

Lemma code_points_code_units cp l :
  scalar cp -> JS.code_points (JS.code_units cp ++ l) = cp :: JS.code_points l.
Proof.
  intros [Hlt Hs]. unfold JS.code_units.
  destruct (N.ltb_spec cp 0x10000) as [H1|H1]; simpl app.
  - apply code_points_single. revert Hs. bsolve.
  - pose proof (N.div_mod (cp - 0x10000) 0x400 ltac:(lia)) as Hd.
    pose proof (N.mod_lt (cp - 0x10000) 0x400 ltac:(lia)) as Hm.
    assert ((cp - 0x10000) / 0x400 < 0x400) by (apply N.Div0.div_lt_upper_bound; lia).
    rewrite code_points_pair by bsolve. f_equal. ndiv.
Qed.

Lemma code_points_flat_map_code_units V :
  Forall scalar V -> JS.code_points (flat_map JS.code_units V) = V.
Proof.
  induction 1 as [|cp V Hcp _ IH]; [done|].
  simpl. by rewrite code_points_code_units, IH.
Qed.

Lemma list_ind2 {A} (P : list A -> Prop) :
  P [] -> (forall x, P [x]) -> (forall x y l, P l -> P (y :: l) -> P (x :: y :: l)) ->
  forall l, P l.
Proof.
  intros H0 H1 H2 l.
  assert (P l /\ forall x, P (x :: l)) as [H _]; [|exact H].
  induction l as [|y l [IH1 IH2]]; [by split|].
  split; [apply IH2|]. intros x. apply H2; [exact IH1|apply IH2].
Qed.

Lemma code_units_pair u v :
  JS.is_high u = true -> JS.is_low v = true ->
  JS.code_units (0x10000 + (u - 0xD800) * 0x400 + (v - 0xDC00)) = [u; v].
Proof.
  intros Hu Hv. bhyp. unfold JS.code_units.
  destruct (N.ltb_spec (0x10000 + (u - 0xD800) * 0x400 + (v - 0xDC00)) 0x10000); [lia|].
  replace (0x10000 + (u - 0xD800) * 0x400 + (v - 0xDC00) - 0x10000)
    with ((v - 0xDC00) + (u - 0xD800) * 0x400) by lia.
  rewrite N.div_add, N.Div0.mod_add by lia.
  rewrite N.div_small, N.mod_small by lia.
  f_equal; [lia|]. f_equal. lia.
Qed.

Lemma flat_map_cons_eq {A B} (f : A -> list B) x l :
  flat_map f (x :: l) = (f x ++ flat_map f l)%list.
Proof. reflexivity. Qed.

Lemma flat_map_code_units_code_points l :
  bounded l -> flat_map JS.code_units (JS.code_points l) = l.
Proof.
  induction l as [|u|u v l IH1 IH2] using list_ind2; intros Hb.
  - done.
  - apply Forall_inv in Hb. simpl in *. unfold JS.code_units.
    destruct (N.ltb_spec u 0x10000); [done|lia].
  - pose proof (Forall_inv Hb) as Hu. apply Forall_inv_tail in Hb.
    rewrite code_points_cons.
    destruct (JS.is_high u && JS.is_low v) eqn:E.
    + apply andb_true_iff in E as [E1 E2].
      rewrite flat_map_cons_eq, IH1 by (by apply Forall_inv_tail in Hb).
      by rewrite code_units_pair.
    + rewrite flat_map_cons_eq, IH2 by done. unfold JS.code_units. simpl in Hu.
      destruct (N.ltb_spec u 0x10000); [done|lia].
Qed.

Lemma code_points_bounded l : bounded l -> Forall (fun cp => cp < 0x110000) (JS.code_points l).
Proof.
  induction l as [|u|u v l IH1 IH2] using list_ind2; intros Hb.
  - constructor.
  - apply Forall_inv in Hb. simpl in Hb. repeat constructor. lia.
  - pose proof (Forall_inv Hb) as Hu. simpl in Hu. apply Forall_inv_tail in Hb.
    rewrite code_points_cons.
    destruct (JS.is_high u && JS.is_low v) eqn:E.
    + constructor; [|by apply IH1; apply Forall_inv_tail in Hb].
      bhyp. lia.
    + constructor; [lia|by apply IH2].
Qed.

Lemma code_units_bounded V :
  Forall (fun cp => cp < 0x110000) V -> bounded (flat_map JS.code_units V).
Proof.
  induction 1 as [|cp V Hcp _ IH]; [constructor|].
  simpl. apply Forall_app. split; [|done]. unfold JS.code_units.
  destruct (N.ltb_spec cp 0x10000).
  - by repeat constructor.
  - pose proof (N.mod_lt (cp - 0x10000) 0x400 ltac:(lia)).
    assert ((cp - 0x10000) / 0x400 < 0x400) by (apply N.Div0.div_lt_upper_bound; lia).
    repeat constructor; ndiv.
Qed.

End Strings.

(** ** The uppercase mapping *)

Section Unicode.

Local Open Scope N_scope.

Lemma upper_table_ok : forallb entry_ok JS.upper_table = true.
Proof. vm_compute. reflexivity. Qed.

Lemma upper_cp_not_key cp : is_key cp = false -> JS.upper_cp cp = [cp].
Proof.
  unfold is_key, JS.upper_cp. intros Hk.
  destruct (find _ _) as [e|] eqn:Hf; [|done].
  apply find_some in Hf as [Hin He].
  assert (existsb (fun e => fst e =? cp) JS.upper_table = true) as Ht
      by (apply existsb_exists; by exists e).
  congruence.
Qed.

Lemma upper_cp_key cp :
  is_key cp = true -> entry_ok (cp, JS.upper_cp cp) = true.
Proof.
  unfold is_key, JS.upper_cp. intros Hk.
  destruct (find _ _) as [e|] eqn:Hf.
  - apply find_some in Hf as [Hin He]. apply N.eqb_eq in He. subst cp.
    pose proof upper_table_ok as Hok. rewrite forallb_forall in Hok.
    specialize (Hok e Hin). destruct e. exact Hok.
  - apply existsb_exists in Hk as (e & Hin & He).
    by rewrite (find_none _ _ Hf e Hin) in He.
Qed.

Lemma upper_cp_cases cp :
  JS.upper_cp cp = [cp] \/ (is_key cp = true /\ entry_ok (cp, JS.upper_cp cp) = true).
Proof.
  destruct (is_key cp) eqn:Hk; [right|left].
  - split; [done|by apply upper_cp_key].
  - by apply upper_cp_not_key.
Qed.

Ltac entry H :=
  unfold entry_ok in H; simpl fst in H; simpl snd in H;
  repeat (apply andb_true_iff in H as [H ?]).

Lemma upper_cp_fixed cp x : In x (JS.upper_cp cp) -> JS.upper_cp x = [x].
Proof.
  destruct (upper_cp_cases cp) as [E|[_ H]].
  - rewrite E. by intros [<-|[]].
  - intros Hin. entry H.
    match goal with Hall : forallb _ _ = true |- _ => rewrite forallb_forall in Hall;
      specialize (Hall x Hin) end.
    apply upper_cp_not_key.
    repeat match goal with Hx : _ && _ = true |- _ => apply andb_true_iff in Hx as [Hx ?] end.
    by apply negb_true_iff.
Qed.

Lemma upper_cp_outputs (P : N -> Prop) cp :
  P cp ->
  (forall x, x < 0x110000 -> JS.is_surrogate x = false -> JS.is_space x = false ->
             (x <? 0x10000) = (cp <? 0x10000) -> P x) ->
  Forall P (JS.upper_cp cp).
Proof.
  intros Hcp Hout. destruct (upper_cp_cases cp) as [->|[_ H]]; [by repeat constructor|].
  entry H. apply Forall_forall. intros x Hin%list_elem_of_In.
  match goal with Hall : forallb _ _ = true |- _ => rewrite forallb_forall in Hall;
    specialize (Hall x Hin); rename Hall into Hx end.
  repeat (apply andb_true_iff in Hx as [Hx ?]).
  apply Hout.
  - by apply N.ltb_lt.
  - by apply negb_true_iff.
  - by apply negb_true_iff.
  - symmetry. by apply eqb_prop.
Qed.

Lemma upper_cp_of (P : N -> bool) cp :
  P cp = true -> forallb (fun e => negb (P (fst e))) JS.upper_table = true ->
  JS.upper_cp cp = [cp].
Proof.
  intros HP Hall. apply upper_cp_not_key. unfold is_key.
  apply not_true_is_false. intros (e & Hin & He)%existsb_exists.
  apply N.eqb_eq in He. rewrite forallb_forall in Hall. specialize (Hall e Hin).
  rewrite He, HP in Hall. done.
Qed.

Lemma upper_cp_surrogate cp : JS.is_surrogate cp = true -> JS.upper_cp cp = [cp].
Proof. intros H. apply (upper_cp_of JS.is_surrogate); [done|]. vm_compute. reflexivity. Qed.

Lemma upper_cp_space cp : JS.is_space cp = true -> JS.upper_cp cp = [cp].
Proof. intros H. apply (upper_cp_of JS.is_space); [done|]. vm_compute. reflexivity. Qed.

Lemma upper_cp_plate_char cp : is_plate_char cp = true -> JS.upper_cp cp = [cp].
Proof. intros H. apply (upper_cp_of is_plate_char); [done|]. vm_compute. reflexivity. Qed.

Lemma upper_cp_nonempty cp : JS.upper_cp cp <> [].
Proof.
  destruct (upper_cp_cases cp) as [->|[_ H]]; [done|]. entry H.
  destruct (JS.upper_cp cp); [|done]. done.
Qed.

Lemma upper_cp_scalar cp : scalar cp -> Forall scalar (JS.upper_cp cp).
Proof. intros H. apply upper_cp_outputs; [done|]. by intros x ? ? _ _. Qed.

Lemma upper_cp_bound cp : cp < 0x110000 -> Forall (fun x => x < 0x110000) (JS.upper_cp cp).
Proof. intros H. apply upper_cp_outputs; [done|]. by intros x ? _ _ _. Qed.

Lemma upper_cp_no_space cp :
  JS.is_space cp = false -> Forall (fun x => JS.is_space x = false) (JS.upper_cp cp).
Proof. intros H. apply upper_cp_outputs; [done|]. by intros x _ _ ? _. Qed.

End Unicode.

(** ** Code units, code points and the two string operations *)

Section CodeUnits.

Local Open Scope N_scope.

Ltac bsolve :=
  unfold JS.is_lead2, JS.is_lead3, JS.is_cont, JS.is_high, JS.is_low, JS.is_surrogate;
  repeat match goal with
         | |- context [(?a <=? ?b)%N] => destruct (N.leb_spec a b)
         | |- context [(?a <? ?b)%N] => destruct (N.ltb_spec a b)
         end;
  simpl; try done; try (exfalso; lia).

Ltac bhyp :=
  unfold JS.is_lead2, JS.is_lead3, JS.is_cont, JS.is_high, JS.is_low, JS.is_surrogate in *;
  rewrite ?andb_true_iff, ?N.leb_le, ?N.ltb_lt in *.

Lemma is_space_bound u : JS.is_space u = true -> u < 0x10000 /\ JS.is_surrogate u = false.
Proof.
  unfold JS.is_space. rewrite !orb_true_iff, !andb_true_iff, !N.eqb_eq, !N.leb_le.
  intros H. split; [lia|].
  unfold JS.is_surrogate.
  destruct (N.leb_spec 0xD800 u); [|done]. destruct (N.ltb_spec u 0xE000); [|done]. lia.
Qed.

Lemma is_high_surrogate u : JS.is_high u = true -> JS.is_surrogate u = true.
Proof. bsolve. Qed.

Lemma is_low_surrogate u : JS.is_low u = true -> JS.is_surrogate u = true.
Proof. bsolve. Qed.

Lemma is_surrogate_bound u : JS.is_surrogate u = true -> u < 0x10000.
Proof. intros H. bhyp. lia. Qed.

Lemma no_space_surrogate u : JS.is_surrogate u = true -> JS.is_space u = false.
Proof.
  intros Hs. destruct (JS.is_space u) eqn:E; [|done].
  apply is_space_bound in E as [_ E]. congruence.
Qed.

Lemma no_space_astral cp : 0x10000 <= cp -> JS.is_space cp = false.
Proof.
  intros H. destruct (JS.is_space cp) eqn:E; [|done].
  apply is_space_bound in E as [E _]. lia.
Qed.

(** *** The mapping on lists of code points *)

Lemma flat_map_fixed (S : list N) :
  (forall x, In x S -> JS.upper_cp x = [x]) -> flat_map JS.upper_cp S = S.
Proof.
  induction S as [|x S IH]; intros H; [done|].
  simpl. rewrite (H x) by (by left). simpl. f_equal. apply IH. intros y Hy. apply H. by right.
Qed.

Lemma flat_map_upper_idem (V : list N) :
  flat_map JS.upper_cp (flat_map JS.upper_cp V) = flat_map JS.upper_cp V.
Proof.
  induction V as [|a V IH]; [done|].
  simpl. rewrite flat_map_app, IH. f_equal.
  apply flat_map_fixed. intros x. apply upper_cp_fixed.
Qed.

Lemma filter_no_space_id (S : list N) :
  Forall (fun x => JS.is_space x = false) S -> List.filter no_space S = S.
Proof.
  induction 1 as [|x S Hx _ IH]; [done|]. simpl. unfold no_space at 1. rewrite Hx. simpl.
  by rewrite IH.
Qed.

Lemma filter_flat_map_upper (V : list N) :
  List.filter no_space (flat_map JS.upper_cp V)
  = flat_map JS.upper_cp (List.filter no_space V).
Proof.
  induction V as [|a V IH]; [done|].
  simpl. rewrite List.filter_app, IH. unfold no_space at 3.
  destruct (JS.is_space a) eqn:Ha; simpl.
  - rewrite (upper_cp_space a Ha). simpl. unfold no_space at 1. by rewrite Ha.
  - by rewrite (filter_no_space_id _ (upper_cp_no_space a Ha)).
Qed.

Lemma flat_map_upper_bound (V : list N) :
  Forall (fun cp => cp < 0x110000) V ->
  Forall (fun cp => cp < 0x110000) (flat_map JS.upper_cp V).
Proof.
  induction 1 as [|a V Ha _ IH]; [constructor|].
  simpl. apply Forall_app. split; [by apply upper_cp_bound|done].
Qed.

Lemma flat_map_upper_scalar (V : list N) :
  Forall scalar V -> Forall scalar (flat_map JS.upper_cp V).
Proof.
  induction 1 as [|a V Ha _ IH]; [constructor|].
  simpl. apply Forall_app. split; [by apply upper_cp_scalar|done].
Qed.

(** *** Encoding and stripping *)

Lemma filter_code_units cp :
  cp < 0x110000 ->
  List.filter no_space (JS.code_units cp) = if no_space cp then JS.code_units cp else [].
Proof.
  intros Hcp. unfold JS.code_units.
  destruct (N.ltb_spec cp 0x10000) as [H|H]; [done|].
  pose proof (N.mod_lt (cp - 0x10000) 0x400 ltac:(lia)) as Hm.
  assert ((cp - 0x10000) / 0x400 < 0x400) as Hd by (apply N.Div0.div_lt_upper_bound; lia).
  set (q := (cp - 0x10000) / 0x400) in *. set (r := (cp - 0x10000) mod 0x400) in *.
  clearbody q r. simpl. unfold no_space.
  rewrite (no_space_astral cp H), (no_space_surrogate (0xD800 + q)),
    (no_space_surrogate (0xDC00 + r)); [done|bsolve..].
Qed.

Lemma strip_code_units (V : list N) :
  Forall (fun cp => cp < 0x110000) V ->
  JS.strip_units (flat_map JS.code_units V) = flat_map JS.code_units (List.filter no_space V).
Proof.
  induction 1 as [|cp V Hcp _ IH]; [done|].
  unfold JS.strip_units in *. fold no_space in *.
  rewrite flat_map_cons_eq, List.filter_app, IH, filter_code_units by done.
  simpl. by destruct (no_space cp).
Qed.

Lemma strip_units_idem l : JS.strip_units (JS.strip_units l) = JS.strip_units l.
Proof.
  unfold JS.strip_units. induction l as [|u l IH]; [done|]. simpl.
  destruct (negb (JS.is_space u)) eqn:E; simpl; by rewrite ?E, IH.
Qed.

Lemma strip_units_bounded l : bounded l -> bounded (JS.strip_units l).
Proof.
  unfold bounded, JS.strip_units. intros H. apply Forall_forall. intros x Hx.
  apply list_elem_of_In, filter_In in Hx as [Hx _].
  rewrite Forall_forall in H. by apply H, list_elem_of_In.
Qed.

(** *** Lists of code points that decode from code units *)

Lemma valid_cps_cons a V :
  valid_cps (a :: V)
  <-> (forall b, head V = Some b -> ~ (JS.is_high a = true /\ JS.is_low b = true))
      /\ valid_cps V.
Proof.
  destruct V as [|b V]; simpl.
  - split; [intros [_ _]; by split|done].
  - split; intros [H1 H2]; (split; [|done]).
    + by intros ? [= <-].
    + by apply H1.
Qed.

Lemma code_points_head u l :
  exists h, head (JS.code_points (u :: l)) = Some h /\ (h = u \/ 0x10000 <= h).
Proof.
  rewrite code_points_cons. destruct l as [|v l]; [by exists u; split; [|left]|].
  destruct (JS.is_high u && JS.is_low v); eexists; (split; [reflexivity|]); [right; lia|by left].
Qed.

Lemma code_points_valid l : valid_cps (JS.code_points l).
Proof.
  induction l as [|u|u v l IH1 IH2] using list_ind2; [done..|].
  rewrite code_points_cons. destruct (JS.is_high u && JS.is_low v) eqn:E.
  - apply valid_cps_cons. split; [|done]. intros b _ [Hh _]. revert Hh. bsolve.
  - apply valid_cps_cons. split; [|done]. intros b Hb [Hu Hlow].
    destruct (code_points_head v l) as (h & Hh & [->|Hge]).
    + rewrite Hh in Hb. injection Hb as <-. by rewrite Hu, Hlow in E.
    + rewrite Hh in Hb. injection Hb as <-. revert Hlow. bsolve.
Qed.

Lemma valid_cps_no_high (S : list N) :
  Forall (fun x => JS.is_surrogate x = false) S -> valid_cps S.
Proof.
  induction 1 as [|x S Hx _ IH]; [done|]. apply valid_cps_cons. split; [|done].
  intros b _ [Hh _]. apply is_high_surrogate in Hh. congruence.
Qed.

Lemma valid_cps_app (S T : list N) :
  valid_cps S -> valid_cps T ->
  (forall x y, last S = Some x -> head T = Some y ->
               ~ (JS.is_high x = true /\ JS.is_low y = true)) ->
  valid_cps (S ++ T).
Proof.
  induction S as [|a S IH]; intros HS HT Hb; [done|].
  apply valid_cps_cons in HS as [Ha HS].
  change ((a :: S) ++ T)%list with (a :: (S ++ T))%list. apply valid_cps_cons. split.
  - intros b Hhead. destruct S as [|c S].
    + simpl in Hhead. by apply (Hb a b).
    + simpl in Hhead. by apply Ha.
  - apply IH; [done..|]. intros x y Hl. apply Hb.
    destruct S; [done|]. by rewrite last_cons, Hl.
Qed.

Lemma upper_cp_surrogate_out cp x :
  In x (JS.upper_cp cp) -> JS.is_surrogate x = true -> JS.upper_cp cp = [cp] /\ x = cp.
Proof.
  intros Hin Hx. destruct (JS.is_surrogate cp) eqn:Hcp.
  - rewrite (upper_cp_surrogate cp Hcp) in *. destruct Hin as [<-|[]]. done.
  - exfalso.
    assert (Forall (fun y => JS.is_surrogate y = false) (JS.upper_cp cp)) as H
        by (apply upper_cp_outputs; [done|]; by intros y _ ? _ _).
    rewrite Forall_forall in H. apply list_elem_of_In in Hin. specialize (H x Hin).
    congruence.
Qed.

Lemma valid_cps_flat_map_upper (V : list N) :
  valid_cps V -> valid_cps (flat_map JS.upper_cp V).
Proof.
  induction V as [|a V IH]; intros HV; [done|].
  apply valid_cps_cons in HV as [Ha HV]. simpl. apply valid_cps_app; [|by apply IH|].
  - destruct (JS.is_surrogate a) eqn:Hs.
    + by rewrite (upper_cp_surrogate a Hs).
    + apply valid_cps_no_high. apply upper_cp_outputs; [done|]. by intros y _ ? _ _.
  - intros x y Hx Hy [Hhx Hly].
    apply last_Some_elem_of, list_elem_of_In in Hx.
    destruct (upper_cp_surrogate_out a x Hx (is_high_surrogate x Hhx)) as [_ ->].
    destruct V as [|b V]; [done|]. simpl in Hy.
    pose proof (upper_cp_nonempty b) as Hne.
    destruct (JS.upper_cp b) as [|z t] eqn:Hb; [done|]. simpl in Hy. injection Hy as ->.
    assert (In y (JS.upper_cp b)) as Hin by (rewrite Hb; by left).
    destruct (upper_cp_surrogate_out b y Hin (is_low_surrogate y Hly)) as [_ ->].
    by apply (Ha b).
Qed.

Lemma code_units_head b :
  b < 0x110000 ->
  exists h t, JS.code_units b = h :: t /\ (JS.is_low h = true -> JS.is_low b = true).
Proof.
  intros Hb. unfold JS.code_units. destruct (N.ltb_spec b 0x10000).
  - by eexists _, _.
  - eexists _, _. split; [reflexivity|].
    assert ((b - 0x10000) / 0x400 < 0x400) as Hd by (apply N.Div0.div_lt_upper_bound; lia).
    set (q := (b - 0x10000) / 0x400) in *. clearbody q. bsolve.
Qed.

Lemma code_points_flat_map_code_units_valid (V : list N) :
  valid_cps V -> Forall (fun cp => cp < 0x110000) V ->
  JS.code_points (flat_map JS.code_units V) = V.
Proof.
  induction V as [|a V IH]; intros HV Hb; [done|].
  apply valid_cps_cons in HV as [Ha HV].
  pose proof (Forall_inv Hb) as Hba. simpl in Hba. apply Forall_inv_tail in Hb.
  specialize (IH HV Hb).
  rewrite flat_map_cons_eq. destruct (JS.is_surrogate a) eqn:Hs.
  - assert (JS.code_units a = [a]) as ->.
    { unfold JS.code_units. apply is_surrogate_bound in Hs.
      by destruct (N.ltb_spec a 0x10000); [|lia]. }
    cbn [app]. destruct (JS.is_high a) eqn:Hh; [|by rewrite code_points_single, IH].
    destruct V as [|b V]; [done|].
    pose proof (Forall_inv Hb) as Hbb. simpl in Hbb.
    destruct (code_units_head b Hbb) as (h & t & Hc & Hlow).
    rewrite flat_map_cons_eq in IH |- *. rewrite Hc in IH |- *. cbn [app] in *.
    rewrite (code_points_cons a). cbv beta iota.
    destruct (JS.is_low h) eqn:Hl.
    + exfalso. apply (Ha b); [done|]. by split; [|apply Hlow].
    + rewrite Hh. simpl andb. cbv iota. by rewrite IH.
  - rewrite code_points_code_units by done. by rewrite IH.
Qed.

(** *** [toUpperCase] on code units *)

Lemma upper_units_bounded l : bounded l -> bounded (JS.upper_units l).
Proof.
  intros H. apply code_units_bounded, flat_map_upper_bound. by apply code_points_bounded.
Qed.

Lemma code_points_upper_units l :
  bounded l -> JS.code_points (JS.upper_units l) = flat_map JS.upper_cp (JS.code_points l).
Proof.
  intros H. apply code_points_flat_map_code_units_valid.
  - apply valid_cps_flat_map_upper, code_points_valid.
  - by apply flat_map_upper_bound, code_points_bounded.
Qed.

Lemma upper_units_idem l : bounded l -> JS.upper_units (JS.upper_units l) = JS.upper_units l.
Proof.
  intros H. unfold JS.upper_units at 1.
  by rewrite code_points_upper_units, flat_map_upper_idem.
Qed.

Lemma code_points_no_space l :
  Forall (fun u => JS.is_space u = false) l ->
  Forall (fun cp => JS.is_space cp = false) (JS.code_points l).
Proof.
  induction l as [|u|u v l IH1 IH2] using list_ind2; intros H; [done..|].
  rewrite code_points_cons. destruct (JS.is_high u && JS.is_low v).
  - constructor; [apply no_space_astral; lia|]. apply IH1.
    by apply Forall_inv_tail, Forall_inv_tail in H.
  - constructor; [by apply Forall_inv in H|]. apply IH2. by apply Forall_inv_tail in H.
Qed.

Lemma strip_units_no_space l : Forall (fun u => JS.is_space u = false) (JS.strip_units l).
Proof.
  apply Forall_forall. intros x Hx. apply list_elem_of_In, filter_In in Hx as [_ Hx].
  by apply negb_true_iff.
Qed.

(** Uppercasing a string without white space leaves it without white space. *)
Lemma strip_upper_units_no_space l :
  bounded l -> Forall (fun u => JS.is_space u = false) l ->
  JS.strip_units (JS.upper_units l) = JS.upper_units l.
Proof.
  intros Hb Hs. unfold JS.upper_units.
  rewrite strip_code_units by (by apply flat_map_upper_bound, code_points_bounded).
  rewrite filter_flat_map_upper.
  by rewrite (filter_no_space_id _ (code_points_no_space l Hs)).
Qed.

(** The manager's normalisation is idempotent on every string. *)
Lemma upper_strip_units_idem l :
  bounded l ->
  JS.upper_units (JS.strip_units (JS.upper_units (JS.strip_units l)))
  = JS.upper_units (JS.strip_units l).
Proof.
  intros Hb.
  rewrite strip_upper_units_no_space
    by (by apply strip_units_bounded || apply strip_units_no_space).
  apply upper_units_idem. by apply strip_units_bounded.
Qed.

(** *** Well-formed strings *)


Lemma well_formed_units_scalar l : bounded l -> JS.well_formed_units l = true -> Forall scalar (JS.code_points l).
Proof.
  intros Hb Hwf. pose proof (code_points_bounded l Hb) as Hcp.
  unfold JS.well_formed_units in Hwf. rewrite forallb_forall in Hwf.
  apply Forall_forall. intros x Hx. split.
  - rewrite Forall_forall in Hcp. by apply Hcp.
  - apply negb_true_iff, Hwf. by apply list_elem_of_In.
Qed.

Lemma scalar_well_formed_units (V : list N) :
  Forall scalar V -> JS.well_formed_units (flat_map JS.code_units V) = true.
Proof.
  intros H. unfold JS.well_formed_units. rewrite code_points_flat_map_code_units by done.
  apply forallb_forall. intros x Hx. rewrite Forall_forall in H.
  apply list_elem_of_In, H in Hx as [_ Hx]. by rewrite Hx.
Qed.

Lemma filter_scalar (f : N -> bool) (V : list N) :
  Forall scalar V -> Forall scalar (List.filter f V).
Proof.
  intros H. apply Forall_forall. intros x Hx. rewrite Forall_forall in H.
  apply H, list_elem_of_In. by apply list_elem_of_In, filter_In in Hx as [Hx _].
Qed.

Lemma code_points_strip_units l :
  bounded l -> JS.well_formed_units l = true ->
  JS.code_points (JS.strip_units l) = List.filter no_space (JS.code_points l).
Proof.
  intros Hb Hwf. pose proof (well_formed_units_scalar l Hb Hwf) as Hsc.
  rewrite <- (flat_map_code_units_code_points l Hb) at 1.
  rewrite strip_code_units by (by apply code_points_bounded).
  apply code_points_flat_map_code_units. by apply filter_scalar.
Qed.

Lemma wf_upper_units l : bounded l -> JS.well_formed_units l = true -> JS.well_formed_units (JS.upper_units l) = true.
Proof.
  intros Hb Hwf. apply scalar_well_formed_units, flat_map_upper_scalar. by apply well_formed_units_scalar.
Qed.

(** On a well-formed string, uppercasing and stripping commute. *)
Lemma upper_strip_units_comm l :
  bounded l -> JS.well_formed_units l = true ->
  JS.upper_units (JS.strip_units l) = JS.strip_units (JS.upper_units l).
Proof.
  intros Hb Hwf. unfold JS.upper_units.
  rewrite code_points_strip_units by done.
  rewrite strip_code_units by (by apply flat_map_upper_bound, code_points_bounded).
  by rewrite filter_flat_map_upper.
Qed.

Lemma strip_upper_units_idem l :
  bounded l -> JS.well_formed_units l = true ->
  JS.strip_units (JS.upper_units (JS.strip_units (JS.upper_units l)))
  = JS.strip_units (JS.upper_units l).
Proof.
  intros Hb Hwf.
  rewrite (upper_strip_units_comm (JS.upper_units l))
    by (by apply upper_units_bounded || apply wf_upper_units).
  by rewrite upper_units_idem, strip_units_idem.
Qed.

End CodeUnits.

(** ** Strings *)

Section StringOperations.

Local Open Scope N_scope.

Lemma units_toUpperCase s : JS.units (JS.toUpperCase s) = JS.upper_units (JS.units s).
Proof. unfold JS.toUpperCase. apply units_of_units, upper_units_bounded, units_bounded. Qed.

Lemma units_strip_spaces s : JS.units (JS.strip_spaces s) = JS.strip_units (JS.units s).
Proof. unfold JS.strip_spaces. apply units_of_units, strip_units_bounded, units_bounded. Qed.

Lemma units_cleanPlate p :
  JS.units (cleanPlate p) = JS.strip_units (JS.upper_units (JS.units p)).
Proof. unfold cleanPlate. by rewrite units_strip_spaces, units_toUpperCase. Qed.

Lemma units_cleanPlate_manager p :
  JS.units (cleanPlate_manager p) = JS.upper_units (JS.strip_units (JS.units p)).
Proof. unfold cleanPlate_manager. by rewrite units_toUpperCase, units_strip_spaces. Qed.

(** The library's normalisation of a well-formed string is normalised. *)
Lemma cleanPlate_well_formed_fixed p :
  JS.well_formed p = true -> cleanPlate (cleanPlate p) = cleanPlate p.
Proof.
  intros Hwf. unfold cleanPlate at 1. unfold JS.strip_spaces, JS.toUpperCase.
  rewrite units_of_units by apply upper_units_bounded, units_bounded.
  rewrite units_cleanPlate, strip_upper_units_idem by (done || apply units_bounded).
  unfold cleanPlate, JS.strip_spaces. by rewrite units_toUpperCase.
Qed.

(** On a well-formed string the two orders give the same string. *)
Lemma cleanPlate_manager_eq p :
  JS.well_formed p = true -> cleanPlate_manager p = cleanPlate p.
Proof.
  intros Hwf. unfold cleanPlate_manager, cleanPlate, JS.toUpperCase at 1, JS.strip_spaces at 2.
  rewrite units_strip_spaces, units_toUpperCase.
  by rewrite upper_strip_units_comm by (done || apply units_bounded).
Qed.

(** The manager's normalisation of any string is normalised. *)
Lemma cleanPlate_manager_fixed p :
  cleanPlate_manager (cleanPlate_manager p) = cleanPlate_manager p.
Proof.
  unfold cleanPlate_manager at 1. unfold JS.toUpperCase. rewrite units_strip_spaces.
  rewrite units_cleanPlate_manager, upper_strip_units_idem by apply units_bounded.
  unfold cleanPlate_manager, JS.toUpperCase. by rewrite units_strip_spaces.
Qed.

(** *** Strings of plate characters *)

Lemma is_plate_char_bound u :
  is_plate_char u = true -> u < 0x80 /\ JS.is_surrogate u = false /\ JS.is_space u = false.
Proof.
  unfold is_plate_char, is_upper_or_digit.
  rewrite !orb_true_iff, !andb_true_iff, !N.eqb_eq, !N.leb_le. intros H.
  split; [lia|]. split.
  - unfold JS.is_surrogate.
    destruct (N.leb_spec 0xD800 u); [|done]. destruct (N.ltb_spec u 0xE000); [lia|done].
  - destruct (JS.is_space u) eqn:E; [|done]. exfalso. revert E. unfold JS.is_space.
    rewrite !orb_true_iff, !andb_true_iff, !N.eqb_eq, !N.leb_le. lia.
Qed.

Lemma code_points_no_surrogate l :
  Forall (fun u => JS.is_surrogate u = false) l -> JS.code_points l = l.
Proof.
  induction 1 as [|u l Hu _ IH]; [done|].
  rewrite code_points_single, IH; [done|].
  destruct (JS.is_high u) eqn:E; [|done]. apply is_high_surrogate in E. congruence.
Qed.

Lemma code_units_bmp (V : list N) :
  Forall (fun cp => cp < 0x10000) V -> flat_map JS.code_units V = V.
Proof.
  induction 1 as [|cp V Hcp _ IH]; [done|].
  simpl. rewrite IH. unfold JS.code_units. by destruct (N.ltb_spec cp 0x10000); [|lia].
Qed.

Lemma plate_units_fixed l :
  forallb is_plate_char l = true -> JS.upper_units l = l /\ JS.strip_units l = l.
Proof.
  intros H. rewrite forallb_forall in H.
  assert (Forall (fun u => u < 0x80 /\ JS.is_surrogate u = false /\ JS.is_space u = false) l)
    as Hall.
  { apply Forall_forall. intros u Hu. apply is_plate_char_bound, H. by apply list_elem_of_In. }
  split.
  - unfold JS.upper_units.
    rewrite code_points_no_surrogate by (eapply Forall_impl; [exact Hall|]; by intros ? (_ & ? & _)).
    rewrite flat_map_fixed by (intros x Hx; by apply upper_cp_plate_char, H).
    apply code_units_bmp. eapply Forall_impl; [exact Hall|]. intros ? (? & _). lia.
  - apply filter_no_space_id. eapply Forall_impl; [exact Hall|]. by intros ? (_ & _ & ?).
Qed.

(** A string the manager's validator accepts is made of 2 to 8 plate
    characters once normalised, and normalising it again, in either order,
    changes nothing. *)
Lemma validatePlateNumber_inv p :
  validatePlateNumber p = true ->
  (2 <= JS.length (cleanPlate_manager p) <= 8)%nat
  /\ JS.all_units is_plate_char (cleanPlate_manager p) = true.
Proof.
  unfold validatePlateNumber.
  destruct (_ || _)%nat eqn:Hlen; [done|]. intros Hc. split; [|done].
  apply orb_false_iff in Hlen as [H1%Nat.ltb_ge H2%Nat.ltb_ge]. lia.
Qed.

Lemma validatePlateNumber_cleaned p :
  validatePlateNumber (cleanPlate_manager p) = validatePlateNumber p.
Proof. unfold validatePlateNumber. by rewrite cleanPlate_manager_fixed. Qed.

Lemma plate_chars_cleanPlate_fixed l :
  bounded l -> forallb is_plate_char l = true ->
  cleanPlate (JS.of_units l) = JS.of_units l
  /\ cleanPlate_manager (JS.of_units l) = JS.of_units l.
Proof.
  intros Hb Hl. destruct (plate_units_fixed l Hl) as [Hu Hs].
  unfold cleanPlate, cleanPlate_manager, JS.strip_spaces, JS.toUpperCase.
  rewrite (units_of_units l Hb), Hu, Hs, (units_of_units l Hb), Hu, Hs. done.
Qed.

Lemma validated_cleanPlate_fixed p :
  validatePlateNumber p = true ->
  cleanPlate (cleanPlate_manager p) = cleanPlate_manager p.
Proof.
  intros [_ Hc]%validatePlateNumber_inv. unfold JS.all_units in Hc.
  rewrite units_cleanPlate_manager in Hc.
  unfold cleanPlate_manager, JS.toUpperCase. rewrite units_strip_spaces.
  apply plate_chars_cleanPlate_fixed; [|done].
  apply upper_units_bounded, strip_units_bounded, units_bounded.
Qed.

End StringOperations.

(** ** Surrogates persist *)

Section Surrogates.

Local Open Scope N_scope.

Ltac bsolve :=
  unfold JS.is_lead2, JS.is_lead3, JS.is_cont, JS.is_high, JS.is_low, JS.is_surrogate;
  repeat match goal with
         | |- context [(?a <=? ?b)%N] => destruct (N.leb_spec a b)
         | |- context [(?a <? ?b)%N] => destruct (N.ltb_spec a b)
         end;
  simpl; try done; try (exfalso; lia).

Lemma code_points_needs_surrogate l :
  existsb JS.is_surrogate l = true -> existsb needs_surrogate (JS.code_points l) = true.
Proof.
  induction l as [|u|u v l IH1 IH2] using list_ind2; [done| |].
  - simpl. unfold needs_surrogate. by destruct (JS.is_surrogate u).
  - intros H. rewrite code_points_cons. destruct (JS.is_high u && JS.is_low v).
    + simpl. unfold needs_surrogate at 1.
      assert ((0x10000 <=? 0x10000 + (u - 0xD800) * 0x400 + (v - 0xDC00)) = true) as ->
          by (apply N.leb_le; lia).
      by rewrite orb_true_r.
    + change (existsb JS.is_surrogate (u :: v :: l))
        with (JS.is_surrogate u || existsb JS.is_surrogate (v :: l)) in H.
      change (existsb needs_surrogate (u :: JS.code_points (v :: l)))
        with (needs_surrogate u || existsb needs_surrogate (JS.code_points (v :: l))).
      apply orb_true_iff in H as [H|H].
      * unfold needs_surrogate at 1. by rewrite H.
      * rewrite (IH2 H). apply orb_true_r.
Qed.

Lemma upper_cp_needs_surrogate cp :
  needs_surrogate cp = true -> existsb needs_surrogate (JS.upper_cp cp) = true.
Proof.
  intros Hcp. destruct (upper_cp_cases cp) as [E|[_ H]].
  - rewrite E. simpl. by rewrite Hcp.
  - unfold entry_ok in H. simpl fst in H. simpl snd in H.
    repeat (apply andb_true_iff in H as [H ?]).
    destruct (JS.upper_cp cp) as [|x t]; [done|].
    match goal with Hall : forallb _ (x :: t) = true |- _ =>
      simpl in Hall; apply andb_true_iff in Hall as [Hx _] end.
    repeat (apply andb_true_iff in Hx as [Hx ?]).
    simpl. unfold needs_surrogate in *.
    match goal with Hs : negb (JS.is_surrogate cp) = true |- _ =>
      apply negb_true_iff in Hs; rewrite Hs in Hcp end.
    simpl in Hcp.
    match goal with Hp : Bool.eqb (cp <? 0x10000) (x <? 0x10000) = true |- _ =>
      apply eqb_prop in Hp; rename Hp into Hplane end.
    assert ((0x10000 <=? x) = true) as ->; [|by rewrite orb_true_r].
    apply N.leb_le in Hcp. apply N.leb_le.
    destruct (N.ltb_spec cp 0x10000); [lia|]. destruct (N.ltb_spec x 0x10000); [done|lia].
Qed.

Lemma flat_map_upper_needs_surrogate (V : list N) :
  existsb needs_surrogate V = true -> existsb needs_surrogate (flat_map JS.upper_cp V) = true.
Proof.
  induction V as [|a V IH]; [done|]. simpl. rewrite existsb_app.
  intros [H|H]%orb_true_iff.
  - by rewrite upper_cp_needs_surrogate.
  - rewrite (IH H). apply orb_true_r.
Qed.

Lemma code_units_needs_surrogate (V : list N) :
  Forall (fun cp => cp < 0x110000) V ->
  existsb needs_surrogate V = true -> existsb JS.is_surrogate (flat_map JS.code_units V) = true.
Proof.
  induction 1 as [|cp V Hcp _ IH]; [done|]. simpl. rewrite existsb_app.
  intros [H|H]%orb_true_iff; [|rewrite (IH H); apply orb_true_r].
  unfold JS.code_units. destruct (N.ltb_spec cp 0x10000) as [Hlt|Hge].
  - unfold needs_surrogate in H. apply orb_true_iff in H as [H|H%N.leb_le]; [|lia].
    simpl. by rewrite H.
  - assert ((cp - 0x10000) / 0x400 < 0x400) as Hd by (apply N.Div0.div_lt_upper_bound; lia).
    set (q := (cp - 0x10000) / 0x400) in *. clearbody q. simpl.
    assert (JS.is_surrogate (0xD800 + q) = true) as -> by bsolve. done.
Qed.

Lemma upper_units_surrogate l :
  bounded l -> existsb JS.is_surrogate l = true ->
  existsb JS.is_surrogate (JS.upper_units l) = true.
Proof.
  intros Hb H. apply code_units_needs_surrogate.
  - by apply flat_map_upper_bound, code_points_bounded.
  - by apply flat_map_upper_needs_surrogate, code_points_needs_surrogate.
Qed.

Lemma strip_units_surrogate l :
  existsb JS.is_surrogate l = true -> existsb JS.is_surrogate (JS.strip_units l) = true.
Proof.
  intros (u & Hin & Hu)%existsb_exists. apply existsb_exists. exists u. split; [|done].
  apply filter_In. split; [done|]. by rewrite (no_space_surrogate u Hu).
Qed.

Lemma no_surrogate_Forall l :
  existsb JS.is_surrogate l = false -> Forall (fun u => JS.is_surrogate u = false) l.
Proof.
  intros H. apply Forall_forall. intros u Hu%list_elem_of_In.
  destruct (JS.is_surrogate u) eqn:E; [|done].
  assert (existsb JS.is_surrogate l = true) by (apply existsb_exists; by exists u).
  congruence.
Qed.

Lemma no_surrogate_well_formed l :
  existsb JS.is_surrogate l = false -> JS.well_formed_units l = true.
Proof.
  intros H%no_surrogate_Forall. unfold JS.well_formed_units.
  rewrite code_points_no_surrogate by done. apply forallb_forall. intros u Hu%list_elem_of_In.
  rewrite Forall_forall in H. by rewrite (H u Hu).
Qed.

Lemma plate_chars_no_surrogate l :
  forallb is_plate_char l = true -> existsb JS.is_surrogate l = false.
Proof.
  intros H. apply not_true_is_false. intros (u & Hin & Hu)%existsb_exists.
  rewrite forallb_forall in H. apply H, is_plate_char_bound in Hin as (_ & Hs & _). congruence.
Qed.

End Surrogates.

(** ** Displaying a plate *)

Section Display.

Local Open Scope N_scope.

Lemma group_units_cons a l1 :
  group_units (a :: l1)
  = match l1 with
    | b :: c :: rest =>
        if negb (is_line_terminator a) && negb (is_line_terminator b)
           && negb (is_line_terminator c)
        then a :: b :: c :: 0x20 :: group_units rest
        else a :: group_units l1
    | _ => a :: group_units l1
    end.
Proof. destruct l1 as [|b [|c rest]]; reflexivity. Qed.

Lemma group_units_ind (P : list N -> list N -> Prop) :
  P [] [] ->
  (forall a l1 g, P l1 g -> P (a :: l1) (a :: g)) ->
  (forall a b c rest g, P rest g -> P (a :: b :: c :: rest) (a :: b :: c :: 0x20 :: g)) ->
  forall l, P l (group_units l).
Proof.
  intros H0 H1 H3 l.
  assert (forall n l, (List.length l <= n)%nat -> P l (group_units l)) as H.
  { clear l. induction n as [|n IH]; intros l Hn.
    { destruct l; [done|simpl in Hn; lia]. }
    destruct l as [|a l1]; [done|]. rewrite group_units_cons.
    assert (P (a :: l1) (a :: group_units l1)) as Hcopy
        by (apply H1, IH; simpl in Hn; lia).
    destruct l1 as [|b [|c rest]]; [done..|].
    destruct (_ && _); [|done]. apply H3, IH. simpl in Hn. lia. }
  by apply (H (List.length l)).
Qed.

Lemma strip_group_units l : JS.strip_units (group_units l) = JS.strip_units l.
Proof.
  apply (group_units_ind (fun l g => JS.strip_units g = JS.strip_units l)); [done| |].
  - intros a l1 g IH. unfold JS.strip_units in *. simpl. by rewrite IH.
  - intros a b c rest g IH. unfold JS.strip_units in *. simpl.
    change (negb (JS.is_space 32)) with false. cbv iota. by rewrite IH.
Qed.

Lemma group_units_Forall (P : N -> Prop) l :
  P 0x20 -> Forall P l -> Forall P (group_units l).
Proof.
  intros Hsp. apply (group_units_ind (fun l g => Forall P l -> Forall P g)); [done| |].
  - intros a l1 g IH H. constructor; [by apply Forall_inv in H|].
    apply IH. by apply Forall_inv_tail in H.
  - intros a b c rest g IH H.
    do 3 (constructor; [by apply Forall_inv in H|]; apply Forall_inv_tail in H).
    constructor; [done|by apply IH].
Qed.

Lemma strip_trim_start_units l : JS.strip_units (trim_start_units l) = JS.strip_units l.
Proof.
  unfold JS.strip_units. induction l as [|u l IH]; simpl; [done|].
  destruct (JS.is_space u) eqn:Hu; [done|]. simpl. by rewrite Hu.
Qed.

Lemma strip_trim_end_units l : JS.strip_units (trim_end_units l) = JS.strip_units l.
Proof.
  unfold JS.strip_units. induction l as [|u l IH]; [done|]. cbn [trim_end_units List.filter].
  rewrite <- IH. destruct (trim_end_units l); [|done].
  destruct (JS.is_space u) eqn:Hu; simpl; by rewrite ?Hu.
Qed.

Lemma trim_start_units_Forall (P : N -> Prop) l : Forall P l -> Forall P (trim_start_units l).
Proof.
  induction 1 as [|u l Hu Hl IH]; [done|]. simpl. destruct (JS.is_space u); [done|].
  by constructor.
Qed.

Lemma trim_end_units_Forall (P : N -> Prop) l : Forall P l -> Forall P (trim_end_units l).
Proof.
  induction 1 as [|u l Hu Hl IH]; [done|]. simpl. destruct (trim_end_units l).
  - destruct (JS.is_space u); [done|]. by repeat constructor.
  - by constructor.
Qed.

(** The code units of a displayed plate, and what is left of them once the
    white space is removed. *)
Lemma units_formatPlateNumber plate :
  JS.units (formatPlateNumber plate)
  = trim_end_units (trim_start_units (group_units (JS.units plate))).
Proof.
  assert (bounded (group_units (JS.units plate))) as Hg.
  { apply group_units_Forall; [simpl; lia|apply units_bounded]. }
  unfold formatPlateNumber, trim, group_by_three.
  rewrite (units_of_units _ Hg). apply units_of_units.
  by apply trim_end_units_Forall, trim_start_units_Forall.
Qed.

Lemma strip_formatPlateNumber plate :
  JS.strip_units (JS.units (formatPlateNumber plate)) = JS.strip_units (JS.units plate).
Proof.
  by rewrite units_formatPlateNumber, strip_trim_end_units, strip_trim_start_units,
    strip_group_units.
Qed.

End Display.

(** ** The validators and the display *)

Section Validators.

Lemma plate_chars_no_surrogate_input p :
  JS.all_units is_plate_char (cleanPlate p) = true
  \/ JS.all_units is_plate_char (cleanPlate_manager p) = true ->
  existsb JS.is_surrogate (JS.units p) = false.
Proof.
  unfold JS.all_units. rewrite units_cleanPlate, units_cleanPlate_manager.
  intros H. apply not_true_is_false. intros Hs.
  destruct H as [H%plate_chars_no_surrogate|H%plate_chars_no_surrogate].
  - rewrite strip_units_surrogate in H; [done|].
    apply upper_units_surrogate; [apply units_bounded|done].
  - rewrite upper_units_surrogate in H; [done|by apply strip_units_bounded, units_bounded|].
    by apply strip_units_surrogate.
Qed.

Lemma validatePlateNumber_no_surrogate p :
  validatePlateNumber p = true -> existsb JS.is_surrogate (JS.units p) = false.
Proof. intros [_ H]%validatePlateNumber_inv. apply plate_chars_no_surrogate_input. by right. Qed.

Lemma validatePlateNumber_well_formed p :
  validatePlateNumber p = true -> JS.well_formed p = true.
Proof. intros H%validatePlateNumber_no_surrogate. by apply no_surrogate_well_formed. Qed.

Lemma units_surrogate_cleanPlate p :
  existsb JS.is_surrogate (JS.units p) = true ->
  existsb JS.is_surrogate (JS.units (cleanPlate p)) = true.
Proof.
  intros H. rewrite units_cleanPlate.
  apply strip_units_surrogate, upper_units_surrogate; [apply units_bounded|done].
Qed.

(** The manager's validator gives the same answer on a plate and on its
    normalisation by the library. *)
Lemma validatePlateNumber_cleanPlate p :
  validatePlateNumber (cleanPlate p) = validatePlateNumber p.
Proof.
  destruct (existsb JS.is_surrogate (JS.units p)) eqn:Hs.
  - assert (forall q, existsb JS.is_surrogate (JS.units q) = true ->
                      validatePlateNumber q = false) as Hrej.
    { intros q Hq. destruct (validatePlateNumber q) eqn:Hv; [|done].
      apply validatePlateNumber_no_surrogate in Hv. congruence. }
    rewrite (Hrej p Hs). apply Hrej. by apply units_surrogate_cleanPlate.
  - rewrite <- (cleanPlate_manager_eq p) by (by apply no_surrogate_well_formed).
    apply validatePlateNumber_cleaned.
Qed.

(** A string without surrogates: what its display normalises to. *)
Lemma cleanPlate_formatPlateNumber plate :
  existsb JS.is_surrogate (JS.units plate) = false ->
  cleanPlate (formatPlateNumber plate) = cleanPlate plate.
Proof.
  intros Hs.
  assert (JS.well_formed plate = true) as Hwf by (by apply no_surrogate_well_formed).
  assert (JS.well_formed (formatPlateNumber plate) = true) as Hwf'.
  { apply no_surrogate_well_formed, not_true_is_false.
    intros (u & Hin & Hu)%existsb_exists.
    rewrite units_formatPlateNumber in Hin.
    assert (Forall (fun u => JS.is_surrogate u = false)
                   (trim_end_units (trim_start_units (group_units (JS.units plate)))))
      as Hall.
    { apply trim_end_units_Forall, trim_start_units_Forall, group_units_Forall; [done|].
      by apply no_surrogate_Forall. }
    rewrite Forall_forall in Hall. apply list_elem_of_In, Hall in Hin. congruence. }
  rewrite <- !cleanPlate_manager_eq by done.
  unfold cleanPlate_manager, JS.toUpperCase. rewrite !units_strip_spaces.
  by rewrite strip_formatPlateNumber.
Qed.

End Validators.

(** ** Plate normalisation *)

(** C9. Plate normalisation (uppercase, then remove white space) is
    idempotent on every well-formed string, that is on every string without
    an unpaired surrogate: normalising a normalised plate changes nothing.
    (On other strings it need not be: removing the white space can pair a
    high surrogate with a low one, and the pair is a letter that the second
    pass uppercases.) *)
Theorem cleanPlate_idempotent (p : string) :
  JS.well_formed p = true -> cleanPlate (cleanPlate p) = cleanPlate p.
Proof. apply cleanPlate_well_formed_fixed. Qed.

Lemma cleanPlate_idempotent_witness :
  JS.well_formed "straße 12" = true
  /\ cleanPlate "straße 12" = "STRASSE12"
  /\ cleanPlate (cleanPlate "straße 12") = cleanPlate "straße 12".
Proof.
  split; [vm_compute; reflexivity|]. split; [vm_compute; reflexivity|].
  apply cleanPlate_idempotent. vm_compute. reflexivity.
Defined.

(** The string made of the high surrogate D801, a space and the low surrogate
    DC28: the first pass removes the space and leaves the pair D801 DC28,
    which is the letter U+10428; the second pass uppercases it to U+10400. *)
Lemma cleanPlate_not_idempotent :
  let p := JS.of_units [0xD801; 0x20; 0xDC28]%N in
  JS.units (cleanPlate p) = [0xD801; 0xDC28]%N
  /\ JS.units (cleanPlate (cleanPlate p)) = [0xD801; 0xDC00]%N
  /\ cleanPlate (cleanPlate p) <> cleanPlate p.
Proof.
  split; [vm_compute; reflexivity|]. split; [vm_compute; reflexivity|].
  vm_compute. discriminate.
Qed.

Example validateLicensePlateFormat_examples :
  success (validateLicensePlateFormat "abc 123" "ca") = true
  /\ success (validateLicensePlateFormat "ABC-1234" "CA") = false
  /\ success (validateLicensePlateFormat "ABC-1234" "WA") = true
  /\ success (validateLicensePlateFormat "A" "CA") = false
  /\ success (validateLicensePlateFormat "straße" "WA") = true.
Proof. vm_compute. repeat split; reflexivity. Qed.

(** C1. The overlap predicate is symmetric, and an interval that ends where
    the other one starts does not overlap it (in either argument order). *)
Theorem overlaps_symmetric_touching :
  (forall A B : Interval, overlaps A B = overlaps B A) /\
  (forall a b c : Z,
      overlaps (mkInterval a b) (mkInterval b c) = false /\
      overlaps (mkInterval b c) (mkInterval a b) = false).
Proof.
  split.
  - intros [a1 a2] [b1 b2]. unfold overlaps; simpl.
    rewrite !Z.gtb_ltb. apply andb_comm.
  - intros a b c. unfold overlaps; simpl.
    rewrite !Z.gtb_ltb, Z.ltb_irrefl. by rewrite andb_false_r.
Qed.

(** ** Reasoning about operations *)

Ltac unfold_M :=
  unfold mbind, M_bind, mret, M_ret, bind, ret, throw, try_catch in *.

#[local] Arguments JS.of_Z : simpl never.
#[local] Arguments JS.of_scaled : simpl never.
#[local] Arguments JS.mul : simpl never.
#[local] Arguments JS.div : simpl never.
#[local] Arguments fresh_string : simpl never.
#[local] Arguments pretty : simpl never.
#[local] Arguments String.append : simpl never.
#[local] Arguments cleanPlate : simpl never.
#[local] Arguments JS.toUpperCase : simpl never.

(** Runs an unfolded operation forward in a store that answers. *)
Ltac run_available Hav :=
  unfold getCurrentUser, getDoc, addDoc, updateDoc, getDocs, dateNow, randomSuffix, remote;
  unfold_M;
  repeat (progress (simpl; rewrite ?Hav)).

Lemma remote_available {A} (k : M A) (w : World) :
  available w -> remote k w = k (set_calls (S (calls w)) w).
Proof. intros Hav. unfold remote. by rewrite Hav. Qed.

Lemma remote_fault {A} (k : M A) (w : World) :
  faults (env w) (calls w) = true ->
  remote k w = (Throw (FirebaseError "unavailable"), set_calls (S (calls w)) w).
Proof. intros Hf. unfold remote. by rewrite Hf. Qed.

(** ** The booking flow *)

Section BookingFlow.

Variable slotDate : Z -> string -> option Z.
Variable getOverlapping : string -> Z -> Z -> M (list (string * Booking)).
Variable create : Booking -> M string.

Lemma handleBooking_ready st u plate startDate endDate (w : World) :
  ready slotDate st u plate startDate endDate ->
  handleBooking slotDate getOverlapping create st w =
    match slot_taken getOverlapping (listing st) startDate endDate w with
    | (Ok true, w1) =>
        (Ok (BookingAlert "This time slot is already booked. Please choose another time."), w1)
    | (Ok false, w1) =>
        match create (bookingData u (listing st) plate startDate endDate) w1 with
        | (Ok bookingId, w2) =>
            (Ok (PaymentModal bookingId (totalPrice (listing st) startDate endDate)), w2)
        | (Throw _, w2) =>
            (Ok (BookingAlert "Failed to create booking. Please try again."), w2)
        end
    | (Throw _, w1) =>
        (Ok (BookingAlert "Failed to create booking. Please try again."), w1)
    end.
Proof.
  intros (Hu & Hp & (day & slot & Hd & Hs & Hsd & Hed) & Hlt).
  unfold handleBooking. rewrite Hu, Hd, Hs, Hp, Hsd, Hed.
  assert ((startDate >=? endDate) = false) as -> by lia.
  unfold_M.
  destruct (slot_taken _ _ _ _ w) as [[[|]|e] w1]; try done.
  by destruct (create _ w1) as [[bookingId|e] w2].
Qed.

Lemma slot_taken_found l startDate endDate (w w1 : World) found :
  getOverlapping (or_string (l_id <$> l) "") startDate endDate w = (Ok found, w1) ->
  slot_taken getOverlapping l startDate endDate w
  = (Ok (bool_decide (0 < length found)%nat), w1).
Proof. intros Hq. unfold slot_taken. unfold_M. by rewrite Hq. Qed.

Lemma slot_taken_failed l startDate endDate (w w1 : World) e :
  getOverlapping (or_string (l_id <$> l) "") startDate endDate w = (Throw e, w1) ->
  slot_taken getOverlapping l startDate endDate w = (Ok false, w1).
Proof. intros Hq. unfold slot_taken. unfold_M. by rewrite Hq. Qed.

End BookingFlow.

(** The modelled overlap query only reads: it leaves every collection as it
    found it, whether it answers or fails. *)
Lemma getOverlappingBookings_reads_only listingId startTime endTime (w : World) :
  bookings (snd (getOverlappingBookings listingId startTime endTime w)) = bookings w.
Proof.
  unfold getOverlappingBookings, getDocs, remote.
  by destruct (faults (env w) (calls w)).
Qed.

(** C2. Once the screen's checks have passed: when the overlap query answers
    with at least one booking, the user is told the slot is taken and the
    handler stops in the world the query left, without calling
    [createBooking]; when the query throws, the handler goes on to
    [createBooking] with the payload, as if nothing had been found. This holds
    for any implementation of the two library functions. *)
Theorem handleBooking_overlap_policy
        (slotDate : Z -> string -> option Z)
        (getOverlapping : string -> Z -> Z -> M (list (string * Booking)))
        (create : Booking -> M string)
        (st : ListingDetail) (u : User) (plate : LicensePlate)
        (startDate endDate : Z) (w : World) :
  ready slotDate st u plate startDate endDate ->
  let query := getOverlapping (or_string (l_id <$> listing st) "") startDate endDate w in
  (forall found,
      fst query = Ok found -> found <> [] ->
      handleBooking slotDate getOverlapping create st w
      = (Ok (BookingAlert "This time slot is already booked. Please choose another time."),
         snd query))
  /\
  (forall e,
      fst query = Throw e ->
      handleBooking slotDate getOverlapping create st w
      = match create (bookingData u (listing st) plate startDate endDate) (snd query) with
        | (Ok bookingId, w2) =>
            (Ok (PaymentModal bookingId (totalPrice (listing st) startDate endDate)), w2)
        | (Throw _, w2) =>
            (Ok (BookingAlert "Failed to create booking. Please try again."), w2)
        end).
Proof.
  intros Hready query. subst query.
  destruct (getOverlapping _ startDate endDate w) as [r w1] eqn:Hq. simpl. split.
  - intros found -> Hne.
    rewrite (handleBooking_ready _ _ _ _ _ _ _ _ _ Hready).
    rewrite (slot_taken_found _ _ _ _ _ _ _ Hq).
    destruct found as [|d found]; [done|]. rewrite bool_decide_true; [done|simpl; lia].
  - intros e ->.
    rewrite (handleBooking_ready _ _ _ _ _ _ _ _ _ Hready).
    by rewrite (slot_taken_failed _ _ _ _ _ _ _ Hq).
Qed.

Lemma handleBooking_overlap_policy_witness :
  let st := screen listing10 "09:30" "10:30" in
  handleBooking utcSlotDate getOverlappingBookings createBooking st (world_A quiet)
  = (Ok (BookingAlert "This time slot is already booked. Please choose another time."),
     snd (getOverlappingBookings "listing1" 34200000 37800000 (world_A quiet)))
  /\
  handleBooking utcSlotDate getOverlappingBookings createBooking st (world_A first_call_fails)
  = match createBooking (bookingData driver (Some listing10) plateABC 34200000 37800000)
                        (snd (getOverlappingBookings "listing1" 34200000 37800000
                                                     (world_A first_call_fails))) with
    | (Ok bookingId, w2) =>
        (Ok (PaymentModal bookingId (totalPrice (Some listing10) 34200000 37800000)), w2)
    | (Throw _, w2) => (Ok (BookingAlert "Failed to create booking. Please try again."), w2)
    end.
Proof.
  intros st.
  assert (ready utcSlotDate st driver plateABC 34200000 37800000) as Hready.
  { split; [reflexivity|]. split; [reflexivity|]. split; [|reflexivity].
    exists 0, (mkTimeSlot "09:30" "10:30").
    split; [reflexivity|]. split; [reflexivity|]. split; vm_compute; reflexivity. }
  split.
  - apply (proj1 (handleBooking_overlap_policy
                    utcSlotDate getOverlappingBookings createBooking
                    st driver plateABC 34200000 37800000 (world_A quiet) Hready)
                 [("A", bookingA)]).
    + vm_compute. reflexivity.
    + discriminate.
  - apply (proj2 (handleBooking_overlap_policy
                    utcSlotDate getOverlappingBookings createBooking
                    st driver plateABC 34200000 37800000 (world_A first_call_fails) Hready)
                 (FirebaseError "unavailable")).
    vm_compute. reflexivity.
Defined.

(** The scenario of the specification, run on the modelled store: the
    overlapping request is refused and leaves the bookings as they were; the
    touching one is accepted and stored. *)
Example scenario_overlapping_request_rejected :
  let r := handleBooking utcSlotDate getOverlappingBookings createBooking
                         (screen listing10 "09:30" "10:30") (world_A quiet) in
  fst r = Ok (BookingAlert "This time slot is already booked. Please choose another time.")
  /\ map_to_list (bookings (snd r)) = [("A", bookingA)].
Proof. vm_compute. split; reflexivity. Qed.

Example scenario_touching_request_accepted :
  let r := handleBooking utcSlotDate getOverlappingBookings createBooking
                         (screen listing10 "10:00" "11:00") (world_A quiet) in
  fst r = Ok (PaymentModal "doc" (JS.of_Z 10))
  /\ bookings (snd r) !! "doc"
     = Some (bookingData driver (Some listing10) plateABC (10 * ms_per_hour) (11 * ms_per_hour))
  /\ bookings (snd r) !! "A" = Some bookingA.
Proof. vm_compute. repeat split; reflexivity. Qed.

(** With the query failing, the overlapping request is stored next to
    booking A. *)
Example scenario_fail_open_double_books :
  let r := handleBooking utcSlotDate getOverlappingBookings createBooking
                         (screen listing10 "09:30" "10:30") (world_A first_call_fails) in
  fst r = Ok (PaymentModal "doc" (JS.of_Z 10))
  /\ (start_time <$> bookings (snd r) !! "doc") = Some 34200000
  /\ bookings (snd r) !! "A" = Some bookingA.
Proof. vm_compute. repeat split; reflexivity. Qed.

Lemma handleBooking_modal_inv slotDate getOverlapping create st (w w' : World)
      bookingId bookingAmount :
  handleBooking slotDate getOverlapping create st w
  = (Ok (PaymentModal bookingId bookingAmount), w') ->
  exists u plate startDate endDate w1,
    ready slotDate st u plate startDate endDate /\
    create (bookingData u (listing st) plate startDate endDate) w1 = (Ok bookingId, w') /\
    bookingAmount = totalPrice (listing st) startDate endDate.
Proof.
  unfold handleBooking. intros H.
  destruct (user st) as [u|] eqn:Hu; [|by unfold_M].
  destruct (selectedDate st) as [day|] eqn:Hd; [|by unfold_M].
  destruct (selectedTimeSlot st) as [slot|] eqn:Hs; [|by unfold_M].
  destruct (selectedLicensePlate st) as [plate|] eqn:Hp; [|by unfold_M].
  destruct (slotDate day (startTime slot)) as [startDate|] eqn:Hsd; [|by unfold_M].
  destruct (slotDate day (endTime slot)) as [endDate|] eqn:Hed; [|by unfold_M].
  destruct (startDate >=? endDate) eqn:Hge; [by unfold_M|].
  unfold_M.
  destruct (slot_taken _ _ _ _ w) as [[[|]|e] w1]; try done.
  destruct (create _ w1) as [[bookingId'|e] w2] eqn:Hc; [|done].
  injection H as H1 H2 H3. subst.
  exists u, plate, startDate, endDate, w1. split; [|done].
  repeat split; try done; [|lia]. by exists day, slot.
Qed.

Lemma addDoc_stores {D} (c : Collection D) (data : D) (w w' : World) id :
  (forall m v, docs c (set_docs c m v) = m) ->
  (forall n v, docs c (set_calls n v) = docs c v) ->
  addDoc c data w = (Ok id, w') ->
  docs c w !! id = None /\ docs c w' = <[id := data]> (docs c w).
Proof.
  intros Hgs Hgc. unfold addDoc, remote.
  destruct (faults (env w) (calls w)); [done|].
  intros [= <- <-]. rewrite Hgs, Hgc. split; [|done]. apply fresh_string_fresh.
Qed.

Lemma createBooking_stores (payload : Booking) (w w' : World) bookingId :
  createBooking payload w = (Ok bookingId, w') ->
  bookings w !! bookingId = None /\ bookings w' = <[bookingId := payload]> (bookings w).
Proof. intros H. by apply (addDoc_stores bookingsC payload w w' bookingId). Qed.

(** C3. Whenever the booking flow persists a booking (the handler ends by
    opening the payment sheet for [bookingId]), the screen had passed its
    checks with the two dates [startDate < endDate], and the stored document
    runs from [startDate] to [endDate] for the signed-in user and the
    selected plate and has status [pending]. Its total price is, in JS
    arithmetic, the number of milliseconds between the two dates divided by
    3600000 and multiplied by the [price_per_hour] of the listing on the
    screen when that is a usable number, and by 0 when there is no listing
    or its price is 0 or NaN; the same number is handed to the payment
    sheet. The product is exact at the quarter-hour prices of the spec: two
    and a half hours at 10 per hour cost exactly 25, an hour and a half at 4
    exactly 6, three quarters of an hour at 12 exactly 9, and twenty minutes
    at 7.5 exactly 2.5. *)
Theorem handleBooking_persists_pending_booking
        (slotDate : Z -> string -> option Z)
        (getOverlapping : string -> Z -> Z -> M (list (string * Booking)))
        (st : ListingDetail) (w w' : World)
        (bookingId : string) (bookingAmount : JS.number) :
  handleBooking slotDate getOverlapping createBooking st w
  = (Ok (PaymentModal bookingId bookingAmount), w') ->
  exists u plate startDate endDate b,
    ready slotDate st u plate startDate endDate
    /\ bookings w' !! bookingId = Some b
    /\ b_status b = BookingPending
    /\ start_time b = startDate /\ end_time b = endDate /\ startDate < endDate
    /\ b_user_id b = uid u
    /\ license_plate b = Some (plateNumber plate)
    /\ license_plate_state b = Some (lp_state plate)
    /\ bookingAmount = total_price b
    /\ (forall l,
           listing st = Some l -> JS.truthy (price_per_hour l) = true ->
           listing_id b = or_string (Some (l_id l)) ""
           /\ total_price b
              = JS.mul (JS.div (JS.of_Z (endDate - startDate)) (JS.of_Z 3600000))
                       (price_per_hour l))
    /\ ((listing st = None
         \/ exists l, listing st = Some l /\ JS.truthy (price_per_hour l) = false) ->
        total_price b
        = JS.mul (JS.div (JS.of_Z (endDate - startDate)) (JS.of_Z 3600000)) (JS.of_Z 0))
    /\ (forall l,
           listing st = Some l ->
           (price_per_hour l = JS.of_Z 10 -> endDate - startDate = 9000000 ->
            total_price b = JS.of_Z 25)
           /\ (price_per_hour l = JS.of_Z 4 -> endDate - startDate = 5400000 ->
               total_price b = JS.of_Z 6)
           /\ (price_per_hour l = JS.of_Z 12 -> endDate - startDate = 2700000 ->
               total_price b = JS.of_Z 9)
           /\ (price_per_hour l = JS.of_scaled 15 (-1) -> endDate - startDate = 1200000 ->
               total_price b = JS.of_scaled 5 (-1))).
Proof.
  intros H.
  apply handleBooking_modal_inv in H
    as (u & plate & startDate & endDate & w1 & Hready & Hc & ->).
  apply createBooking_stores in Hc as [_ Hw'].
  exists u, plate, startDate, endDate, (bookingData u (listing st) plate startDate endDate).
  rewrite Hw', lookup_insert_eq. simpl.
  assert (startDate < endDate) as Hlt by (by destruct Hready as (_ & _ & _ & Hlt)).
  do 10 (split; [done|]).
  unfold totalPrice, durationInHours, hourly_price, JS.or.
  change ms_per_hour with 3600000.
  split; [|split].
  - intros l -> Ht. by rewrite Ht.
  - intros [->|(l & -> & Ht)]; [done|]. by rewrite Ht.
  - intros l ->.
    repeat split; intros -> ->; vm_compute; reflexivity.
Qed.

Lemma handleBooking_persists_pending_booking_witness :
  let r := handleBooking utcSlotDate getOverlappingBookings createBooking
                         (screen listing4 "12:00" "13:30") (world_A quiet) in
  exists b,
    fst r = Ok (PaymentModal "doc" (JS.of_Z 6))
    /\ bookings (snd r) !! "doc" = Some b
    /\ b_status b = BookingPending
    /\ start_time b = 12 * 3600000 /\ end_time b = 13 * 3600000 + 1800000
    /\ total_price b = JS.of_Z 6.
Proof.
  intros r.
  assert (r = (Ok (PaymentModal "doc" (JS.of_Z 6)), snd r)) as Hr.
  { transitivity (fst r, snd r); [apply surjective_pairing|].
    apply (f_equal (fun x => (x, snd r))). vm_compute. reflexivity. }
  destruct (handleBooking_persists_pending_booking
              utcSlotDate getOverlappingBookings
              (screen listing4 "12:00" "13:30") (world_A quiet) (snd r)
              "doc" (JS.of_Z 6) Hr)
    as (u & plate & startDate & endDate & b & Hready & Hb & Hst & Hs & He & _ & _ & _ & _
        & _ & _ & _ & Hsample).
  destruct Hready as (_ & _ & (day & slot & Hd & Hsl & Hsd & Hed) & _).
  injection Hd as <-. injection Hsl as <-.
  injection Hsd as <-. injection Hed as <-.
  destruct (Hsample listing4 eq_refl) as (_ & H4 & _).
  exists b. split; [by rewrite Hr|].
  split; [exact Hb|]. split; [exact Hst|]. split; [exact Hs|]. split; [exact He|].
  apply H4; reflexivity.
Defined.

(** The spec's price scenario run through the handler: two and a half hours
    at 10 per hour are stored, and handed to the payment sheet, as 25. *)
Example scenario_price_25 :
  let r := handleBooking utcSlotDate getOverlappingBookings createBooking
                         (screen listing10 "12:00" "14:30") (world_A quiet) in
  fst r = Ok (PaymentModal "doc" (JS.of_Z 25))
  /\ (total_price <$> bookings (snd r) !! "doc") = Some (JS.of_Z 25)
  /\ (b_status <$> bookings (snd r) !! "doc") = Some BookingPending.
Proof. vm_compute. repeat split; reflexivity. Qed.

(** ** Payments *)

(** C8. [createPaymentIntent] throws when nobody is signed in and, with the
    store answering, when the booking does not exist; in both cases no
    payment is recorded. Otherwise, with the store answering, it succeeds: it
    records one new payment for the booking, with the given amount and status
    [pending], and returns a handle whose id and client secret are put
    together from the clock and the random source; the recorded payment
    carries the handle's id. *)
Theorem createPaymentIntent_contract (bookingId : string) (amount_ : JS.number) (w : World) :
  (currentUser w = None ->
   createPaymentIntent bookingId amount_ w
   = (Throw (Error "User must be authenticated to create payment"), w))
  /\
  (forall uid_,
      currentUser w = Some uid_ -> available w -> bookings w !! bookingId = None ->
      exists w',
        createPaymentIntent bookingId amount_ w = (Throw (Error "Booking not found"), w')
        /\ payments w' = payments w)
  /\
  (forall uid_ b,
      currentUser w = Some uid_ -> available w -> bookings w !! bookingId = Some b ->
      exists intent paymentId w',
        createPaymentIntent bookingId amount_ w = (Ok intent, w')
        /\ pi_id intent
           = "pi_" +:+ pretty (clock (env w) (2 + ticks w)) +:+ "_" +:+ random (env w) (draws w)
        /\ client_secret intent
           = "pi_" +:+ pretty (clock (env w) (3 + ticks w)) +:+ "_secret_"
                   +:+ random (env w) (S (draws w))
        /\ payments w !! paymentId = None
        /\ payments w'
           = <[paymentId := {| booking_id := bookingId;
                               p_user_id := uid_;
                               p_host_id := b_host_id b;
                               amount := amount_;
                               currency := "usd";
                               p_status := PaymentPending;
                               payment_intent_id := Some (pi_id intent);
                               payment_method_id := None;
                               p_created_at := clock (env w) (ticks w);
                               p_updated_at := clock (env w) (1 + ticks w) |}]>
               (payments w)
        /\ bookings w' = bookings w).
Proof.
  split; [|split].
  - intros Hu. unfold createPaymentIntent, getCurrentUser. unfold_M. by rewrite Hu.
  - intros uid_ Hu Hav Hb. eexists.
    unfold createPaymentIntent, getCurrentUser, getDoc. unfold_M.
    rewrite Hu, remote_available by done. simpl. rewrite Hb. done.
  - intros uid_ b Hu Hav Hb. 
    unfold createPaymentIntent. run_available Hav.
    rewrite Hu. run_available Hav. rewrite Hb. run_available Hav.
    rewrite lookup_insert_eq. do 3 eexists. split; [reflexivity|]. simpl.
    split; [done|]. split; [done|]. split; [apply fresh_string_fresh|].
    split; [|done]. by rewrite insert_insert_eq.
Qed.

Lemma createPaymentIntent_contract_witness :
  createPaymentIntent "A" (JS.of_Z 10) world_signed_out
  = (Throw (Error "User must be authenticated to create payment"), world_signed_out)
  /\
  (exists w', createPaymentIntent "B" (JS.of_Z 10) (world_A quiet)
              = (Throw (Error "Booking not found"), w'))
  /\
  (exists intent w',
      createPaymentIntent "A" (JS.of_Z 10) (world_A quiet) = (Ok intent, w')
      /\ pi_id intent = "pi_1700000000002_k3x9q2m1z"
      /\ client_secret intent = "pi_1700000000003_secret_w7p4t8c5v").
Proof.
  split; [|split].
  - apply (proj1 (createPaymentIntent_contract "A" (JS.of_Z 10) world_signed_out)).
    reflexivity.
  - destruct (proj1 (proj2 (createPaymentIntent_contract "B" (JS.of_Z 10) (world_A quiet)))
                    "driver1") as (w' & Hr & _).
    + reflexivity.
    + intros n. reflexivity.
    + vm_compute. reflexivity.
    + exists w'. exact Hr.
  - destruct (proj2 (proj2 (createPaymentIntent_contract "A" (JS.of_Z 10) (world_A quiet)))
                    "driver1" bookingA) as (intent & pid & w' & Hr & Hid & Hsec & _).
    + reflexivity.
    + intros n. reflexivity.
    + vm_compute. reflexivity.
    + exists intent, w'. split; [exact Hr|]. rewrite Hid, Hsec.
      split; vm_compute; reflexivity.
Defined.

Lemma first_match_stored {D} (m : gmap string D) (f : string * D -> bool) id d rest :
  List.filter f (map_to_list m) = (id, d) :: rest -> m !! id = Some d.
Proof.
  intros Hf. apply elem_of_map_to_list, list_elem_of_In.
  apply (proj1 (filter_In f (id, d) (map_to_list m))).
  rewrite Hf. by left.
Qed.

Lemma confirmPayment_ok (paymentIntentId paymentMethodId : string) (w : World)
      uid_ paymentId p rest b :
  currentUser w = Some uid_ -> available w ->
  List.filter (payment_matches paymentIntentId uid_) (map_to_list (payments w))
  = (paymentId, p) :: rest ->
  bookings w !! booking_id p = Some b ->
  let p' := updatedPaymentData p paymentMethodId (clock (env w) (ticks w)) in
  let b' := confirm_booking paymentId (clock (env w) (S (ticks w))) b in
  exists w',
    confirmPayment paymentIntentId paymentMethodId w = (Ok (paymentId, p'), w')
    /\ payments w' = <[paymentId := p']> (payments w)
    /\ bookings w' = <[booking_id p := b']> (bookings w).
Proof.
  intros Hu Hav Hq Hb p' b'.
  pose proof (first_match_stored _ _ _ _ _ Hq) as Hp.
  unfold confirmPayment. run_available Hav. rewrite Hu. run_available Hav.
  rewrite Hq. run_available Hav. rewrite Hp. run_available Hav. rewrite Hb.
  eexists. split; [reflexivity|]. done.
Qed.

(** C4. When the provider's sheet reports no error, [handlePayment] invokes
    [confirmPayment] for the handle it holds. Let the user be signed in and
    the store answer, let some payment of the store carry the handle's id
    and the user's uid, and let the parent booking of every such payment
    exist. Then the call succeeds and changes one payment and one booking.
    The payment is one that carried the handle's id and the user's uid (the
    only such payment, when there is just one): it keeps its booking, payer,
    host, amount and handle and ends with status [completed] and the payment
    method recorded; every other payment is as it was. The booking is that
    payment's parent: it keeps its listing, user, interval and price and
    ends with status [confirmed], linked to the payment; every other booking
    is as it was. *)
Theorem confirmPayment_completes_and_confirms
        (sheet : PaymentSheet) (intent : PaymentIntent) (w : World) (uid_ : string) :
  paymentIntent sheet = Some intent ->
  currentUser w = Some uid_ ->
  available w ->
  (exists id0 p0,
      payments w !! id0 = Some p0
      /\ payment_intent_id p0 = Some (pi_id intent) /\ p_user_id p0 = uid_) ->
  (forall id0 p0,
      payments w !! id0 = Some p0 ->
      payment_intent_id p0 = Some (pi_id intent) -> p_user_id p0 = uid_ ->
      is_Some (bookings w !! booking_id p0)) ->
  exists w' paymentId p p' b b',
    payments w !! paymentId = Some p
    /\ payment_intent_id p = Some (pi_id intent) /\ p_user_id p = uid_
    /\ (forall id0 p0,
           payments w !! id0 = Some p0 ->
           payment_intent_id p0 = Some (pi_id intent) -> p_user_id p0 = uid_ ->
           (forall id1 p1,
               payments w !! id1 = Some p1 ->
               payment_intent_id p1 = Some (pi_id intent) -> p_user_id p1 = uid_ ->
               id1 = id0) ->
           paymentId = id0)
    /\ bookings w !! booking_id p = Some b
    /\ confirmPayment (pi_id intent) "stripe_payment_method" w = (Ok (paymentId, p'), w')
    /\ handlePayment None None sheet w
       = (Ok (mkSheet (Some intent) StepSuccess false, [OnSuccess; OnClose]), w')
    /\ payments w' = <[paymentId := p']> (payments w)
    /\ p_status p' = PaymentCompleted
    /\ payment_method_id p' = Some "stripe_payment_method"
    /\ payment_intent_id p' = Some (pi_id intent)
    /\ p_user_id p' = uid_
    /\ (booking_id p', p_host_id p', amount p', currency p', p_created_at p')
       = (booking_id p, p_host_id p, amount p, currency p, p_created_at p)
    /\ bookings w' = <[booking_id p := b']> (bookings w)
    /\ b_status b' = BookingConfirmed
    /\ payment_id b' = Some paymentId
    /\ (listing_id b', b_user_id b', b_host_id b', start_time b', end_time b', total_price b',
        license_plate b', license_plate_state b')
       = (listing_id b, b_user_id b, b_host_id b, start_time b, end_time b, total_price b,
          license_plate b, license_plate_state b).
Proof.
  intros Hs Hu Hav (id0 & p0 & Hp0 & Hi0 & Hu0) Hparent.
  destruct (List.filter (payment_matches (pi_id intent) uid_) (map_to_list (payments w)))
    as [|[paymentId p] rest] eqn:Hq.
  { exfalso.
    assert (In (id0, p0) (List.filter (payment_matches (pi_id intent) uid_)
                                      (map_to_list (payments w)))) as Hin.
    { apply filter_In. split.
      - by apply list_elem_of_In, elem_of_map_to_list.
      - unfold payment_matches. simpl.
        by rewrite !bool_decide_eq_true_2. }
    by rewrite Hq in Hin. }
  pose proof (first_match_stored _ _ _ _ _ Hq) as Hp.
  assert (payment_intent_id p = Some (pi_id intent) /\ p_user_id p = uid_) as [Hpi Hpu].
  { assert (In (paymentId, p) (List.filter (payment_matches (pi_id intent) uid_)
                                           (map_to_list (payments w)))) as Hin
        by (rewrite Hq; by left).
    apply filter_In in Hin as [_ Hm]. unfold payment_matches in Hm. simpl in Hm.
    apply andb_true_iff in Hm as [H1 H2].
    split; [by apply bool_decide_eq_true in H1|by apply bool_decide_eq_true in H2]. }
  destruct (Hparent paymentId p Hp Hpi Hpu) as [b Hb].
  destruct (confirmPayment_ok (pi_id intent) "stripe_payment_method" w
                              uid_ paymentId p rest b Hu Hav Hq Hb)
    as (w' & Hc & Hp' & Hb').
  eexists w', paymentId, p, _, b, _.
  split; [exact Hp|]. split; [exact Hpi|]. split; [exact Hpu|].
  split. { intros id1 p1 _ _ _ Hone. by apply (Hone paymentId p). }
  split; [exact Hb|]. split; [exact Hc|].
  split. { unfold handlePayment. rewrite Hs. unfold_M. by rewrite Hc. }
  split; [exact Hp'|]. simpl.
  split; [done|]. split; [done|]. split; [exact Hpi|]. split; [exact Hpu|].
  split; [done|]. split; [exact Hb'|]. done.
Qed.

Lemma confirmPayment_completes_and_confirms_witness :
  exists w' p' b',
    handlePayment None None (mkSheet (Some intentB) StepInitial false) world_B_paying
    = (Ok (mkSheet (Some intentB) StepSuccess false, [OnSuccess; OnClose]), w')
    /\ (fst <$> map_to_list (payments world_B_paying)) = ["payM"; "payA"; "payB"]
    /\ payments w' !! "payB" = Some p'
    /\ p_status p' = PaymentCompleted
    /\ payment_intent_id p' = Some "pi_5_w7p4t8c5v"
    /\ p_user_id p' = "driver1"
    /\ payments w' !! "payA" = Some paymentA
    /\ payments w' !! "payM" = Some paymentM
    /\ bookings w' !! "B" = Some b'
    /\ b_status b' = BookingConfirmed
    /\ payment_id b' = Some "payB"
    /\ bookings w' !! "A" = Some bookingA.
Proof.
  assert (forall id0 p0,
             payments world_B_paying !! id0 = Some p0 ->
             payment_intent_id p0 = Some (pi_id intentB) -> p_user_id p0 = "driver1" ->
             id0 = "payB") as Honly.
  { intros id0 p0 H0 Hi Hu. unfold world_B_paying in H0. simpl in H0.
    apply lookup_insert_Some in H0 as [[<- <-]|[_ H0]]; [discriminate Hu|].
    apply lookup_insert_Some in H0 as [[<- <-]|[_ H0]]; [reflexivity|].
    apply lookup_singleton_Some in H0 as [<- <-]. discriminate Hi. }
  assert (payments world_B_paying !! "payB" = Some paymentB4) as HB
      by (vm_compute; reflexivity).
  destruct (confirmPayment_completes_and_confirms
              (mkSheet (Some intentB) StepInitial false) intentB world_B_paying "driver1")
    as (w' & paymentId & p & p' & b & b' & Hp & Hpi & Hpu & Hone & Hb & _ & Hh & Hps
        & Hst & _ & Hi' & Hu' & _ & Hbs & Hbst & Hbp & _).
  - reflexivity.
  - reflexivity.
  - intros n. reflexivity.
  - exists "payB", paymentB4. repeat split; vm_compute; reflexivity.
  - intros id0 p0 H0 Hi Hu. rewrite (Honly id0 p0 H0 Hi Hu) in H0.
    rewrite HB in H0. injection H0 as <-.
    exists bookingB. vm_compute. reflexivity.
  - assert (paymentId = "payB") as -> by exact (Honly paymentId p Hp Hpi Hpu).
    rewrite HB in Hp. injection Hp as <-.
    exists w', p', b'.
    split; [exact Hh|]. split; [vm_compute; reflexivity|].
    rewrite Hps, Hbs.
    split; [by rewrite lookup_insert_eq|].
    split; [exact Hst|]. split; [exact Hi'|]. split; [exact Hu'|].
    split; [rewrite lookup_insert_ne by done; vm_compute; reflexivity|].
    split; [rewrite lookup_insert_ne by done; vm_compute; reflexivity|].
    split; [by rewrite lookup_insert_eq|].
    split; [exact Hbst|]. split; [exact Hbp|].
    change (booking_id paymentB4) with "B".
    rewrite lookup_insert_ne by done. vm_compute. reflexivity.
Defined.

(** ** License-plate verification *)

(** The two functions that call [getDocs] end at that call, in every world:
    the update throws without a read or a write, the read answers [null]. *)
Lemma updateLicensePlateVerification_throws
      bookingId status verifiedBy method notes (w : World) :
  updateLicensePlateVerification bookingId status verifiedBy method notes w
  = (Throw (ReferenceError "getDocs"), w).
Proof. reflexivity. Qed.

Lemma getLicensePlateVerification_null bookingId (w : World) :
  getLicensePlateVerification bookingId w = (Ok None, w).
Proof. reflexivity. Qed.

(** C5. As the code stands, the automatic check never reports a full match
    and never writes a status. For an existing booking whose read the store
    answers, with the normalised stored and provided plate and state
    compared: equal plates with different states give, as claimed, a failure
    with confidence 0.5 and no status written; but equal plates and states,
    and different plates alike, give the failure 'Error during verification
    process' without any confidence, and every verification record stays as
    it was. Both cases start with the status update, which throws: it calls
    [getDocs], which the module does not import. *)
Theorem verifyLicensePlateForBooking_update_fails
        (bookingId providedLicensePlate providedState : string) (w : World) (b : Booking) :
  faults (env w) (calls w) = false ->
  bookings w !! bookingId = Some b ->
  let plate_match :=
    cleanPlate <$> license_plate b = Some (cleanPlate providedLicensePlate) in
  let state_match :=
    JS.toUpperCase <$> license_plate_state b = Some (JS.toUpperCase providedState) in
  let r := verifyLicensePlateForBooking bookingId providedLicensePlate providedState w in
  let failure := mkResult false "Error during verification process" None None in
  verifications (snd r) = verifications w
  /\ (plate_match -> state_match -> fst r = Ok failure)
  /\ (plate_match -> ~ state_match ->
      fst r = Ok (mkResult false "License plate matches but state is different"
                           (Some (JS.of_scaled 1 (-1)))
                           (Some (mkDetails
                                    (cleanPlate <$> license_plate b,
                                     JS.toUpperCase <$> license_plate_state b)
                                    (cleanPlate providedLicensePlate,
                                     JS.toUpperCase providedState)))))
  /\ (~ plate_match -> fst r = Ok failure).
Proof.
  intros Hf Hb plate_match state_match r failure. subst r failure.
  unfold verifyLicensePlateForBooking, getDoc, remote. unfold_M. rewrite Hf. simpl.
  rewrite Hb. fold plate_match state_match.
  destruct (decide plate_match) as [Hp|Hp]; destruct (decide state_match) as [Hs|Hs];
    rewrite ?(bool_decide_true _ Hp), ?(bool_decide_false _ Hp),
      ?(bool_decide_true _ Hs), ?(bool_decide_false _ Hs); simpl;
    rewrite ?updateLicensePlateVerification_throws; simpl; repeat split; done.
Qed.

Lemma verifyLicensePlateForBooking_update_fails_witness :
  let run plate state_ := verifyLicensePlateForBooking "A" plate state_ world_A_verifying in
  let failure := mkResult false "Error during verification process" None None in
  fst (run "ABC 123" "CA") = Ok failure
  /\ verifications (snd (run "ABC 123" "CA")) !! "verA" = Some verificationA
  /\ (exists res, fst (run "abc123" "NY") = Ok res
                  /\ confidence res = Some (JS.of_scaled 1 (-1)))
  /\ fst (run "XYZ999" "CA") = Ok failure.
Proof.
  intros run failure.
  assert (bookings world_A_verifying !! "A" = Some bookingA) as Hb
      by (vm_compute; reflexivity).
  destruct (verifyLicensePlateForBooking_update_fails
              "A" "ABC 123" "CA" world_A_verifying bookingA eq_refl Hb)
    as (Hsame & Hfull & _ & _).
  destruct (verifyLicensePlateForBooking_update_fails
              "A" "abc123" "NY" world_A_verifying bookingA eq_refl Hb)
    as (_ & _ & Hpart & _).
  destruct (verifyLicensePlateForBooking_update_fails
              "A" "XYZ999" "CA" world_A_verifying bookingA eq_refl Hb)
    as (_ & _ & _ & Hno).
  split; [|split; [|split]].
  - apply Hfull; vm_compute; reflexivity.
  - subst run. cbv beta. rewrite Hsame. vm_compute. reflexivity.
  - eexists. split.
    + apply Hpart; [vm_compute; reflexivity|vm_compute; discriminate].
    + reflexivity.
  - apply Hno. vm_compute. discriminate.
Defined.

(** The three scenarios of the specification, by evaluation: the record of
    booking A stays [pending] in all of them. *)
Example scenario_verification_statuses :
  let run plate state_ := verifyLicensePlateForBooking "A" plate state_ world_A_verifying in
  let message_of plate state_ :=
    match fst (run plate state_) with
    | Ok res => Some (message res)
    | Throw _ => None
    end in
  let status_after plate state_ :=
    verification_status <$> verifications (snd (run plate state_)) !! "verA" in
  (message_of "ABC 123" "CA", status_after "ABC 123" "CA")
  = (Some "Error during verification process", Some Pending)
  /\ (message_of "ABC123" "NY", status_after "ABC123" "NY")
     = (Some "License plate matches but state is different", Some Pending)
  /\ (message_of "XYZ999" "CA", status_after "XYZ999" "CA")
     = (Some "Error during verification process", Some Pending).
Proof. vm_compute. repeat split; reflexivity. Qed.

(** C10. As the code stands, manual verification sets nothing. Whatever the
    booking, the decision, the host and the notes, and whatever the store
    holds, [manualLicensePlateVerification] throws the [ReferenceError] of
    the unbound [getDocs] and leaves the world as it was: no record ends
    [verified] or [failed], none gets [verified_by = host]. For the pending
    record of booking A, approving it leaves the record as it was. (The
    outcome is the same for every [hostId], since nothing happens.) *)
Theorem manualLicensePlateVerification_always_rejects :
  (forall bookingId isVerified hostId notes (w : World),
      manualLicensePlateVerification bookingId isVerified hostId notes w
      = (Throw (ReferenceError "getDocs"), w))
  /\
  (let r := manualLicensePlateVerification "A" true "host1" (Some "seen at the gate")
                                           world_A_verifying in
   fst r = Throw (ReferenceError "getDocs")
   /\ verifications (snd r) !! "verA" = Some verificationA
   /\ verification_status verificationA = Pending
   /\ verified_by verificationA = BySystem).
Proof.
  split.
  - intros. unfold manualLicensePlateVerification.
    apply updateLicensePlateVerification_throws.
  - vm_compute. repeat split; reflexivity.
Qed.

(** ** The license-plate list *)

Section PlateLists.

Implicit Types (l : list LicensePlate) (plateId : string).

Lemma defaults_app l1 l2 : defaults (l1 ++ l2) = (defaults l1 + defaults l2)%nat.
Proof. unfold defaults. by rewrite List.filter_app, length_app. Qed.

Lemma defaults_cons p l :
  defaults (p :: l) = ((if isDefault p then 1 else 0) + defaults l)%nat.
Proof. unfold defaults. simpl. by destruct (isDefault p). Qed.

Lemma one_default_add l id_ cleaned state_ created :
  one_default l -> one_default (add_updatedPlates l id_ cleaned state_ created).
Proof.
  intros Hl _. unfold add_updatedPlates. rewrite defaults_app, defaults_cons. simpl.
  destruct l as [|p l]; [done|].
  rewrite Hl by done. rewrite bool_decide_false by done. done.
Qed.

(** A plate id that is not in the list: nothing is found, nothing removed. *)
Lemma unlisted_plate plateId l :
  plateId ∉ lp_id <$> l ->
  List.find (fun plate => bool_decide (lp_id plate = plateId)) l = None
  /\ without_plate plateId l = l
  /\ defaults (setDefault_updatedPlates plateId l) = 0%nat.
Proof.
  induction l as [|p l IH]; [done|]. rewrite fmap_cons, not_elem_of_cons.
  intros [Hne Hl]. destruct (IH Hl) as (Hf & Hw & Hd).
  unfold without_plate, setDefault_updatedPlates in *. simpl.
  rewrite defaults_cons. simpl.
  rewrite (bool_decide_false (lp_id p = plateId)) by done. simpl.
  by rewrite Hf, Hw, Hd.
Qed.

(** With distinct ids, removing by id takes out exactly the plate found. *)
Lemma defaults_without plateId l :
  NoDup (lp_id <$> l) ->
  defaults l
  = (defaults (without_plate plateId l)
     + match List.find (fun plate => bool_decide (lp_id plate = plateId)) l with
       | Some removedPlate => if isDefault removedPlate then 1 else 0
       | None => 0
       end)%nat.
Proof.
  induction l as [|p l IH]; [done|]. rewrite fmap_cons, NoDup_cons. intros [Hp Hl].
  unfold without_plate in *. simpl. case_bool_decide as Hid; simpl.
  - subst plateId. destruct (unlisted_plate _ _ Hp) as (_ & Hw & _).
    unfold without_plate in Hw. rewrite Hw, defaults_cons. lia.
  - rewrite !defaults_cons, (IH Hl). lia.
Qed.

Lemma find_plate_listed plateId l removedPlate :
  List.find (fun plate => bool_decide (lp_id plate = plateId)) l = Some removedPlate ->
  l <> [].
Proof. by destruct l. Qed.

Lemma without_plate_nonempty plateId l : without_plate plateId l <> [] -> l <> [].
Proof. by destruct l. Qed.

Lemma one_default_remove plateId l :
  NoDup (lp_id <$> l) -> one_default l -> one_default (remove_updatedPlates plateId l).
Proof.
  intros Hnd Hl. pose proof (defaults_without plateId l Hnd) as Hd.
  unfold remove_updatedPlates, promotes, one_default in *.
  destruct (List.find _ l) as [removedPlate|] eqn:Hf.
  - pose proof (find_plate_listed _ _ _ Hf) as Hne. rewrite (Hl Hne) in Hd.
    destruct (isDefault removedPlate); simpl.
    + case_bool_decide as Hlen.
      * destruct (without_plate plateId l) as [|q rest]; [simpl in Hlen; lia|].
        intros _. simpl. rewrite defaults_cons in *. simpl.
        destruct (isDefault q); lia.
      * intros Hw. destruct (without_plate plateId l); [done|simpl in Hlen; lia].
    + intros _. lia.
  - intros Hw. rewrite <- Hl; [lia|]. by eapply without_plate_nonempty.
Qed.

Lemma one_default_setDefault plateId l :
  NoDup (lp_id <$> l) -> plateId ∈ lp_id <$> l ->
  defaults (setDefault_updatedPlates plateId l) = 1%nat.
Proof.
  induction l as [|p l IH]; [by intros _ ?%elem_of_nil|].
  rewrite fmap_cons, NoDup_cons, elem_of_cons. intros [Hp Hl] Hin.
  unfold setDefault_updatedPlates in *. simpl. rewrite defaults_cons. simpl.
  case_bool_decide as Hid.
  - subst plateId. destruct (unlisted_plate _ _ Hp) as (_ & _ & Hd).
    unfold setDefault_updatedPlates in Hd. by rewrite Hd.
  - destruct Hin as [Heq|Hin]; [congruence|]. by rewrite IH.
Qed.

(** Removing the default plate while others remain promotes the first of
    the remaining plates, and no other. *)
Lemma remove_default_promotes_first plateId l removedPlate first rest :
  NoDup (lp_id <$> l) -> one_default l ->
  List.find (fun plate => bool_decide (lp_id plate = plateId)) l = Some removedPlate ->
  isDefault removedPlate = true ->
  without_plate plateId l = first :: rest ->
  remove_updatedPlates plateId l = set_isDefault true first :: rest
  /\ isDefault first = false
  /\ defaults rest = 0%nat.
Proof.
  intros Hnd Hl Hf Hdef Hw. pose proof (defaults_without plateId l Hnd) as Hd.
  rewrite Hf, Hdef, Hw, (Hl (find_plate_listed _ _ _ Hf)), defaults_cons in Hd.
  unfold remove_updatedPlates, promotes. rewrite Hf, Hdef, Hw. simpl.
  destruct (isDefault first); [lia|]. split; [done|]. split; [done|lia].
Qed.

(** The ids stay pairwise distinct: removal and set-default keep them, and
    an added plate keeps them when its id (a reading of the clock) is new. *)
Lemma promote_first_ids l : lp_id <$> promote_first l = lp_id <$> l.
Proof. by destruct l. Qed.

Lemma without_plate_ids plateId l :
  NoDup (lp_id <$> l) -> NoDup (lp_id <$> without_plate plateId l).
Proof.
  induction l as [|p l IH]; [done|]. rewrite fmap_cons, NoDup_cons. intros [Hp Hl].
  unfold without_plate in *. simpl. destruct (negb _); [|by apply IH].
  rewrite fmap_cons, NoDup_cons. split; [|by apply IH].
  intros Hin. apply Hp. apply list_elem_of_fmap in Hin as (q & Hq & Hin).
  apply list_elem_of_fmap. exists q. split; [done|].
  apply list_elem_of_In. apply list_elem_of_In in Hin.
  by apply (proj1 (filter_In _ q l)) in Hin as [Hin _].
Qed.

Lemma plate_ids_stay_distinct l :
  NoDup (lp_id <$> l) ->
  (forall plateId, NoDup (lp_id <$> remove_updatedPlates plateId l))
  /\ (forall plateId, NoDup (lp_id <$> setDefault_updatedPlates plateId l))
  /\ (forall id_ cleaned state_ created,
         id_ ∉ lp_id <$> l ->
         NoDup (lp_id <$> add_updatedPlates l id_ cleaned state_ created)).
Proof.
  intros Hnd. split; [|split].
  - intros plateId. unfold remove_updatedPlates.
    destruct (promotes plateId l); [rewrite promote_first_ids|]; by apply without_plate_ids.
  - intros plateId. unfold setDefault_updatedPlates.
    by rewrite <- list_fmap_compose.
  - intros id_ cleaned state_ created Hnew. unfold add_updatedPlates.
    rewrite fmap_app. apply NoDup_app. split; [done|]. split; [|apply NoDup_singleton].
    intros x Hx ->%list_elem_of_singleton. done.
Qed.

(** With distinct ids a listed plate is the one found by its id. *)
Lemma find_listed_plate l p :
  NoDup (lp_id <$> l) -> p ∈ l ->
  List.find (fun plate => bool_decide (lp_id plate = lp_id p)) l = Some p.
Proof.
  induction l as [|q l IH]; [by intros _ ?%elem_of_nil|].
  rewrite fmap_cons, NoDup_cons, elem_of_cons. intros [Hq Hl] Hin. simpl.
  case_bool_decide as Hid.
  - destruct Hin as [->|Hin]; [done|]. exfalso. apply Hq.
    rewrite Hid. apply list_elem_of_fmap. by exists p.
  - destruct Hin as [->|Hin]; [done|]. by apply IH.
Qed.

Lemma without_plate_keeps plateId l q :
  q ∈ l -> lp_id q <> plateId -> q ∈ without_plate plateId l.
Proof.
  intros Hin Hne. apply list_elem_of_In, filter_In. split; [by apply list_elem_of_In|].
  by rewrite bool_decide_false.
Qed.

(** In a list with one default, the default plate is the only one flagged. *)
Lemma one_default_unique l p q :
  defaults l = 1%nat -> p ∈ l -> isDefault p = true -> q ∈ l -> isDefault q = true -> q = p.
Proof.
  unfold defaults. intros Hd Hp Hpd Hq Hqd.
  assert (In p (List.filter isDefault l)) as Hp'
      by (apply filter_In; split; [by apply list_elem_of_In|done]).
  assert (In q (List.filter isDefault l)) as Hq'
      by (apply filter_In; split; [by apply list_elem_of_In|done]).
  destruct (List.filter isDefault l) as [|x [|y k]]; [done| |done].
  destruct Hp' as [<-|[]]. by destruct Hq' as [<-|[]].
Qed.

(** The assignment to the first kept plate adds a default when the kept
    plates carried none, and changes no id. *)
Lemma promote_first_kept_defaults plateId l :
  (forall q, q ∈ l -> lp_id q <> plateId -> isDefault q = false) ->
  (exists q, q ∈ l /\ lp_id q <> plateId) ->
  defaults (promote_first_kept plateId l) = S (defaults l).
Proof.
  induction l as [|p l IH]; [by intros _ (q & ?%elem_of_nil & _)|].
  intros Hnone (q & Hq & Hne). simpl. case_bool_decide as Hid.
  - rewrite !defaults_cons, IH; [lia| |].
    + intros q' Hq'. apply Hnone. by right.
    + exists q. split; [|done]. apply elem_of_cons in Hq as [->|Hq]; [done|done].
  - rewrite !defaults_cons. simpl. rewrite (Hnone p); [lia|by left|done].
Qed.

Lemma promote_first_kept_identity plateId l :
  plate_identity <$> promote_first_kept plateId l = plate_identity <$> l.
Proof.
  induction l as [|p l IH]; [done|]. simpl.
  case_bool_decide; [by rewrite !fmap_cons, IH|done].
Qed.

End PlateLists.

(** ** The license-plate operations *)

Lemma write_licensePlates_ok uid_ (l : list LicensePlate) (w w' : World) :
  write_licensePlates uid_ l w = (Ok tt, w') -> stored_plates uid_ w' = l.
Proof.
  unfold write_licensePlates, updateDoc, dateNow, remote. unfold_M. simpl.
  destruct (faults (env w) (calls w)); [done|].
  destruct (users w !! uid_); [|done].
  intros [= <-]. unfold stored_plates. simpl. by rewrite lookup_insert_eq.
Qed.

(** The shared tail of the three operations: write, then report. *)
Lemma write_then_report_success uid_ (l : list LicensePlate)
      (s1 s2 st' : PlateManager) (m1 m2 msg : string) (w w' : World) :
  try_catch (write_licensePlates uid_ l;; mret (s1, Some ("Success", m1)))
            (fun _ => mret (s2, Some ("Error", m2))) w
  = (Ok (st', Some ("Success", msg)), w') ->
  st' = s1 /\ stored_plates uid_ w' = l.
Proof.
  unfold_M. destruct (write_licensePlates uid_ l w) as [[[]|e] w1] eqn:Hw; [|done].
  intros [= <- _ <-]. split; [done|]. by eapply write_licensePlates_ok.
Qed.

Lemma addLicensePlate_success st (w w' : World) st' msg :
  addLicensePlate st w = (Ok (st', Some ("Success", msg)), w') ->
  exists uid_ id_ created,
    signed_in_uid (m_user st) = Some uid_
    /\ m_licensePlates st'
       = add_updatedPlates (m_licensePlates st) id_ (cleanPlate_manager (m_plateNumber st))
                           (m_selectedState st) created
    /\ stored_plates uid_ w' = m_licensePlates st'.
Proof.
  unfold addLicensePlate.
  destruct (signed_in_uid (m_user st)) as [uid_|]; [|done].
  destruct (negb (validatePlateNumber _)); [done|].
  destruct (existsb _ _); [done|].
  unfold dateNow. unfold_M. 
  destruct (write_licensePlates uid_ _ _) as [[[]|e] w1] eqn:Hw; [|done].
  intros [= <- _ <-]. do 3 eexists. split; [done|]. split; [done|].
  by eapply write_licensePlates_ok.
Qed.

Lemma removeLicensePlate_success plateId confirmed st (w w' : World) st' msg :
  removeLicensePlate plateId confirmed st w = (Ok (st', Some ("Success", msg)), w') ->
  exists uid_,
    signed_in_uid (m_user st) = Some uid_
    /\ m_licensePlates st' = remove_updatedPlates plateId (m_licensePlates st)
    /\ stored_plates uid_ w' = m_licensePlates st'.
Proof.
  unfold removeLicensePlate.
  destruct (signed_in_uid (m_user st)) as [uid_|]; [|done].
  destruct confirmed; [|done]. simpl.
  intros [-> Hs]%write_then_report_success. by exists uid_.
Qed.

Lemma setDefaultPlate_success plateId st (w w' : World) st' msg :
  setDefaultPlate plateId st w = (Ok (st', Some ("Success", msg)), w') ->
  exists uid_,
    signed_in_uid (m_user st) = Some uid_
    /\ m_licensePlates st' = setDefault_updatedPlates plateId (m_licensePlates st)
    /\ stored_plates uid_ w' = m_licensePlates st'.
Proof.
  unfold setDefaultPlate.
  destruct (signed_in_uid (m_user st)) as [uid_|]; [|done].
  intros [-> Hs]%write_then_report_success. by exists uid_.
Qed.

(** What the three operations do when they report success: the list then
    held is the list written to the user's document, and, for a list with
    distinct ids and one default, it again has one default (for set-default,
    when the plate is in the list). *)
Lemma successful_plate_operations_keep_one_default
      (st st' : PlateManager) (w w' : World) (msg : string) :
  NoDup (lp_id <$> m_licensePlates st) ->
  one_default (m_licensePlates st) ->
  (addLicensePlate st w = (Ok (st', Some ("Success", msg)), w') ->
   exists uid_, signed_in_uid (m_user st) = Some uid_
                /\ one_default (m_licensePlates st')
                /\ stored_plates uid_ w' = m_licensePlates st')
  /\
  (forall plateId confirmed,
      removeLicensePlate plateId confirmed st w = (Ok (st', Some ("Success", msg)), w') ->
      exists uid_, signed_in_uid (m_user st) = Some uid_
                   /\ one_default (m_licensePlates st')
                   /\ stored_plates uid_ w' = m_licensePlates st')
  /\
  (forall plateId,
      plateId ∈ lp_id <$> m_licensePlates st ->
      setDefaultPlate plateId st w = (Ok (st', Some ("Success", msg)), w') ->
      exists uid_, signed_in_uid (m_user st) = Some uid_
                   /\ one_default (m_licensePlates st')
                   /\ stored_plates uid_ w' = m_licensePlates st').
Proof.
  intros Hnd Hone. split; [|split].
  - intros (uid_ & id_ & created & Hu & Hl & Hs)%addLicensePlate_success.
    exists uid_. rewrite Hl in *. split; [done|]. split; [|done].
    by apply one_default_add.
  - intros plateId confirmed (uid_ & Hu & Hl & Hs)%removeLicensePlate_success.
    exists uid_. rewrite Hl in *. split; [done|]. split; [|done].
    by apply one_default_remove.
  - intros plateId Hin (uid_ & Hu & Hl & Hs)%setDefaultPlate_success.
    exists uid_. rewrite Hl in *. split; [done|]. split; [|done].
    intros _. by apply one_default_setDefault.
Qed.

(** C7. The removal of the default plate breaks the invariant when its
    write is rejected. Let the component hold the user's stored list, with
    distinct ids and exactly one default plate, and let the user confirm the
    removal of the default plate while another plate is in the list. When
    the store answers, the removal is as claimed: the list written and then
    held lacks the plate and has exactly one default, the first of the
    remaining plates. When the store rejects the write, the stored list is
    untouched and the user is told that the removal failed, but the list the
    component goes on with still has every plate, the one that was to be
    removed included, and has two defaults: the promotion was made on the
    plate shared with the held list before the write. Whatever plate is
    added next with success, the list then written to the user's document
    has two defaults. *)
Theorem removeLicensePlate_rejected_write_leaves_two_defaults
        (st : PlateManager) (w : World) (uid_ : string)
        (removedPlate other : LicensePlate) :
  signed_in_uid (m_user st) = Some uid_ ->
  stored_plates uid_ w = m_licensePlates st ->
  NoDup (lp_id <$> m_licensePlates st) ->
  one_default (m_licensePlates st) ->
  removedPlate ∈ m_licensePlates st ->
  isDefault removedPlate = true ->
  other ∈ m_licensePlates st ->
  lp_id other <> lp_id removedPlate ->
  exists st' alert w',
    removeLicensePlate (lp_id removedPlate) true st w = (Ok (st', Some alert), w')
    /\ m_user st' = m_user st
    /\ (faults (env w) (calls w) = false ->
        alert = ("Success", "License plate removed successfully")
        /\ stored_plates uid_ w' = m_licensePlates st'
        /\ (lp_id removedPlate ∉ lp_id <$> m_licensePlates st')
        /\ defaults (m_licensePlates st') = 1%nat
        /\ (isDefault <$> head (m_licensePlates st')) = Some true)
    /\ (faults (env w) (calls w) = true ->
        alert = ("Error", "Failed to remove license plate")
        /\ stored_plates uid_ w' = stored_plates uid_ w
        /\ plate_identity <$> m_licensePlates st' = plate_identity <$> m_licensePlates st
        /\ removedPlate ∈ m_licensePlates st'
        /\ defaults (m_licensePlates st') = 2%nat
        /\ ~ one_default (m_licensePlates st')
        /\ forall (st1 st2 : PlateManager) (w1 w2 : World) (msg : string),
            m_user st1 = m_user st' ->
            m_licensePlates st1 = m_licensePlates st' ->
            addLicensePlate st1 w1 = (Ok (st2, Some ("Success", msg)), w2) ->
            stored_plates uid_ w2 = m_licensePlates st2
            /\ length (stored_plates uid_ w2) = S (length (m_licensePlates st))
            /\ defaults (stored_plates uid_ w2) = 2%nat).
Proof.
  intros Hu Hstored Hnd Hone Hin Hdef Hoin Hone_other.
  set (l := m_licensePlates st) in *. set (plateId := lp_id removedPlate) in *.
  assert (l <> []) as Hne by (intros E; rewrite E in Hin; by apply elem_of_nil in Hin).
  pose proof (Hone Hne) as Hd.
  pose proof (find_listed_plate l removedPlate Hnd Hin) as Hf. fold plateId in Hf.
  pose proof (without_plate_keeps plateId l other Hoin Hone_other) as Hkept.
  destruct (without_plate plateId l) as [|first rest] eqn:Hw;
    [by apply elem_of_nil in Hkept|].
  destruct (remove_default_promotes_first plateId l removedPlate first rest
                                          Hnd Hone Hf Hdef Hw) as (Hupd & Hfirst & Hrest).
  assert (promotes plateId l = true) as Hprom
      by (unfold promotes; rewrite Hf, Hdef, Hw; done).
  assert (exists d, users w !! uid_ = Some d) as [d Hdoc].
  { unfold stored_plates in Hstored. destruct (users w !! uid_) as [d|]; [by exists d|].
    by destruct Hne. }
  unfold removeLicensePlate. rewrite Hu. simpl. fold l.
  unfold write_licensePlates, dateNow, updateDoc, remote. unfold_M. simpl.
  destruct (faults (env w) (calls w)) eqn:Hfault.
  - (* the write is rejected *)
    eexists _, _, _. split; [reflexivity|]. split; [done|]. split; [done|].
    intros _. simpl. unfold remove_aliased. rewrite Hprom.
    assert (defaults (promote_first_kept plateId l) = 2%nat) as Htwo.
    { rewrite promote_first_kept_defaults; [by rewrite Hd| |by exists other].
      intros q Hq Hqne. destruct (isDefault q) eqn:Hqd; [|done].
      subst plateId. by rewrite (one_default_unique l removedPlate q Hd Hin Hdef Hq Hqd) in Hqne. }
    assert (removedPlate ∈ promote_first_kept plateId l) as Hstill.
    { clear -Hin. subst plateId. induction l as [|p l IH]; [done|]. simpl.
      apply elem_of_cons in Hin as [<-|Hin].
      - rewrite bool_decide_true by done. by left.
      - case_bool_decide; right; [by apply IH|done]. }
    split; [done|]. split; [done|].
    split; [apply promote_first_kept_identity|]. split; [done|]. split; [done|].
    split. { intros Hbad. rewrite Hbad in Htwo; [done|].
             intros E. rewrite E in Hstill. by apply elem_of_nil in Hstill. }
    intros st1 st2 w1 w2 msg Hu1 Hl1
           (uid1 & id_ & created & Hu' & Hl2 & Hs)%addLicensePlate_success.
    simpl in Hu1. rewrite Hu1, Hu in Hu'. injection Hu' as <-.
    rewrite Hs, Hl2, Hl1. simpl. split; [done|].
    assert (length (promote_first_kept plateId l) = length l) as Hlen.
    { by rewrite <- (length_fmap plate_identity (promote_first_kept plateId l)),
        promote_first_kept_identity, length_fmap. }
    unfold add_updatedPlates.
    rewrite bool_decide_false by (rewrite Hlen; by destruct l).
    rewrite length_app, defaults_app, defaults_cons, Htwo, Hlen. simpl.
    split; [lia|reflexivity].
  - (* the write is answered *)
    rewrite Hdoc. eexists _, _, _. split; [reflexivity|]. split; [done|].
    split; [|done]. intros _. simpl. split; [done|].
    split. { unfold stored_plates. simpl. by rewrite lookup_insert_eq. }
    rewrite Hupd. split.
    + intros Hbad.
      replace (lp_id <$> set_isDefault true first :: rest)
        with (lp_id <$> without_plate plateId l) in Hbad by (by rewrite Hw).
      apply list_elem_of_fmap in Hbad as (q & Hq & Hqin).
      apply list_elem_of_In, filter_In in Hqin as [_ Hq'].
      apply negb_true_iff, bool_decide_eq_false in Hq'. done.
    + rewrite defaults_cons. simpl. by rewrite Hrest.
Qed.

Lemma removeLicensePlate_rejected_write_leaves_two_defaults_witness :
  let l := [plateABC; plateXYZ] in
  let r := removeLicensePlate "1" true (manager l) (world_plates first_call_fails l) in
  let r' := addLicensePlate (manager (plates_after r)) (snd r) in
  one_default l
  /\ stored_plates "driver1" (world_plates first_call_fails l) = l
  /\ alert_after r = Some ("Error", "Failed to remove license plate")
  /\ stored_plates "driver1" (snd r) = l
  /\ isDefault <$> plates_after r = [true; true]
  /\ defaults (plates_after r) = 2%nat
  /\ alert_after r' = Some ("Success", "License plate added successfully")
  /\ isDefault <$> stored_plates "driver1" (snd r') = [true; true; false]
  /\ defaults (stored_plates "driver1" (snd r')) = 2%nat.
Proof.
  intros l r r'.
  assert (one_default l) as Hone by (intros _; vm_compute; reflexivity).
  assert (stored_plates "driver1" (world_plates first_call_fails l) = l) as Hstored
      by (vm_compute; reflexivity).
  assert (NoDup (lp_id <$> l)) as Hnd
      by (apply (bool_decide_unpack _); vm_compute; exact I).
  destruct (removeLicensePlate_rejected_write_leaves_two_defaults
              (manager l) (world_plates first_call_fails l) "driver1" plateABC plateXYZ
              eq_refl Hstored Hnd Hone)
    as (st' & alert & w' & Hr & Huser & _ & Hfail).
  - by left.
  - reflexivity.
  - right. by left.
  - discriminate.
  - destruct (Hfail eq_refl) as (-> & Hs & _ & _ & Htwo & _ & Hadd).
    change (removeLicensePlate (lp_id plateABC) true (manager l)
                               (world_plates first_call_fails l)) with r in Hr.
    assert (plates_after r = m_licensePlates st') as Hp
        by (unfold plates_after; by rewrite Hr).
    assert (snd r = w') as Hw by (by rewrite Hr).
    assert (exists st2, r' = (Ok (st2, Some ("Success", "License plate added successfully")),
                              snd r')) as [st2 Hr'].
    { exists (match fst r' with Ok (s, _) => s | Throw _ => manager [] end).
      transitivity (fst r', snd r'); [apply surjective_pairing|].
      apply (f_equal (fun x => (x, snd r'))). vm_compute. reflexivity. }
    destruct (Hadd (manager (plates_after r)) st2 (snd r) (snd r')
                   "License plate added successfully") as (_ & _ & Htwo');
      [by rewrite Huser|by rewrite Hp|exact Hr'|].
    split; [exact Hone|]. split; [exact Hstored|].
    split; [unfold alert_after; by rewrite Hr|].
    split; [rewrite Hw, Hs; exact Hstored|].
    split; [vm_compute; reflexivity|].
    split; [rewrite Hp; exact Htwo|].
    split; [unfold alert_after; by rewrite Hr'|].
    split; [vm_compute; reflexivity|exact Htwo'].
Defined.

(** The failing run, evaluated: after the rejected removal the next added
    plate is written together with two default plates. *)
Example failed_removal_then_add_stores_two_defaults :
  let l := [plateABC; plateXYZ] in
  let r3 := removeLicensePlate "1" true (manager l) (world_plates first_call_fails l) in
  let r4 := addLicensePlate (manager (plates_after r3)) (snd r3) in
  alert_after r3 = Some ("Error", "Failed to remove license plate")
  /\ alert_after r4 = Some ("Success", "License plate added successfully")
  /\ defaults (stored_plates "driver1" (snd r4)) = 2%nat
  /\ length (stored_plates "driver1" (snd r4)) = 3%nat.
Proof. vm_compute. repeat split; reflexivity. Qed.

(** ** The recorded payment amount *)

(** The amount [createPaymentIntent] records is the number it is given; only
    the handle it returns is scaled to cents. *)
Lemma createPaymentIntent_records_amount bookingId amount_ (w w' : World) intent :
  createPaymentIntent bookingId amount_ w = (Ok intent, w') ->
  pi_amount intent = JS.mul amount_ (JS.of_Z 100)
  /\ exists paymentId p,
      payments w' !! paymentId = Some p
      /\ booking_id p = bookingId
      /\ amount p = amount_.
Proof.
  unfold createPaymentIntent, getCurrentUser, getDoc, addDoc, updateDoc, dateNow,
    randomSuffix, remote.
  unfold_M. destruct (currentUser w) as [uid_|]; [|done]. simpl.
  destruct (faults (env w) (calls w)); [done|]. simpl.
  destruct (bookings w !! bookingId) as [b|]; [|done]. simpl.
  destruct (faults (env w) (S (calls w))); [done|]. simpl.
  destruct (faults (env w) (S (S (calls w)))); [done|]. simpl.
  rewrite lookup_insert_eq. intros [= <- <-]. split; [done|].
  do 2 eexists. simpl. rewrite lookup_insert_eq. done.
Qed.

(** C6. At the failing input (a listing at 10 per hour booked from 12:00 to
    14:30), the booking flow hands the payment sheet the total price 25, in
    dollars; [createPaymentIntent] records exactly that number as the
    payment's amount, while the handle it returns carries 2500. The display
    function divides the recorded amount by 100 and formats 0.25. For a
    quarter of an hour the recorded amount is 2.5, not an integer. *)
Theorem payment_amount_recorded_in_dollars :
  let booked := handleBooking utcSlotDate getOverlappingBookings createBooking
                              (screen listing10 "12:00" "14:30") (world_A quiet) in
  let paid := createPaymentIntent "doc" (JS.of_Z 25) (snd booked) in
  fst booked = Ok (PaymentModal "doc" (JS.of_Z 25))
  /\ (amount <$> payments (snd paid) !! "doc") = Some (JS.of_Z 25)
  /\ (exists intent, fst paid = Ok intent /\ pi_amount intent = JS.of_Z 2500)
  /\ formatAmount (JS.of_Z 25) "usd" = ("USD", JS.of_scaled 1 (-2))
  /\ formatAmount (JS.of_Z 2500) "usd" = ("USD", JS.of_Z 25)
  /\ (let quarter := totalPrice (Some listing10) (12 * ms_per_hour)
                                (12 * ms_per_hour + 15 * 60000) in
      quarter = JS.of_scaled 5 (-1) /\ JS.isInteger quarter = false).
Proof.
  vm_compute. repeat split; try reflexivity.
  eexists. split; reflexivity.
Qed.

(** ** Payments: rejections, partial failures and refunds *)

Lemma filter_none {A} (f : A -> bool) (l : list A) :
  (forall x, In x l -> f x = false) -> List.filter f l = [].
Proof.
  induction l as [|x l IH]; simpl; intros H; [done|].
  rewrite (H x) by (by left). apply IH. intros y Hy. apply H. by right.
Qed.

Lemma listed_is_stored {D} (m : gmap string D) (d : string * D) :
  In d (map_to_list m) -> m !! fst d = Some (snd d).
Proof. destruct d as [i x]. intros H. by apply elem_of_map_to_list, list_elem_of_In. Qed.

(** X3. [confirmPayment] refuses without touching a document: it throws when
    nobody is signed in, and, with the store answering, it throws
    'Payment not found' when no payment carries the handle for the signed-in
    user. A payment of another user with that handle stays as it was. *)
Theorem confirmPayment_rejections (paymentIntentId paymentMethodId : string) (w : World) :
  (currentUser w = None ->
   confirmPayment paymentIntentId paymentMethodId w
   = (Throw (Error "User must be authenticated to confirm payment"), w))
  /\
  (forall uid_,
      currentUser w = Some uid_ -> available w ->
      (forall id_ p, payments w !! id_ = Some p ->
                     payment_intent_id p = Some paymentIntentId -> p_user_id p <> uid_) ->
      exists w',
        confirmPayment paymentIntentId paymentMethodId w
        = (Throw (Error "Payment not found"), w')
        /\ payments w' = payments w
        /\ bookings w' = bookings w).
Proof.
  split.
  - intros Hu. unfold confirmPayment, getCurrentUser. unfold_M. by rewrite Hu.
  - intros uid_ Hu Hav Hnone. unfold confirmPayment. run_available Hav.
    rewrite Hu. run_available Hav. rewrite filter_none; [by eexists|].
    intros [i p] Hin%listed_is_stored. simpl in Hin. unfold payment_matches. simpl.
    case_bool_decide as Hh; [|done]. simpl.
    apply bool_decide_false. by eapply Hnone.
Qed.

Lemma confirmPayment_rejections_witness :
  exists w',
    confirmPayment "pi_1_k3x9q2m1z" "stripe_payment_method" world_A_intruder
    = (Throw (Error "Payment not found"), w')
    /\ payments w' = payments world_A_intruder.
Proof.
  destruct (proj2 (confirmPayment_rejections "pi_1_k3x9q2m1z" "stripe_payment_method"
                                             world_A_intruder) "mallory")
    as (w' & Hr & Hp & _).
  - reflexivity.
  - intros n. reflexivity.
  - intros id_ p Hp _.
    assert (p_user_id <$> payments world_A_intruder !! id_ = Some (p_user_id p)) as Hu
        by (by rewrite Hp).
    unfold world_A_intruder in Hu. simpl in Hu.
    destruct (decide (id_ = "payA")) as [->|Hne].
    + rewrite lookup_singleton_eq in Hu. injection Hu as <-. discriminate.
    + by rewrite lookup_singleton_ne in Hu.
  - exists w'. split; assumption.
Defined.

(** X4. The two writes of [confirmPayment] are separate calls. When the
    parent booking does not exist, the booking write is rejected and the call
    throws, but the payment has already been marked [completed]. *)
Theorem confirmPayment_not_atomic
        (paymentIntentId paymentMethodId : string) (w : World)
        (uid_ paymentId : string) (p : Payment) (rest : list (string * Payment)) :
  currentUser w = Some uid_ ->
  available w ->
  List.filter (payment_matches paymentIntentId uid_) (map_to_list (payments w))
  = (paymentId, p) :: rest ->
  bookings w !! booking_id p = None ->
  exists w' p',
    confirmPayment paymentIntentId paymentMethodId w = (Throw (FirebaseError "not-found"), w')
    /\ payments w' !! paymentId = Some p'
    /\ p_status p' = PaymentCompleted
    /\ payment_method_id p' = Some paymentMethodId
    /\ bookings w' = bookings w.
Proof.
  intros Hu Hav Hq Hb.
  pose proof (first_match_stored _ _ _ _ _ Hq) as Hp.
  unfold confirmPayment. run_available Hav. rewrite Hu. run_available Hav.
  rewrite Hq. run_available Hav. rewrite Hp. run_available Hav. rewrite Hb.
  do 2 eexists. split; [reflexivity|]. simpl. rewrite lookup_insert_eq. done.
Qed.

Lemma confirmPayment_not_atomic_witness :
  exists w' p',
    confirmPayment "pi_1_k3x9q2m1z" "stripe_payment_method" world_orphan_payment
    = (Throw (FirebaseError "not-found"), w')
    /\ payments w' !! "payA" = Some p'
    /\ p_status p' = PaymentCompleted.
Proof.
  destruct (confirmPayment_not_atomic "pi_1_k3x9q2m1z" "stripe_payment_method"
                                      world_orphan_payment "driver1" "payA" paymentA [])
    as (w' & p' & Hr & Hp & Hs & _).
  - reflexivity.
  - intros n. reflexivity.
  - vm_compute. reflexivity.
  - vm_compute. reflexivity.
  - exists w', p'. repeat split; assumption.
Defined.



(** X2. [processRefund] refuses without touching a document: when nobody is
    signed in; with the store answering, when the payment does not exist;
    and when the signed-in user is neither the payer nor the host of the
    payment. *)
Theorem processRefund_rejections (paymentId : string) (amount_ : option JS.number)
        (w : World) :
  (currentUser w = None ->
   processRefund paymentId amount_ w
   = (Throw (Error "User must be authenticated to process refund"), w))
  /\
  (forall uid_,
      currentUser w = Some uid_ -> available w -> payments w !! paymentId = None ->
      exists w',
        processRefund paymentId amount_ w = (Throw (Error "Payment not found"), w')
        /\ payments w' = payments w /\ bookings w' = bookings w)
  /\
  (forall uid_ p,
      currentUser w = Some uid_ -> available w -> payments w !! paymentId = Some p ->
      p_user_id p <> uid_ -> p_host_id p <> uid_ ->
      exists w',
        processRefund paymentId amount_ w
        = (Throw (Error "Not authorized to refund this payment"), w')
        /\ payments w' = payments w /\ bookings w' = bookings w).
Proof.
  split; [|split].
  - intros Hu. unfold processRefund, getCurrentUser. unfold_M. by rewrite Hu.
  - intros uid_ Hu Hav Hp. unfold processRefund. run_available Hav.
    rewrite Hu. run_available Hav. rewrite Hp. by eexists.
  - intros uid_ p Hu Hav Hp Hpayer Hhost. unfold processRefund. run_available Hav.
    rewrite Hu. run_available Hav. rewrite Hp. run_available Hav.
    rewrite !bool_decide_false by done. by eexists.
Qed.

Lemma processRefund_rejections_witness :
  exists w',
    processRefund "payA" None world_A_intruder
    = (Throw (Error "Not authorized to refund this payment"), w')
    /\ payments w' = payments world_A_intruder
    /\ bookings w' = bookings world_A_intruder.
Proof.
  apply (proj2 (proj2 (processRefund_rejections "payA" None world_A_intruder))
               "mallory" paymentA).
  - reflexivity.
  - intros n. reflexivity.
  - vm_compute. reflexivity.
  - discriminate.
  - discriminate.
Defined.

(** ** From the payment sheet to a confirmed booking *)

Lemma filter_Permutation {A} (f : A -> bool) (l1 l2 : list A) :
  l1 ≡ₚ l2 -> List.filter f l1 ≡ₚ List.filter f l2.
Proof.
  induction 1 as [|x l1 l2 _ IH|x y l|l1 l2 l3 _ IH1 _ IH2]; simpl.
  - done.
  - destruct (f x); [by constructor|done].
  - destruct (f x), (f y); try done. apply perm_swap.
  - by etrans.
Qed.

(** A freshly inserted document that is the only one satisfying a query is
    the query's whole answer. *)
Lemma filter_inserted_only {D} (m : gmap string D) (f : string * D -> bool) i x :
  m !! i = None -> f (i, x) = true ->
  (forall j y, m !! j = Some y -> f (j, y) = false) ->
  List.filter f (map_to_list (<[i:=x]> m)) = [(i, x)].
Proof.
  intros Hi Hf Hnone. apply Permutation_singleton_r.
  rewrite (filter_Permutation f _ _ (map_to_list_insert m i x Hi)). simpl.
  rewrite Hf, filter_none; [done|].
  intros [j y] Hin%listed_is_stored. by apply Hnone.
Qed.

Lemma createPaymentIntent_ok_inv bookingId amount_ (w w' : World) intent :
  createPaymentIntent bookingId amount_ w = (Ok intent, w') ->
  exists uid_ b paymentId p,
    currentUser w = Some uid_
    /\ bookings w !! bookingId = Some b
    /\ payments w !! paymentId = None
    /\ payments w' = <[paymentId := p]> (payments w)
    /\ booking_id p = bookingId
    /\ p_user_id p = uid_
    /\ amount p = amount_
    /\ p_status p = PaymentPending
    /\ payment_intent_id p = Some (pi_id intent)
    /\ bookings w' = bookings w
    /\ currentUser w' = currentUser w
    /\ env w' = env w.
Proof.
  unfold createPaymentIntent, getCurrentUser, getDoc, addDoc, updateDoc, dateNow,
    randomSuffix, remote.
  unfold_M. destruct (currentUser w) as [uid_|] eqn:Hu; [|done]. simpl.
  destruct (faults (env w) (calls w)); [done|]. simpl.
  destruct (bookings w !! bookingId) as [b|] eqn:Hb; [|done]. simpl.
  destruct (faults (env w) (S (calls w))); [done|]. simpl.
  destruct (faults (env w) (S (S (calls w)))); [done|]. simpl.
  rewrite lookup_insert_eq. intros [= <- <-].
  exists uid_, b. do 2 eexists. simpl. rewrite insert_insert_eq.
  repeat split; try done. apply fresh_string_fresh.
Qed.

Lemma initializePayment_ok_inv u bookingId amount_ sheet0 sheet1 (w w1 : World) :
  initializePayment (Some u) bookingId amount_ sheet0 w = (Ok (sheet1, []), w1) ->
  exists intent,
    sheet1 = mkSheet (Some intent) StepInitial false
    /\ createPaymentIntent bookingId amount_ w = (Ok intent, w1).
Proof.
  unfold initializePayment. unfold_M.
  destruct (createPaymentIntent bookingId amount_ w) as [[intent|e] w'] eqn:Hc; [|done].
  intros [= <- <-]. by exists intent.
Qed.

(** X5. The payment flow composes. If the sheet initialises without
    reporting a failure, the store answers, and no earlier payment already
    carries the handle the sheet received, then paying with no error from the
    provider ends in the success step and leaves the payment recorded for
    this booking [completed], with the amount the sheet was opened with, and
    the booking [confirmed] and linked to that payment. *)
Theorem payment_sheet_confirms_booking
        (u : User) (bookingId : string) (amount_ : JS.number)
        (sheet0 sheet1 : PaymentSheet) (w w1 : World) :
  initializePayment (Some u) bookingId amount_ sheet0 w = (Ok (sheet1, []), w1) ->
  available w ->
  (forall i x, payments w !! i = Some x ->
               payment_intent_id x <> (pi_id <$> paymentIntent sheet1)) ->
  exists w2 paymentId p' b',
    handlePayment None None sheet1 w1
    = (Ok (mkSheet (paymentIntent sheet1) StepSuccess false, [OnSuccess; OnClose]), w2)
    /\ payments w2 !! paymentId = Some p'
    /\ p_status p' = PaymentCompleted
    /\ booking_id p' = bookingId
    /\ amount p' = amount_
    /\ bookings w2 !! bookingId = Some b'
    /\ b_status b' = BookingConfirmed
    /\ payment_id b' = Some paymentId.
Proof.
  intros (intent & -> & Hc)%initializePayment_ok_inv Hav Hfresh. simpl in *.
  apply createPaymentIntent_ok_inv in Hc
    as (uid_ & b & paymentId & p & Hu & Hb & Hnew & Hp1 & Hbid & Huid & Ham & _ & Hpi
        & Hb1 & Hu1 & Henv).
  assert (available w1) as Hav1 by (intros n; rewrite Henv; apply Hav).
  assert (List.filter (payment_matches (pi_id intent) uid_) (map_to_list (payments w1))
          = [(paymentId, p)]) as Hq.
  { rewrite Hp1. apply filter_inserted_only; [done| |].
    - unfold payment_matches. simpl. by rewrite !bool_decide_true.
    - intros j y Hj. unfold payment_matches. simpl.
      rewrite (bool_decide_false (payment_intent_id y = _)); [done|]. by eapply Hfresh. }
  rewrite <- Hbid in Hb. rewrite <- Hb1 in Hb. rewrite Hu in Hu1.
  destruct (confirmPayment_ok (pi_id intent) "stripe_payment_method" w1
                              uid_ paymentId p [] b Hu1 Hav1 Hq Hb)
    as (w2 & Hcp & Hp2 & Hb2).
  exists w2, paymentId. do 2 eexists. split.
  - unfold handlePayment. simpl. unfold_M. by rewrite Hcp.
  - rewrite Hp2, <- Hbid, Hb2, !lookup_insert_eq. simpl. done.
Qed.

Lemma payment_sheet_confirms_booking_witness :
  let r := initializePayment (Some driver) "A" (JS.of_Z 10)
                             (mkSheet None StepInitial false) (world_A quiet) in
  exists w2 paymentId p' b',
    payments w2 !! paymentId = Some p'
    /\ p_status p' = PaymentCompleted
    /\ bookings w2 !! "A" = Some b'
    /\ b_status b' = BookingConfirmed
    /\ payment_id b' = Some paymentId.
Proof.
  intros r.
  assert (r = (Ok (mkSheet (Some (mkPaymentIntent
                                    "pi_1700000000002_k3x9q2m1z" (JS.of_Z 1000) "usd"
                                    requires_payment_method
                                    "pi_1700000000003_secret_w7p4t8c5v"))
                           StepInitial false, []), snd r)) as Hr.
  { transitivity (fst r, snd r); [apply surjective_pairing|].
    apply (f_equal (fun x => (x, snd r))). vm_compute. reflexivity. }
  destruct (payment_sheet_confirms_booking driver "A" (JS.of_Z 10) _ _ _ _ Hr)
    as (w2 & paymentId & p' & b' & _ & Hp & Hs & _ & _ & Hb & Hbs & Hl).
  - intros n. reflexivity.
  - intros i x Hx. unfold world_A in Hx. simpl in Hx. by rewrite lookup_empty in Hx.
  - exists w2, paymentId, p', b'. repeat split; assumption.
Defined.

(** ** Reading payments back *)

Lemma confirmPayment_ok_inv paymentIntentId paymentMethodId (w w' : World) paymentId p' :
  confirmPayment paymentIntentId paymentMethodId w = (Ok (paymentId, p'), w') ->
  payments w' !! paymentId = Some p'
  /\ p_status p' = PaymentCompleted
  /\ env w' = env w.
Proof.
  unfold confirmPayment, getCurrentUser, getDocs, updateDoc, dateNow, remote.
  unfold_M. destruct (currentUser w) as [uid_|]; [|done]. simpl.
  destruct (faults (env w) (calls w)); [done|]. simpl.
  destruct (List.filter _ _) as [|[pid p] rest]; [done|]. simpl.
  destruct (faults (env w) (S (calls w))); [done|]. simpl.
  destruct (payments w !! pid); [|done]. simpl.
  destruct (faults (env w) (S (S (calls w)))); [done|]. simpl.
  destruct (bookings w !! booking_id p); [|done]. simpl.
  intros [= <- <- <-]. simpl. by rewrite lookup_insert_eq.
Qed.

(** X6. [getPayment] answers [null] for an id that is not stored instead of
    throwing, and right after a successful [confirmPayment] it reads back
    exactly the payment that [confirmPayment] returned. *)
Theorem getPayment_reads_back :
  (forall paymentId (w : World),
      available w -> payments w !! paymentId = None ->
      fst (getPayment paymentId w) = Ok None)
  /\
  (forall paymentIntentId paymentMethodId (w w' : World) paymentId p',
      available w ->
      confirmPayment paymentIntentId paymentMethodId w = (Ok (paymentId, p'), w') ->
      fst (getPayment paymentId w') = Ok (Some (paymentId, p'))
      /\ p_status p' = PaymentCompleted).
Proof.
  split.
  - intros paymentId w Hav Hp. unfold getPayment. run_available Hav. by rewrite Hp.
  - intros paymentIntentId paymentMethodId w w' paymentId p' Hav
           (Hp & Hs & Henv)%confirmPayment_ok_inv.
    assert (available w') as Hav' by (intros n; rewrite Henv; apply Hav).
    unfold getPayment. run_available Hav'. by rewrite Hp.
Qed.

Lemma getPayment_reads_back_witness :
  fst (getPayment "nobody" world_A_paying) = Ok None
  /\ (let r := confirmPayment "pi_1_k3x9q2m1z" "stripe_payment_method" world_A_paying in
      fst (getPayment "payA" (snd r))
      = Ok (Some ("payA", updatedPaymentData paymentA "stripe_payment_method" 1700000000000))).
Proof.
  split.
  - apply (proj1 getPayment_reads_back "nobody" world_A_paying).
    + intros n. reflexivity.
    + vm_compute. reflexivity.
  - intros r.
    apply (proj2 getPayment_reads_back "pi_1_k3x9q2m1z" "stripe_payment_method"
                 world_A_paying (snd r) "payA"
                 (updatedPaymentData paymentA "stripe_payment_method" 1700000000000)).
    + intros n. reflexivity.
    + transitivity (fst r, snd r); [apply surjective_pairing|].
      apply (f_equal (fun x => (x, snd r))). vm_compute. reflexivity.
Defined.

#[local] Instance newer_first_total : Total newer_first.
Proof. intros a b. unfold newer_first. lia. Qed.

#[local] Instance newer_first_trans : Transitive newer_first.
Proof. intros a b c. unfold newer_first. lia. Qed.

Lemma NoDup_fst_filter {D} (f : string * D -> bool) (l : list (string * D)) :
  NoDup l.*1 -> NoDup (List.filter f l).*1.
Proof.
  induction l as [|x l IH]; simpl; [done|]. rewrite NoDup_cons. intros [Hx Hl].
  destruct (f x); [|by apply IH]. simpl. rewrite NoDup_cons. split; [|by apply IH].
  intros Hin. apply Hx. apply list_elem_of_fmap in Hin as (y & -> & Hy).
  apply list_elem_of_fmap. exists y. split; [done|].
  apply list_elem_of_In. apply list_elem_of_In in Hy.
  by apply (proj1 (filter_In f y l)) in Hy as [Hy _].
Qed.

(** What an ordered query returns: exactly the stored documents that satisfy
    the filter, each once, newest first. *)
Lemma ordered_query_sound (m : gmap string Payment) (f : string * Payment -> bool) :
  let l := merge_sort newer_first (List.filter f (map_to_list m)) in
  (forall id_ p, (id_, p) ∈ l <-> m !! id_ = Some p /\ f (id_, p) = true)
  /\ StronglySorted newer_first l
  /\ NoDup l.*1.
Proof.
  intros l. subst l. split; [|split].
  - intros id_ p. rewrite merge_sort_Permutation, list_elem_of_In, filter_In.
    by rewrite <- list_elem_of_In, elem_of_map_to_list.
  - apply StronglySorted_merge_sort; apply _.
  - rewrite merge_sort_Permutation. apply NoDup_fst_filter, NoDup_fst_map_to_list.
Qed.

(** X7. With the store answering, [getUserPayments] returns exactly the
    stored payments whose payer is the given user, each once and newest
    first, and [getHostPayments] does the same for the payments whose host is
    the given user; neither changes a document. *)
Theorem payment_history_complete_and_ordered (userId : string) (w : World) :
  available w ->
  exists asPayer asHost w1 w2,
    getUserPayments userId w = (Ok asPayer, w1)
    /\ getHostPayments userId w = (Ok asHost, w2)
    /\ (forall id_ p, (id_, p) ∈ asPayer <-> payments w !! id_ = Some p /\ p_user_id p = userId)
    /\ (forall id_ p, (id_, p) ∈ asHost <-> payments w !! id_ = Some p /\ p_host_id p = userId)
    /\ StronglySorted newer_first asPayer
    /\ StronglySorted newer_first asHost
    /\ NoDup asPayer.*1
    /\ NoDup asHost.*1
    /\ payments w1 = payments w
    /\ payments w2 = payments w.
Proof.
  intros Hav.
  destruct (ordered_query_sound (payments w)
              (fun d => bool_decide (p_user_id (snd d) = userId))) as (H1 & H2 & H3).
  destruct (ordered_query_sound (payments w)
              (fun d => bool_decide (p_host_id (snd d) = userId))) as (H4 & H5 & H6).
  do 4 eexists. unfold getUserPayments, getHostPayments. run_available Hav.
  split; [reflexivity|]. split; [reflexivity|].
  split; [|split; [|done]].
  - intros id_ p. rewrite H1. simpl. by rewrite bool_decide_eq_true.
  - intros id_ p. rewrite H4. simpl. by rewrite bool_decide_eq_true.
Qed.

Lemma payment_history_complete_and_ordered_witness :
  exists asPayer asHost,
    fst (getUserPayments "driver1" world_two_payments) = Ok asPayer
    /\ fst (getHostPayments "driver1" world_two_payments) = Ok asHost
    /\ StronglySorted newer_first asPayer
    /\ asPayer.*1 = ["payB"; "payA"]
    /\ asHost = [].
Proof.
  destruct (payment_history_complete_and_ordered "driver1" world_two_payments)
    as (asPayer & asHost & w1 & w2 & Hr1 & Hr2 & _ & _ & Hs & _).
  - intros n. reflexivity.
  - exists asPayer, asHost. rewrite Hr1, Hr2. simpl.
    split; [reflexivity|]. split; [reflexivity|]. split; [exact Hs|].
    assert (fst (getUserPayments "driver1" world_two_payments) = Ok asPayer) as E1
        by (by rewrite Hr1).
    assert (fst (getHostPayments "driver1" world_two_payments) = Ok asHost) as E2
        by (by rewrite Hr2).
    vm_compute in E1. vm_compute in E2.
    injection E1 as <-. injection E2 as <-. split; reflexivity.
Defined.

(** ** Provider errors *)

Lemma or_string_nonempty (s : option string) (d : string) :
  d <> "" -> or_string s d <> "".
Proof.
  intros Hd. unfold or_string. destruct s as [s|]; [|done].
  destruct s; simpl; done.
Qed.

(** X8. [getStripeErrorMessage] always yields a non-empty message. For the
    five known provider codes it yields the fixed text whatever message the
    error carries; for any other code, and for an error without code, it
    yields the error's own message when that is non-empty and the generic
    processing text otherwise. *)
Theorem getStripeErrorMessage_total :
  (forall error, getStripeErrorMessage error <> "")
  /\ (forall m,
         getStripeErrorMessage (mkError (Some "card_declined") m) = STRIPE_ERRORS.CARD_DECLINED
         /\ getStripeErrorMessage (mkError (Some "insufficient_funds") m)
            = STRIPE_ERRORS.INSUFFICIENT_FUNDS
         /\ getStripeErrorMessage (mkError (Some "expired_card") m) = STRIPE_ERRORS.EXPIRED_CARD
         /\ getStripeErrorMessage (mkError (Some "incorrect_cvc") m) = STRIPE_ERRORS.INCORRECT_CVC
         /\ getStripeErrorMessage (mkError (Some "processing_error") m)
            = STRIPE_ERRORS.PROCESSING_ERROR)
  /\ (forall code m,
         code <> "card_declined" -> code <> "insufficient_funds" ->
         code <> "expired_card" -> code <> "incorrect_cvc" -> code <> "processing_error" ->
         getStripeErrorMessage (mkError (Some code) m)
         = if JS.truthy_string m then m else STRIPE_ERRORS.PROCESSING_ERROR)
  /\ (forall m, getStripeErrorMessage (Error m)
                = if JS.truthy_string m then m else STRIPE_ERRORS.PROCESSING_ERROR).
Proof.
  split; [|split; [|split]].
  - intros [code m]. unfold getStripeErrorMessage. simpl.
    assert (or_string (Some m) STRIPE_ERRORS.PROCESSING_ERROR <> "") as Hfb
        by (by apply or_string_nonempty).
    destruct code as [c|]; [|done].
    repeat (match goal with |- context [if ?b then _ else _] => destruct b end; try done).
  - intros m. repeat split; reflexivity.
  - intros code m H1 H2 H3 H4 H5. unfold getStripeErrorMessage. simpl.
    apply String.eqb_neq in H1, H2, H3, H4, H5. rewrite H1, H2, H3, H4, H5.
    by destruct (JS.truthy_string code).
  - intros m. reflexivity.
Qed.

Lemma getStripeErrorMessage_total_witness :
  getStripeErrorMessage (mkError (Some "network") "Timeout") = "Timeout"
  /\ getStripeErrorMessage (mkError (Some "network") "") = STRIPE_ERRORS.PROCESSING_ERROR.
Proof.
  split.
  - exact (proj1 (proj2 (proj2 getStripeErrorMessage_total)) "network" "Timeout"
                 ltac:(discriminate) ltac:(discriminate) ltac:(discriminate)
                 ltac:(discriminate) ltac:(discriminate)).
  - exact (proj1 (proj2 (proj2 getStripeErrorMessage_total)) "network" ""
                 ltac:(discriminate) ltac:(discriminate) ltac:(discriminate)
                 ltac:(discriminate) ltac:(discriminate)).
Defined.

(** X9. [handlePayment] never throws. Whenever the provider reports an
    error, it makes no remote call, leaves the world as it was and does not
    call [onSuccess]. A cancellation by the user raises no callback and
    leaves the sheet in the processing step; any other provider error puts
    the sheet in the error step and calls [onFailure] once with a non-empty
    message. *)
Theorem handlePayment_provider_errors
        (initError presentError : option StripeError) (sheet : PaymentSheet) (w : World) :
  (exists out w', handlePayment initError presentError sheet w = (Ok out, w'))
  /\
  (is_Some initError \/ is_Some presentError ->
   exists sheet' callbacks,
     handlePayment initError presentError sheet w = (Ok (sheet', callbacks), w)
     /\ OnSuccess ∉ callbacks)
  /\
  (forall intent e,
      paymentIntent sheet = Some intent -> initError = None -> presentError = Some e ->
      se_code e = "Canceled" ->
      handlePayment initError presentError sheet w
      = (Ok (mkSheet (Some intent) StepProcessing false, []), w))
  /\
  (forall intent e,
      paymentIntent sheet = Some intent ->
      initError = Some e \/ (initError = None /\ presentError = Some e
                             /\ se_code e <> "Canceled") ->
      exists msg,
        handlePayment initError presentError sheet w
        = (Ok (mkSheet (Some intent) StepError false, [OnFailure msg]), w)
        /\ msg <> "").
Proof.
  assert (forall m, getStripeErrorMessage (Error m) <> "") as Hmsg.
  { intros m. change (or_string (Some m) STRIPE_ERRORS.PROCESSING_ERROR <> "").
    by apply or_string_nonempty. }
  split; [|split; [|split]].
  - unfold handlePayment. destruct (paymentIntent sheet) as [intent|]; [|by do 2 eexists].
    unfold_M. destruct initError as [e|]; [by do 2 eexists|].
    destruct presentError as [e|].
    + destruct (String.eqb _ _); by do 2 eexists.
    + destruct (confirmPayment _ _ w) as [[?|?] ?]; by do 2 eexists.
  - intros Herr. unfold handlePayment.
    destruct (paymentIntent sheet) as [intent|];
      [|do 2 eexists; split; [done|]; apply not_elem_of_nil].
    unfold_M. destruct initError as [e|].
    + do 2 eexists. split; [done|]. by intros [=]%list_elem_of_singleton.
    + destruct presentError as [e|]; [|by destruct Herr as [[? [=]]|[? [=]]]].
      destruct (String.eqb _ _); do 2 eexists; (split; [done|]);
        [apply not_elem_of_nil|by intros [=]%list_elem_of_singleton].
  - intros intent e Hs -> -> Hc. unfold handlePayment. rewrite Hs, Hc. done.
  - intros intent e Hs [->|(-> & -> & Hc)]; unfold handlePayment; rewrite Hs; unfold_M.
    + by eexists.
    + apply String.eqb_neq in Hc. rewrite Hc. by eexists.
Qed.

Lemma handlePayment_provider_errors_witness :
  handlePayment None (Some (mkStripeError "Canceled" "The payment has been canceled"))
                (mkSheet (Some intentA) StepInitial false) world_A_paying
  = (Ok (mkSheet (Some intentA) StepProcessing false, []), world_A_paying)
  /\
  (exists msg,
      handlePayment (Some (mkStripeError "Failed" "No payment sheet has been initialized"))
                    None (mkSheet (Some intentA) StepInitial false) world_A_paying
      = (Ok (mkSheet (Some intentA) StepError false, [OnFailure msg]), world_A_paying)
      /\ msg <> "").
Proof.
  split.
  - apply (proj1 (proj2 (proj2 (handlePayment_provider_errors
                                  None (Some (mkStripeError "Canceled"
                                                            "The payment has been canceled"))
                                  (mkSheet (Some intentA) StepInitial false)
                                  world_A_paying)))
                 intentA (mkStripeError "Canceled" "The payment has been canceled"));
      reflexivity.
  - apply (proj2 (proj2 (proj2 (handlePayment_provider_errors
                                  (Some (mkStripeError "Failed"
                                                       "No payment sheet has been initialized"))
                                  None (mkSheet (Some intentA) StepInitial false)
                                  world_A_paying)))
                 intentA (mkStripeError "Failed" "No payment sheet has been initialized")).
    + reflexivity.
    + left. reflexivity.
Defined.

(** ** Validating and displaying plates *)

(** X10. The manager strips and then uppercases, the library uppercases and
    then strips. The manager's normalisation is idempotent on every string;
    the two agree on every well-formed string; and the manager's validator
    gives the same answer on a plate and on either normalisation of it. A
    plate the manager accepts is well formed and has 2 to 8 characters after
    normalisation, all of them letters A-Z, digits, hyphens or periods.
    Whatever the library accepts the manager accepts too; for a state with a
    pattern the library moreover requires at most the pattern's number of
    characters, letters and digits only. *)
Theorem plate_validators_agree :
  (forall p, cleanPlate_manager (cleanPlate_manager p) = cleanPlate_manager p)
  /\ (forall p, JS.well_formed p = true -> cleanPlate_manager p = cleanPlate p)
  /\ (forall p, validatePlateNumber (cleanPlate_manager p) = validatePlateNumber p
                /\ validatePlateNumber (cleanPlate p) = validatePlateNumber p)
  /\ (forall p state_,
         JS.well_formed p = true ->
         validateLicensePlateFormat (cleanPlate p) state_ = validateLicensePlateFormat p state_)
  /\ (forall p,
         validatePlateNumber p = true ->
         JS.well_formed p = true
         /\ (2 <= JS.length (cleanPlate p) <= 8)%nat
         /\ JS.all_units is_plate_char (cleanPlate p) = true)
  /\ (forall p state_,
         success (validateLicensePlateFormat p state_) = true ->
         validatePlateNumber p = true)
  /\ (forall p state_ n,
         statePatterns (JS.toUpperCase state_) = Some n ->
         success (validateLicensePlateFormat p state_) = true ->
         (JS.length (cleanPlate p) <= n)%nat
         /\ JS.all_units is_upper_or_digit (cleanPlate p) = true).
Proof.
  split; [exact cleanPlate_manager_fixed|].
  split; [exact cleanPlate_manager_eq|].
  split; [intros p; split; [apply validatePlateNumber_cleaned|apply validatePlateNumber_cleanPlate]|].
  split; [|split; [|split]].
  - intros p state_ Hwf. unfold validateLicensePlateFormat.
    by rewrite cleanPlate_well_formed_fixed.
  - intros p Hv. pose proof (validatePlateNumber_well_formed p Hv) as Hwf.
    split; [done|]. rewrite <- cleanPlate_manager_eq by done.
    by apply validatePlateNumber_inv.
  - intros p state_. unfold validateLicensePlateFormat.
    destruct (_ || _)%nat eqn:Hlen; [done|].
    destruct (JS.all_units is_plate_char (cleanPlate p)) eqn:Hc; [|done]. intros _.
    assert (JS.well_formed p = true) as Hwf.
    { apply no_surrogate_well_formed, plate_chars_no_surrogate_input. by left. }
    unfold validatePlateNumber. by rewrite cleanPlate_manager_eq, Hlen, Hc.
  - intros p state_ n Hn. unfold validateLicensePlateFormat. rewrite Hn.
    destruct (_ || _)%nat; [done|].
    destruct (negb _); [done|].
    destruct (_ && _) eqn:Hok; [|done]. intros _.
    apply andb_true_iff in Hok as [H1%Nat.leb_le H2]. done.
Qed.

Lemma plate_validators_agree_witness :
  cleanPlate_manager "straße 12" = cleanPlate "straße 12"
  /\ validatePlateNumber "abc 123" = true
  /\ (JS.well_formed "abc-1234" = true
      /\ (2 <= JS.length (cleanPlate "abc-1234") <= 8)%nat
      /\ JS.all_units is_plate_char (cleanPlate "abc-1234") = true)
  /\ ((JS.length (cleanPlate "ny 12345") <= 8)%nat
      /\ JS.all_units is_upper_or_digit (cleanPlate "ny 12345") = true)
  /\ validateLicensePlateFormat (cleanPlate "abc 123") "ca"
     = validateLicensePlateFormat "abc 123" "ca".
Proof.
  destruct plate_validators_agree as (_ & He & _ & Hf & Hm & Hl & Hs).
  split; [|split; [|split; [|split]]].
  - apply (He "straße 12"). vm_compute. reflexivity.
  - apply (Hl "abc 123" "ca"). vm_compute. reflexivity.
  - apply (Hm "abc-1234"). vm_compute. reflexivity.
  - apply (Hs "ny 12345" "ny" 8%nat); vm_compute; reflexivity.
  - apply (Hf "abc 123" "ca"). vm_compute. reflexivity.
Defined.

(** The two orders part ways on an ill-formed string: with the space between
    the two surrogates removed first, the manager uppercases the letter
    U+10428; the library uppercases the two unpaired surrogates, which stay
    as they are, and only then removes the space. *)
Example normalisations_differ_on_unpaired_surrogates :
  let p := JS.of_units [0xD801; 0x20; 0xDC28]%N in
  JS.units (cleanPlate_manager p) = [0xD801; 0xDC00]%N
  /\ JS.units (cleanPlate p) = [0xD801; 0xDC28]%N.
Proof. vm_compute. split; reflexivity. Qed.

(** X11. Formatting a plate for display only adds white space between code
    units. So for a plate without surrogates the displayed plate normalises
    to the same string as the plate itself, and for every plate the manager
    has validated, normalising the displayed form of the stored plate gives
    the stored plate back. *)
Theorem formatPlateNumber_roundtrip :
  (forall plate,
      JS.all_units (fun u => negb (JS.is_surrogate u)) plate = true ->
      cleanPlate (formatPlateNumber plate) = cleanPlate plate)
  /\ (forall plate,
         validatePlateNumber plate = true ->
         cleanPlate (formatPlateNumber (cleanPlate_manager plate)) = cleanPlate_manager plate).
Proof.
  split.
  - intros plate H. apply cleanPlate_formatPlateNumber, not_true_is_false.
    intros (u & Hin & Hu)%existsb_exists.
    unfold JS.all_units in H. rewrite forallb_forall in H. specialize (H u Hin).
    by rewrite Hu in H.
  - intros plate Hv. rewrite cleanPlate_formatPlateNumber.
    + by apply validated_cleanPlate_fixed.
    + apply validatePlateNumber_no_surrogate. by rewrite validatePlateNumber_cleaned.
Qed.

Lemma formatPlateNumber_roundtrip_witness :
  cleanPlate (formatPlateNumber "straße12") = "STRASSE12"
  /\ cleanPlate (formatPlateNumber (cleanPlate_manager "abc 1234")) = "ABC1234".
Proof.
  split.
  - transitivity (cleanPlate "straße12"); [|vm_compute; reflexivity].
    apply (proj1 formatPlateNumber_roundtrip). vm_compute. reflexivity.
  - transitivity (cleanPlate_manager "abc 1234"); [|vm_compute; reflexivity].
    apply (proj2 formatPlateNumber_roundtrip). vm_compute. reflexivity.
Defined.

Example formatPlateNumber_examples :
  formatPlateNumber "ABC123" = "ABC 123"
  /\ formatPlateNumber "ABC1234" = "ABC 123 4"
  /\ formatPlateNumber "AB" = "AB".
Proof. vm_compute. repeat split; reflexivity. Qed.

(** The regular expression has no [u] flag and so counts code units: it can
    put the space between the two halves of a surrogate pair, after which
    the letter is no longer uppercased. *)
Example formatPlateNumber_splits_surrogate_pairs :
  let plate := JS.of_units [0x41; 0x42; 0xD801; 0xDC28]%N in
  JS.units (formatPlateNumber plate) = [0x41; 0x42; 0xD801; 0x20; 0xDC28]%N
  /\ JS.units (cleanPlate (formatPlateNumber plate)) = [0x41; 0x42; 0xD801; 0xDC28]%N
  /\ JS.units (cleanPlate plate) = [0x41; 0x42; 0xD801; 0xDC00]%N.
Proof. vm_compute. repeat split; reflexivity. Qed.

(** ** The license-plate manager: checks and list shape *)

Section ManagerLists.

Implicit Types (l : list LicensePlate) (plateId : string).

Lemma promote_first_identity l : plate_identity <$> promote_first l = plate_identity <$> l.
Proof. by destruct l. Qed.

Lemma promote_first_key l : plate_key <$> promote_first l = plate_key <$> l.
Proof. by destruct l. Qed.

Lemma remove_updatedPlates_identity plateId l :
  plate_identity <$> remove_updatedPlates plateId l
  = plate_identity <$> without_plate plateId l.
Proof.
  unfold remove_updatedPlates. destruct (promotes plateId l); [|done].
  apply promote_first_identity.
Qed.

Lemma without_plate_gone plateId l : plateId ∉ lp_id <$> without_plate plateId l.
Proof.
  intros (q & Hq & Hin)%list_elem_of_fmap.
  apply list_elem_of_In, filter_In in Hin as [_ Hne].
  apply negb_true_iff, bool_decide_eq_false in Hne. done.
Qed.

Lemma setDefault_identity plateId l :
  plate_identity <$> setDefault_updatedPlates plateId l = plate_identity <$> l.
Proof. unfold setDefault_updatedPlates. by rewrite <- list_fmap_compose. Qed.

Lemma setDefault_key plateId l :
  plate_key <$> setDefault_updatedPlates plateId l = plate_key <$> l.
Proof. unfold setDefault_updatedPlates. by rewrite <- list_fmap_compose. Qed.

Lemma setDefault_last_wins a b l :
  setDefault_updatedPlates b (setDefault_updatedPlates a l) = setDefault_updatedPlates b l.
Proof.
  unfold setDefault_updatedPlates. rewrite List.map_map. by apply List.map_ext.
Qed.

Lemma setDefault_flags plateId l plate :
  plate ∈ setDefault_updatedPlates plateId l ->
  isDefault plate = bool_decide (lp_id plate = plateId).
Proof.
  unfold setDefault_updatedPlates.
  intros Hin. apply list_elem_of_In, in_map_iff in Hin as (q & <- & _). done.
Qed.

Lemma wellformed_filter (f : LicensePlate -> bool) l :
  plates_wellformed l -> plates_wellformed (List.filter f l).
Proof.
  intros [Hnd Hall]. split.
  - clear Hall. induction l as [|p l IH]; simpl; [done|].
    rewrite fmap_cons, NoDup_cons in Hnd. destruct Hnd as [Hp Hl].
    destruct (f p); [|by apply IH]. rewrite fmap_cons, NoDup_cons. split; [|by apply IH].
    intros (q & Hq & Hin)%list_elem_of_fmap. apply Hp, list_elem_of_fmap.
    exists q. split; [done|]. apply list_elem_of_In.
    by apply list_elem_of_In, filter_In in Hin as [Hin _].
  - apply Forall_forall. intros q Hin. rewrite Forall_forall in Hall. apply Hall.
    apply list_elem_of_In. by apply list_elem_of_In, filter_In in Hin as [Hin _].
Qed.

Lemma wellformed_same_keys l l' :
  plate_key <$> l' = plate_key <$> l -> plates_wellformed l -> plates_wellformed l'.
Proof.
  intros Hk [Hnd Hall]. split; [by rewrite Hk|].
  assert (Forall (fun k => validatePlateNumber k.1 = true /\ cleanPlate k.1 = k.1)
                 (plate_key <$> l')) as H.
  { rewrite Hk. apply Forall_fmap. eapply Forall_impl; [exact Hall|]. done. }
  apply Forall_fmap in H. eapply Forall_impl; [exact H|]. done.
Qed.

Lemma wellformed_add l id_ number state_ created flag :
  plates_wellformed l ->
  validatePlateNumber number = true -> cleanPlate number = number ->
  existsb (fun plate => bool_decide (plateNumber plate = number)
                        && bool_decide (lp_state plate = state_)) l = false ->
  plates_wellformed (l ++ [mkPlate id_ number state_ flag created]).
Proof.
  intros [Hnd Hall] Hv Hc Hdup. split.
  - rewrite fmap_app. apply NoDup_app. split; [done|]. split; [|apply NoDup_singleton].
    intros k Hk ->%list_elem_of_singleton.
    apply list_elem_of_fmap in Hk as (q & Hq & Hin).
    assert (existsb (fun plate => bool_decide (plateNumber plate = number)
                                  && bool_decide (lp_state plate = state_)) l = true) as Ht.
    { apply existsb_exists. exists q. split; [by apply list_elem_of_In|].
      unfold plate_key in Hq. simpl in Hq. injection Hq as Hn Hs.
      by rewrite !bool_decide_true. }
    congruence.
  - apply Forall_app. split; [done|]. by constructor.
Qed.

End ManagerLists.

Lemma addLicensePlate_success_checked st (w w' : World) st' msg :
  addLicensePlate st w = (Ok (st', Some ("Success", msg)), w') ->
  let cleaned := cleanPlate_manager (m_plateNumber st) in
  validatePlateNumber cleaned = true
  /\ existsb (fun plate => bool_decide (plateNumber plate = cleaned)
                           && bool_decide (lp_state plate = m_selectedState st))
             (m_licensePlates st) = false
  /\ exists id_ created,
      m_licensePlates st'
      = add_updatedPlates (m_licensePlates st) id_ cleaned (m_selectedState st) created.
Proof.
  unfold addLicensePlate.
  destruct (signed_in_uid (m_user st)) as [uid_|]; [|done].
  destruct (validatePlateNumber _) eqn:Hv; [|done]. simpl.
  destruct (existsb _ _) eqn:Hd; [done|].
  unfold dateNow. unfold_M.
  destruct (write_licensePlates uid_ _ _) as [[[]|e] w1]; [|done].
  intros [= <- _ <-]. simpl. split; [done|]. split; [done|]. by do 2 eexists.
Qed.

(** X12. The manager keeps its list well formed: if no two plates share
    number and state and every number is a validated, normalised plate, the
    same holds for the list held after any add, remove or set-default that
    reports success. *)
Theorem plate_operations_keep_wellformed
        (st st' : PlateManager) (w w' : World) (msg : string) :
  plates_wellformed (m_licensePlates st) ->
  (addLicensePlate st w = (Ok (st', Some ("Success", msg)), w') ->
   plates_wellformed (m_licensePlates st'))
  /\
  (forall plateId confirmed,
      removeLicensePlate plateId confirmed st w = (Ok (st', Some ("Success", msg)), w') ->
      plates_wellformed (m_licensePlates st'))
  /\
  (forall plateId,
      setDefaultPlate plateId st w = (Ok (st', Some ("Success", msg)), w') ->
      plates_wellformed (m_licensePlates st')).
Proof.
  intros Hwf. split; [|split].
  - intros (Hv & Hd & id_ & created & ->)%addLicensePlate_success_checked.
    unfold add_updatedPlates. apply wellformed_add; try done.
    apply validated_cleanPlate_fixed. by rewrite <- validatePlateNumber_cleaned.
  - intros plateId confirmed (uid_ & _ & -> & _)%removeLicensePlate_success.
    unfold remove_updatedPlates. destruct (promotes _ _).
    + eapply wellformed_same_keys; [apply promote_first_key|]. by apply wellformed_filter.
    + by apply wellformed_filter.
  - intros plateId (uid_ & _ & -> & _)%setDefaultPlate_success.
    eapply wellformed_same_keys; [apply setDefault_key|done].
Qed.

Lemma plate_operations_keep_wellformed_witness :
  plates_wellformed
    [plateABC; plateXYZ; mkPlate "1700000000000" "DEF456" "CA" false 1700000000001].
Proof.
  pose (l := [plateABC; plateXYZ]).
  pose (r := addLicensePlate (manager l) (world_plates quiet l)).
  assert (plates_wellformed (m_licensePlates (manager l))) as Hwf.
  { split; [apply (bool_decide_unpack _); vm_compute; exact I|].
    repeat constructor; vm_compute; reflexivity. }
  apply (proj1 (plate_operations_keep_wellformed
                  (manager l)
                  (mkManager (Some driver)
                             [plateABC; plateXYZ;
                              mkPlate "1700000000000" "DEF456" "CA" false 1700000000001]
                             "" "CA" false)
                  (world_plates quiet l) (snd r) "License plate added successfully" Hwf)).
  transitivity (fst r, snd r); [apply surjective_pairing|].
  apply (f_equal (fun x => (x, snd r))). vm_compute. reflexivity.
Defined.

(** X13. [addLicensePlate] changes nothing when it refuses: without a
    signed-in user it returns silently; a plate that fails validation raises
    'Invalid Plate Number'; a plate whose normalised number and state are
    already in the list raises 'Duplicate Plate', however the input was
    cased or spaced. In none of these cases is a remote call made. When the
    write itself is rejected, the list held is unchanged and so is the
    stored document. *)
Theorem addLicensePlate_rejections (st : PlateManager) (w : World) :
  (signed_in_uid (m_user st) = None -> addLicensePlate st w = (Ok (st, None), w))
  /\
  (forall uid_,
      signed_in_uid (m_user st) = Some uid_ ->
      validatePlateNumber (m_plateNumber st) = false ->
      addLicensePlate st w
      = (Ok (st, Some ("Invalid Plate Number",
                       "Please enter a valid license plate number (2-8 characters, letters and numbers only)")),
         w))
  /\
  (forall uid_ plate,
      signed_in_uid (m_user st) = Some uid_ ->
      validatePlateNumber (m_plateNumber st) = true ->
      plate ∈ m_licensePlates st ->
      plateNumber plate = cleanPlate (m_plateNumber st) ->
      lp_state plate = m_selectedState st ->
      addLicensePlate st w
      = (Ok (st, Some ("Duplicate Plate", "This license plate is already registered")), w))
  /\
  (forall uid_,
      signed_in_uid (m_user st) = Some uid_ ->
      validatePlateNumber (m_plateNumber st) = true ->
      (forall plate, plate ∈ m_licensePlates st ->
                     plate_key plate <> (cleanPlate (m_plateNumber st), m_selectedState st)) ->
      faults (env w) (calls w) = true ->
      exists w',
        addLicensePlate st w = (Ok (st, Some ("Error", "Failed to add license plate")), w')
        /\ users w' = users w).
Proof.
  assert (validatePlateNumber (cleanPlate_manager (m_plateNumber st))
          = validatePlateNumber (m_plateNumber st)) as Hval.
  { apply validatePlateNumber_cleaned. }
  split; [|split; [|split]].
  - intros Hu. unfold addLicensePlate. by rewrite Hu.
  - intros uid_ Hu Hv. unfold addLicensePlate. by rewrite Hu, Hval, Hv.
  - intros uid_ plate Hu Hv Hin Hn Hs. unfold addLicensePlate. rewrite Hu, Hval, Hv. simpl.
    assert (existsb (fun plate0 =>
                       bool_decide (plateNumber plate0 = cleanPlate_manager (m_plateNumber st))
                       && bool_decide (lp_state plate0 = m_selectedState st))
                    (m_licensePlates st) = true) as ->; [|done].
    apply existsb_exists. exists plate. split; [by apply list_elem_of_In|].
    rewrite cleanPlate_manager_eq by (by apply validatePlateNumber_well_formed).
    by rewrite !bool_decide_true.
  - intros uid_ Hu Hv Hnodup Hf. unfold addLicensePlate. rewrite Hu, Hval, Hv. simpl.
    assert (existsb (fun plate0 =>
                       bool_decide (plateNumber plate0 = cleanPlate_manager (m_plateNumber st))
                       && bool_decide (lp_state plate0 = m_selectedState st))
                    (m_licensePlates st) = false) as ->.
    { apply not_true_is_false. intros (q & Hq & Hk)%existsb_exists.
      apply andb_true_iff in Hk as [Hn%bool_decide_eq_true Hs%bool_decide_eq_true].
      apply (Hnodup q); [by apply list_elem_of_In|].
      unfold plate_key.
      by rewrite Hn, Hs, cleanPlate_manager_eq by (by apply validatePlateNumber_well_formed). }
    unfold write_licensePlates, updateDoc, dateNow, remote. unfold_M. simpl.
    rewrite Hf. by eexists.
Qed.

Lemma addLicensePlate_rejections_witness :
  let l := [plateABC; plateXYZ] in
  addLicensePlate (mkManager (Some driver) l "abc 123" "CA" true) (world_plates quiet l)
  = (Ok (mkManager (Some driver) l "abc 123" "CA" true,
         Some ("Duplicate Plate", "This license plate is already registered")),
     world_plates quiet l)
  /\
  (exists w',
      addLicensePlate (manager l) (world_plates first_call_fails l)
      = (Ok (manager l, Some ("Error", "Failed to add license plate")), w')
      /\ users w' = users (world_plates first_call_fails l)).
Proof.
  intros l. split.
  - apply (proj1 (proj2 (proj2 (addLicensePlate_rejections
                                  (mkManager (Some driver) l "abc 123" "CA" true)
                                  (world_plates quiet l))))
                 "driver1" plateABC).
    + reflexivity.
    + vm_compute. reflexivity.
    + by left.
    + vm_compute. reflexivity.
    + reflexivity.
  - apply (proj2 (proj2 (proj2 (addLicensePlate_rejections
                                  (manager l) (world_plates first_call_fails l))))
                 "driver1").
    + reflexivity.
    + vm_compute. reflexivity.
    + intros plate Hin. apply list_elem_of_In in Hin.
      destruct Hin as [<-|[<-|[]]]; vm_compute; discriminate.
    + reflexivity.
Defined.

(** X14. Removing a plate removes by id and nothing else: cancelling the
    confirmation changes nothing and makes no remote call; after a removal
    that reports success the list held no longer has a plate with that id,
    and apart from the default flag it is the old list without the plates of
    that id, in the same order; an id that was not in the list leaves the
    list exactly as it was. *)
Theorem removeLicensePlate_shape
        (plateId : string) (st st' : PlateManager) (w w' : World) (msg : string) :
  removeLicensePlate plateId false st w = (Ok (st, None), w)
  /\
  (forall confirmed,
      removeLicensePlate plateId confirmed st w = (Ok (st', Some ("Success", msg)), w') ->
      (plateId ∉ lp_id <$> m_licensePlates st')
      /\ plate_identity <$> m_licensePlates st'
         = plate_identity <$> without_plate plateId (m_licensePlates st)
      /\ (length (m_licensePlates st') <= length (m_licensePlates st))%nat
      /\ (plateId ∉ lp_id <$> m_licensePlates st ->
          m_licensePlates st' = m_licensePlates st)).
Proof.
  split.
  - unfold removeLicensePlate. by destruct (signed_in_uid (m_user st)).
  - intros confirmed (uid_ & _ & -> & _)%removeLicensePlate_success.
    split; [|split; [|split]].
    + unfold remove_updatedPlates. destruct (promotes _ _);
        [rewrite promote_first_ids|]; apply without_plate_gone.
    + apply remove_updatedPlates_identity.
    + rewrite <- (length_fmap plate_identity), remove_updatedPlates_identity, length_fmap.
      unfold without_plate. apply filter_length_le.
    + intros Hnot. destruct (unlisted_plate _ _ Hnot) as (Hf & Hw & _).
      unfold remove_updatedPlates, promotes. by rewrite Hf, Hw.
Qed.

Lemma removeLicensePlate_shape_witness :
  let l := [plateABC; plateXYZ] in
  let r := removeLicensePlate "2" true (manager l) (world_plates quiet l) in
  ("2" ∉ lp_id <$> plates_after r)
  /\ plate_identity <$> plates_after r = plate_identity <$> [plateABC].
Proof.
  intros l r.
  assert (r = (Ok (manager [plateABC], Some ("Success", "License plate removed successfully")),
               snd r)) as Hr.
  { transitivity (fst r, snd r); [apply surjective_pairing|].
    apply (f_equal (fun x => (x, snd r))). vm_compute. reflexivity. }
  destruct (proj2 (removeLicensePlate_shape "2" (manager l) (manager [plateABC])
                                            (world_plates quiet l) (snd r)
                                            "License plate removed successfully")
                  true Hr) as (Hgone & Hid & _).
  assert (plates_after r = [plateABC]) as -> by (vm_compute; reflexivity).
  split; [exact Hgone|exact Hid].
Defined.

(** X15. Set-default only moves the flag, and the last choice wins: after
    two set-defaults in a row that report success, the list held, which is
    also the stored one, is the original list with the flag on exactly the
    plates bearing the second id; ids, numbers, states and order are those
    of the original list. *)
Theorem setDefaultPlate_last_wins
        (a b : string) (st st1 st2 : PlateManager) (w w1 w2 : World) (m1 m2 : string) :
  setDefaultPlate a st w = (Ok (st1, Some ("Success", m1)), w1) ->
  setDefaultPlate b st1 w1 = (Ok (st2, Some ("Success", m2)), w2) ->
  m_licensePlates st2 = setDefault_updatedPlates b (m_licensePlates st)
  /\ plate_identity <$> m_licensePlates st2 = plate_identity <$> m_licensePlates st
  /\ (forall plate, plate ∈ m_licensePlates st2 ->
                    isDefault plate = bool_decide (lp_id plate = b))
  /\ (exists uid_, stored_plates uid_ w2 = m_licensePlates st2).
Proof.
  intros (uid1 & _ & H1 & _)%setDefaultPlate_success
         (uid2 & _ & H2 & Hs)%setDefaultPlate_success.
  rewrite H1, setDefault_last_wins in H2. rewrite H2 in *.
  split; [done|]. split; [apply setDefault_identity|].
  split; [apply setDefault_flags|]. by exists uid2.
Qed.

Lemma setDefaultPlate_last_wins_witness :
  let l := [plateABC; plateXYZ] in
  let r1 := setDefaultPlate "2" (manager l) (world_plates quiet l) in
  let r2 := setDefaultPlate "1" (manager (plates_after r1)) (snd r1) in
  plates_after r2 = setDefault_updatedPlates "1" l.
Proof.
  intros l r1 r2.
  pose (l1 := setDefault_updatedPlates "2" l).
  pose (l2 := setDefault_updatedPlates "1" l1).
  assert (r1 = (Ok (manager l1, Some ("Success", "Default license plate updated")), snd r1))
    as Hr1.
  { transitivity (fst r1, snd r1); [apply surjective_pairing|].
    apply (f_equal (fun x => (x, snd r1))). vm_compute. reflexivity. }
  assert (setDefaultPlate "1" (manager l1) (snd r1)
          = (Ok (manager l2, Some ("Success", "Default license plate updated")), snd r2))
    as Hr2.
  { transitivity (fst r2, snd r2); [apply surjective_pairing|].
    apply (f_equal (fun x => (x, snd r2))). vm_compute. reflexivity. }
  destruct (setDefaultPlate_last_wins "2" "1" (manager l) (manager l1) (manager l2)
                                      (world_plates quiet l) (snd r1) (snd r2) _ _ Hr1 Hr2)
    as (Hl & _).
  assert (plates_after r2 = l2) as -> by (vm_compute; reflexivity).
  exact Hl.
Defined.

(** ** Verification records *)

(** X16. A status update for one booking never touches anything else,
    whether the store answers or not: bookings, payments and users stay as
    they are, no verification record is created or deleted, no record's
    booking, plate or state changes, and every record of another booking is
    left exactly as it was. *)
Theorem updateLicensePlateVerification_frame
        (bookingId : string) (status : VerificationStatus) (verifiedBy : VerifiedBy)
        (method : VerificationMethod) (notes : option string) (w : World) :
  let w' := snd (updateLicensePlateVerification bookingId status verifiedBy method notes w) in
  bookings w' = bookings w
  /\ payments w' = payments w
  /\ users w' = users w
  /\ (forall vid, verifications w' !! vid = None <-> verifications w !! vid = None)
  /\ (forall vid v,
         verifications w !! vid = Some v ->
         exists v',
           verifications w' !! vid = Some v'
           /\ v_booking_id v' = v_booking_id v
           /\ v_license_plate v' = v_license_plate v
           /\ v_license_plate_state v' = v_license_plate_state v
           /\ v_created_at v' = v_created_at v
           /\ (v_booking_id v <> bookingId -> v' = v)).
Proof.
  intros w'. subst w'. rewrite updateLicensePlateVerification_throws. simpl.
  split; [done|]. split; [done|]. split; [done|]. split; [done|].
  intros vid v Hv. exists v. by repeat split.
Qed.

Lemma updateLicensePlateVerification_frame_witness :
  let w' := snd (updateLicensePlateVerification "A" Verified ByHost Manual None
                                                world_two_records) in
  exists v', verifications w' !! "verB" = Some v' /\ v' = verificationB.
Proof.
  intros w'.
  destruct (updateLicensePlateVerification_frame "A" Verified ByHost Manual None
                                                 world_two_records)
    as (_ & _ & _ & _ & Hrec).
  destruct (Hrec "verB" verificationB) as (v' & Hv & _ & _ & _ & _ & Hsame).
  - vm_compute. reflexivity.
  - exists v'. split; [exact Hv|]. apply Hsame. discriminate.
Defined.

(** ** Automatic verification: errors and the component *)

(** The automatic check never throws, never reports success and never
    writes: where it would report a full match it first calls the status
    update, which throws. *)
Lemma verifyLicensePlateForBooking_never_succeeds bookingId plate state_ (w : World) :
  exists res,
    fst (verifyLicensePlateForBooking bookingId plate state_ w) = Ok res
    /\ success res = false
    /\ verifications (snd (verifyLicensePlateForBooking bookingId plate state_ w))
       = verifications w
    /\ bookings (snd (verifyLicensePlateForBooking bookingId plate state_ w)) = bookings w.
Proof.
  unfold verifyLicensePlateForBooking, getDoc, remote. unfold_M.
  destruct (faults (env w) (calls w)); simpl; [by eexists|].
  destruct (bookings w !! bookingId) as [b|]; simpl; [|by eexists].
  destruct (_ && _); simpl; [by eexists|].
  destruct (_ && _); simpl; by eexists.
Qed.

Lemma verifyLicensePlateForBooking_never_throws bookingId plate state_ (w : World) :
  exists res, fst (verifyLicensePlateForBooking bookingId plate state_ w) = Ok res.
Proof.
  destruct (verifyLicensePlateForBooking_never_succeeds bookingId plate state_ w)
    as (res & Hr & _).
  by exists res.
Qed.

(** X17. [verifyLicensePlateForBooking] never throws: every failure comes
    back as an unsuccessful result. For a booking that does not exist the
    result is 'Booking not found', without confidence, and no verification
    record is touched; when the store rejects the booking read the result is
    'Error during verification process', again without confidence and
    without a record touched. *)
Theorem verifyLicensePlateForBooking_errors
        (bookingId providedLicensePlate providedState : string) (w : World) :
  let r := verifyLicensePlateForBooking bookingId providedLicensePlate providedState w in
  (exists res, fst r = Ok res)
  /\
  (available w -> bookings w !! bookingId = None ->
   fst r = Ok (mkResult false "Booking not found" None None)
   /\ verifications (snd r) = verifications w)
  /\
  (faults (env w) (calls w) = true ->
   fst r = Ok (mkResult false "Error during verification process" None None)
   /\ verifications (snd r) = verifications w).
Proof.
  intros r. subst r. split; [apply verifyLicensePlateForBooking_never_throws|]. split.
  - intros Hav Hb. unfold verifyLicensePlateForBooking. run_available Hav. by rewrite Hb.
  - intros Hf. unfold verifyLicensePlateForBooking, getDoc, remote. unfold_M.
    by rewrite Hf.
Qed.

Lemma verifyLicensePlateForBooking_errors_witness :
  fst (verifyLicensePlateForBooking "Z" "ABC123" "CA" world_A_verifying)
  = Ok (mkResult false "Booking not found" None None)
  /\ fst (verifyLicensePlateForBooking "A" "ABC123" "CA"
                                       (mkWorld first_call_fails 0 0 0 (Some "host1") ∅
                                                {[ "A" := bookingA ]} ∅ ∅))
     = Ok (mkResult false "Error during verification process" None None).
Proof.
  split.
  - apply (proj1 (proj2 (verifyLicensePlateForBooking_errors
                           "Z" "ABC123" "CA" world_A_verifying))).
    + intros n. reflexivity.
    + vm_compute. reflexivity.
  - apply (proj2 (proj2 (verifyLicensePlateForBooking_errors
                           "A" "ABC123" "CA"
                           (mkWorld first_call_fails 0 0 0 (Some "host1") ∅
                                    {[ "A" := bookingA ]} ∅ ∅)))).
    reflexivity.
Defined.

(** What [loadVerificationData] does, in every world: one read of the
    booking; the verification it then shows is [null]. *)
Lemma loadVerificationData_result bookingId st (w : World) :
  loadVerificationData bookingId st w
  = (if faults (env w) (calls w)
     then Ok (st, Some ("Error", "Failed to load verification data"))
     else Ok (mkVerificationScreen
                (vs_user st)
                (match bookings w !! bookingId with
                 | Some b => Some b
                 | None => vs_bookingData st
                 end)
                None (vs_manualNotes st) (vs_showManualVerification st),
              None),
     set_calls (S (calls w)) w).
Proof.
  unfold loadVerificationData, getDoc, remote. unfold_M.
  by destruct (faults (env w) (calls w)).
Qed.

Lemma verifyLicensePlateForBooking_js_never_succeeds bookingId plate state_ (w : World) :
  exists res,
    fst (verifyLicensePlateForBooking_js bookingId plate state_ w) = Ok res
    /\ success res = false
    /\ verifications (snd (verifyLicensePlateForBooking_js bookingId plate state_ w))
       = verifications w.
Proof.
  unfold verifyLicensePlateForBooking_js.
  destruct plate as [p|], state_ as [s|];
    try (unfold getDoc, remote; unfold_M;
         destruct (faults (env w) (calls w)); simpl; [by eexists|];
         destruct (bookings w !! bookingId); simpl; by eexists).
  destruct (verifyLicensePlateForBooking_never_succeeds bookingId p s w)
    as (res & Hr & Hs & Hv & _).
  by exists res.
Qed.

(** A booking checked against its own plate and state: the comparison
    succeeds and the status update that follows throws. *)
Lemma verifyLicensePlateForBooking_own_values bookingId p s (w : World) b :
  faults (env w) (calls w) = false ->
  bookings w !! bookingId = Some b ->
  license_plate b = Some p ->
  license_plate_state b = Some s ->
  fst (verifyLicensePlateForBooking bookingId p s w)
  = Ok (mkResult false "Error during verification process" None None).
Proof.
  intros Hf Hb Hp Hs.
  unfold verifyLicensePlateForBooking, getDoc, remote. unfold_M. rewrite Hf. simpl.
  rewrite Hb, Hp, Hs. simpl. rewrite !bool_decide_eq_true_2 by done. reflexivity.
Qed.

(** X18. The component's automatic check can never succeed. Whenever the
    component holds a booking, [handleAutomaticVerification] raises
    'Verification Failed' as its first alert, in every world, and no
    verification record is touched. In particular, when the component holds
    the booking as it is stored and the store answers the read, the check
    compares the booking's plate and state with themselves and still fails,
    with the text 'Error during verification process'. *)
Theorem handleAutomaticVerification_never_succeeds
        (bookingId : string) (st : VerificationScreen) (w : World) (b : Booking) :
  vs_bookingData st = Some b ->
  let r := handleAutomaticVerification bookingId st w in
  verifications (snd r) = verifications w
  /\ (exists st' text more, fst r = Ok (st', ("Verification Failed", text) :: more))
  /\ (faults (env w) (calls w) = false ->
      bookings w !! bookingId = Some b ->
      exists st' more,
        fst r = Ok (st', ("Verification Failed", "Error during verification process")
                         :: more)).
Proof.
  intros Hst r. subst r. unfold handleAutomaticVerification. rewrite Hst. unfold_M.
  destruct (verifyLicensePlateForBooking_js_never_succeeds
              bookingId (license_plate b) (license_plate_state b) w)
    as (res & Hr & Hs & Hv).
  destruct (verifyLicensePlateForBooking_js bookingId (license_plate b)
                                            (license_plate_state b) w)
    as [[res'|e] w1] eqn:Hjs; simpl in Hr, Hv; [|done].
  injection Hr as ->. rewrite Hs, loadVerificationData_result.
  split; [|split].
  - by destruct (faults (env w1) (calls w1)).
  - destruct (faults (env w1) (calls w1)); by eexists _, _, _.
  - intros Hf Hb.
    assert (message res = "Error during verification process") as ->.
    { revert Hjs. unfold verifyLicensePlateForBooking_js.
      destruct (license_plate b) as [p|] eqn:Hp, (license_plate_state b) as [s|] eqn:Hstate.
      - intros Hjs.
        pose proof (verifyLicensePlateForBooking_own_values
                      bookingId p s w b Hf Hb Hp Hstate) as Hfull.
        rewrite Hjs in Hfull. simpl in Hfull. by injection Hfull as ->.
      - unfold getDoc, remote. unfold_M. rewrite Hf. simpl. rewrite Hb. simpl.
        by intros [= <- _].
      - unfold getDoc, remote. unfold_M. rewrite Hf. simpl. rewrite Hb. simpl.
        by intros [= <- _].
      - unfold getDoc, remote. unfold_M. rewrite Hf. simpl. rewrite Hb. simpl.
        by intros [= <- _]. }
    destruct (faults (env w1) (calls w1)); by eexists _, _.
Qed.

Lemma handleAutomaticVerification_never_succeeds_witness :
  let r := handleAutomaticVerification "A" (verification_screen (Some bookingA))
                                       world_A_verifying in
  (exists st' more,
      fst r = Ok (st', ("Verification Failed", "Error during verification process") :: more))
  /\ verifications (snd r) !! "verA" = Some verificationA.
Proof.
  intros r.
  destruct (handleAutomaticVerification_never_succeeds
              "A" (verification_screen (Some bookingA)) world_A_verifying bookingA eq_refl)
    as (Hv & _ & Hmsg).
  split.
  - apply Hmsg; [reflexivity|vm_compute; reflexivity].
  - subst r. rewrite Hv. vm_compute. reflexivity.
Defined.

(** ** Verification records: written, never read *)

(** X19. A verification record is created but cannot be read back. When
    the store accepts the write, [createLicensePlateVerification] stores a
    new record for the booking, with the normalised plate, the uppercased
    state, status [pending] and the system as verifier, and nothing else
    changes among the records; but [getLicensePlateVerification] answers
    [null] for the booking right after, as it does in every world, and asks
    nothing of the store. *)
Theorem created_verification_is_not_read_back
        (bookingId licensePlate licensePlateState : string) (w : World) :
  faults (env w) (calls w) = false ->
  exists vid w1 v,
    createLicensePlateVerification bookingId licensePlate licensePlateState w = (Ok vid, w1)
    /\ verifications w !! vid = None
    /\ verifications w1 = <[vid := v]> (verifications w)
    /\ (vid, v) ∈ records_of w1 bookingId
    /\ v_booking_id v = bookingId
    /\ v_license_plate v = cleanPlate licensePlate
    /\ v_license_plate_state v = JS.toUpperCase licensePlateState
    /\ verification_status v = Pending
    /\ verified_by v = BySystem
    /\ verification_method v = Automatic
    /\ getLicensePlateVerification bookingId w1 = (Ok None, w1).
Proof.
  intros Hf.
  set (vid := fresh_string "doc" (verifications w)).
  assert (verifications w !! vid = None) as Hfresh by apply fresh_string_fresh.
  eexists vid, _, _.
  split.
  { unfold createLicensePlateVerification, addDoc, dateNow, remote. unfold_M. simpl.
    rewrite Hf. reflexivity. }
  split; [done|]. split; [reflexivity|]. split.
  { unfold records_of. simpl. apply list_elem_of_In, filter_In. split.
    - apply list_elem_of_In, elem_of_map_to_list. fold vid. apply lookup_insert_eq.
    - unfold of_booking. simpl. by apply bool_decide_true. }
  repeat split.
Qed.

Lemma created_verification_is_not_read_back_witness :
  exists vid w1 v,
    createLicensePlateVerification "A" "abc 123" "ca" (world_A quiet) = (Ok vid, w1)
    /\ verifications w1 !! vid = Some v
    /\ v_license_plate v = "ABC123"
    /\ v_license_plate_state v = "CA"
    /\ fst (getLicensePlateVerification "A" w1) = Ok None.
Proof.
  destruct (created_verification_is_not_read_back "A" "abc 123" "ca" (world_A quiet) eq_refl)
    as (vid & w1 & v & Hc & _ & Hw1 & _ & _ & Hp & Hs & _ & _ & _ & Hg).
  exists vid, w1, v. rewrite Hp, Hs, Hg, Hw1, lookup_insert_eq.
  split; [exact Hc|]. split; [done|]. split; [vm_compute; reflexivity|].
  split; [vm_compute; reflexivity|done].
Defined.

(** X20. The verification component never shows a verification record.
    [loadVerificationData] never throws and writes nothing. When the store
    rejects the read of the booking it raises 'Failed to load verification
    data' and keeps its state; otherwise it keeps the booking it read, if
    there is one, and sets the verification it shows to [null], whatever
    records the store holds for the booking. *)
Theorem loadVerificationData_shows_no_record
        (bookingId : string) (st : VerificationScreen) (w : World) :
  let r := loadVerificationData bookingId st w in
  verifications (snd r) = verifications w
  /\ bookings (snd r) = bookings w
  /\ (faults (env w) (calls w) = true ->
      fst r = Ok (st, Some ("Error", "Failed to load verification data")))
  /\ (faults (env w) (calls w) = false ->
      exists st',
        fst r = Ok (st', None)
        /\ vs_verification st' = None
        /\ vs_bookingData st' = (match bookings w !! bookingId with
                                 | Some b => Some b
                                 | None => vs_bookingData st
                                 end)
        /\ vs_manualNotes st' = vs_manualNotes st).
Proof.
  intros r. subst r. rewrite loadVerificationData_result.
  destruct (faults (env w) (calls w)); simpl.
  - repeat split; done.
  - split; [done|]. split; [done|]. split; [done|]. intros _. by eexists.
Qed.

Lemma loadVerificationData_shows_no_record_witness :
  exists st',
    fst (loadVerificationData "A" (verification_screen None) world_A_verifying)
    = Ok (st', None)
    /\ vs_verification st' = None
    /\ vs_bookingData st' = Some bookingA
    /\ records_of world_A_verifying "A" = [("verA", verificationA)].
Proof.
  destruct (proj2 (proj2 (proj2 (loadVerificationData_shows_no_record
                                   "A" (verification_screen None) world_A_verifying)))
                  eq_refl)
    as (st' & Hr & Hv & Hb & _).
  exists st'. split; [exact Hr|]. split; [exact Hv|]. split.
  - rewrite Hb. vm_compute. reflexivity.
  - vm_compute. reflexivity.
Defined.

(** ** The verification component: the manual decision *)

(** X21. The component's manual decision always fails. For a signed-in
    user, whatever the decision, the notes and the world,
    [handleManualVerification] raises the single alert 'Failed to update
    verification', asks nothing of the store, and keeps its state: the notes
    stay and the form stays open. It never raises 'Verification Updated'. *)
Theorem handleManualVerification_always_fails
        (bookingId : string) (isVerified : bool) (st : VerificationScreen) (w : World)
        (uid_ : string) :
  signed_in_uid (vs_user st) = Some uid_ ->
  handleManualVerification bookingId isVerified st w
  = (Ok (st, [("Error", "Failed to update verification")]), w).
Proof.
  intros Hu. unfold handleManualVerification. rewrite Hu. unfold_M.
  unfold manualLicensePlateVerification.
  by rewrite updateLicensePlateVerification_throws.
Qed.

Lemma handleManualVerification_always_fails_witness :
  handleManualVerification "A" true (verification_screen (Some bookingA)) world_A_verifying
  = (Ok (verification_screen (Some bookingA), [("Error", "Failed to update verification")]),
     world_A_verifying).
Proof. by apply (handleManualVerification_always_fails _ _ _ _ "host1"). Defined.

(** ** The booking flow and the store *)

Lemma find_head_filter {A} (f : A -> bool) (l : list A) :
  List.find f l = head (List.filter f l).
Proof. induction l as [|x l IH]; simpl; [done|]. by destruct (f x). Qed.

Lemma filter_nil_inv {A} (f : A -> bool) (l : list A) x :
  List.filter f l = [] -> In x l -> f x = false.
Proof.
  intros Hf Hin. destruct (f x) eqn:Hx; [|done].
  assert (In x (List.filter f l)) as H by (by apply filter_In).
  by rewrite Hf in H.
Qed.

Lemma overlaps_comm (a b : Interval) : overlaps a b = overlaps b a.
Proof. unfold overlaps. rewrite !Z.gtb_ltb. apply andb_comm. Qed.

Lemma ready_or_not (slotDate : Z -> string -> option Z) (st : ListingDetail) :
  not_ready slotDate st
  \/ exists u plate startDate endDate, ready slotDate st u plate startDate endDate.
Proof.
  unfold not_ready, ready.
  destruct (user st) as [u|]; [|left; by intros ???? (? & _)].
  destruct (selectedLicensePlate st) as [plate|]; [|left; by intros ???? (_ & ? & _)].
  destruct (selectedDate st) as [day|];
    [|left; by intros ???? (_ & _ & (? & ? & ? & _) & _)].
  destruct (selectedTimeSlot st) as [slot|];
    [|left; by intros ???? (_ & _ & (? & ? & _ & ? & _) & _)].
  destruct (slotDate day (startTime slot)) as [s|] eqn:Hs;
    [|left; intros ???? (_ & _ & (? & ? & [= <-] & [= <-] & ? & _) & _); congruence].
  destruct (slotDate day (endTime slot)) as [e|] eqn:He;
    [|left; intros ???? (_ & _ & (? & ? & [= <-] & [= <-] & _ & ?) & _); congruence].
  destruct (decide (s < e)) as [Hlt|Hge].
  - right. exists u, plate, s, e.
    split; [done|]. split; [done|]. split; [by exists day, slot|done].
  - left. intros ???? (_ & _ & (? & ? & [= <-] & [= <-] & ? & ?) & ?).
    assert (startDate = s) by congruence. assert (endDate = e) by congruence. lia.
Qed.

Lemma handleBooking_not_ready slotDate getOverlapping create st (w : World) :
  not_ready slotDate st ->
  exists outcome,
    handleBooking slotDate getOverlapping create st w = (Ok outcome, w)
    /\ forall bookingId bookingAmount, outcome <> PaymentModal bookingId bookingAmount.
Proof.
  intros Hnot. unfold handleBooking.
  destruct (user st) as [u|] eqn:Hu; [|by eexists].
  destruct (selectedDate st) as [day|] eqn:Hd; [|by eexists].
  destruct (selectedTimeSlot st) as [slot|] eqn:Hsl; [|by eexists].
  destruct (selectedLicensePlate st) as [plate|] eqn:Hp; [|by eexists].
  destruct (slotDate day (startTime slot)) as [s|] eqn:Hs; [|by eexists].
  destruct (slotDate day (endTime slot)) as [e|] eqn:He; [|by eexists].
  destruct (s >=? e) eqn:Hge; [by eexists|].
  exfalso. apply (Hnot u plate s e).
  split; [done|]. split; [done|]. split; [by exists day, slot|lia].
Qed.

Lemma createBooking_fails_stores_nothing (payload : Booking) (w w' : World) e :
  createBooking payload w = (Throw e, w') -> bookings w' = bookings w.
Proof.
  unfold createBooking, addDoc, remote.
  destruct (faults (env w) (calls w)); [|done]. by intros [= _ <-].
Qed.

(** X22. [handleBooking] never throws. As long as one of its checks fails
    (no user, no date or slot, no plate, an invalid date, a start not before
    the end) it calls neither function of lib/bookings and leaves the world
    as it was. With lib/bookings as the specification describes it, and
    whatever calls the store rejects: an outcome other than the payment sheet
    leaves the bookings as they were, and the payment sheet is opened for a
    booking that was not there before and is the only document added. *)
Theorem handleBooking_stores_only_with_modal
        (slotDate : Z -> string -> option Z) (st : ListingDetail) (w : World) :
  let r := handleBooking slotDate getOverlappingBookings createBooking st w in
  (forall getOverlapping create,
      exists outcome, fst (handleBooking slotDate getOverlapping create st w) = Ok outcome)
  /\ (forall getOverlapping create,
         not_ready slotDate st ->
         exists outcome,
           handleBooking slotDate getOverlapping create st w = (Ok outcome, w)
           /\ forall bookingId bookingAmount, outcome <> PaymentModal bookingId bookingAmount)
  /\ ((forall bookingId bookingAmount, fst r <> Ok (PaymentModal bookingId bookingAmount)) ->
      bookings (snd r) = bookings w)
  /\ (forall bookingId bookingAmount,
         fst r = Ok (PaymentModal bookingId bookingAmount) ->
         exists u plate startDate endDate,
           ready slotDate st u plate startDate endDate
           /\ bookings w !! bookingId = None
           /\ bookings (snd r)
              = <[bookingId := bookingData u (listing st) plate startDate endDate]>
                  (bookings w)).
Proof.
  intros r. subst r. split; [|split; [intros g c; by apply handleBooking_not_ready|]].
  - intros getOverlapping create. unfold handleBooking, try_catch.
    match goal with |- context [match ?c w with _ => _ end] => destruct (c w) as [[o|e] w'] end;
      by eexists.
  - destruct (ready_or_not slotDate st) as [Hnot|(u & plate & s & e & Hready)].
    + destruct (handleBooking_not_ready slotDate getOverlappingBookings createBooking st w Hnot)
        as (o & Hr & Ho).
      rewrite Hr. simpl. split; [done|]. intros id amt [= ->]. by destruct (Ho id amt).
    + rewrite (handleBooking_ready _ _ _ _ _ _ _ _ _ Hready).
      pose proof (getOverlappingBookings_reads_only
                    (or_string (l_id <$> listing st) "") s e w) as Hro.
      destruct (getOverlappingBookings (or_string (l_id <$> listing st) "") s e w)
        as [[found|err] w1] eqn:Hq; simpl in Hro.
      * rewrite (slot_taken_found _ _ _ _ _ _ _ Hq).
        destruct (bool_decide (0 < length found)%nat);
          [simpl; split; [done|intros ?? [=]]|].
        destruct (createBooking (bookingData u (listing st) plate s e) w1)
          as [[id|err] w2] eqn:Hc; simpl.
        -- split; [intros H; by destruct (H id (totalPrice (listing st) s e))|].
           intros id' amt [= <- <-]. apply createBooking_stores in Hc as [Hfresh Hst].
           exists u, plate, s, e. rewrite Hst, <- Hro. done.
        -- split; [|intros ?? [=]].
           intros _. apply createBooking_fails_stores_nothing in Hc. congruence.
      * rewrite (slot_taken_failed _ _ _ _ _ _ _ Hq).
        destruct (createBooking (bookingData u (listing st) plate s e) w1)
          as [[id|err'] w2] eqn:Hc; simpl.
        -- split; [intros H; by destruct (H id (totalPrice (listing st) s e))|].
           intros id' amt [= <- <-]. apply createBooking_stores in Hc as [Hfresh Hst].
           exists u, plate, s, e. rewrite Hst, <- Hro. done.
        -- split; [|intros ?? [=]].
           intros _. apply createBooking_fails_stores_nothing in Hc. congruence.
Qed.

Lemma handleBooking_stores_only_with_modal_witness :
  (exists outcome,
      handleBooking utcSlotDate getOverlappingBookings createBooking
                    (screen listing10 "11:00" "10:00") (world_A quiet)
      = (Ok outcome, world_A quiet))
  /\ bookings (snd (handleBooking utcSlotDate getOverlappingBookings createBooking
                                  (screen listing10 "09:30" "10:30") (world_A quiet)))
     = bookings (world_A quiet).
Proof.
  split.
  - destruct (proj1 (proj2 (handleBooking_stores_only_with_modal
                              utcSlotDate (screen listing10 "11:00" "10:00") (world_A quiet)))
                    getOverlappingBookings createBooking) as (o & Hr & _).
    + intros u plate s e (_ & _ & (day & slot & Hd & Hs & Hs1 & Hs2) & Hlt).
      injection Hd as <-. injection Hs as <-.
      vm_compute in Hs1. vm_compute in Hs2.
      injection Hs1 as <-. injection Hs2 as <-. vm_compute in Hlt. discriminate.
    + by exists o.
  - apply (proj1 (proj2 (proj2 (handleBooking_stores_only_with_modal
                                  utcSlotDate (screen listing10 "09:30" "10:30")
                                  (world_A quiet))))).
    intros id amt H. vm_compute in H. discriminate.
Defined.

(** X23. In a sequential run with the store answering, and with lib/bookings
    as the specification describes it, [handleBooking] keeps the bookings of
    each listing free of intersections: if no two stored bookings of one
    listing intersect before the call, none do after it, whatever the screen
    holds. *)
Theorem handleBooking_keeps_no_double_booking
        (slotDate : Z -> string -> option Z) (st : ListingDetail) (w : World) :
  available w ->
  no_double_booking (bookings w) ->
  no_double_booking
    (bookings (snd (handleBooking slotDate getOverlappingBookings createBooking st w))).
Proof.
  intros Hav Hinv.
  destruct (ready_or_not slotDate st) as [Hnot|(u & plate & s & e & Hready)].
  { destruct (handleBooking_not_ready slotDate getOverlappingBookings createBooking st w Hnot)
      as (o & Hr & _). by rewrite Hr. }
  rewrite (handleBooking_ready _ _ _ _ _ _ _ _ _ Hready).
  set (lid := or_string (l_id <$> listing st) "").
  set (f := fun d : string * Booking =>
              bool_decide (listing_id (snd d) = lid)
              && overlaps (booking_interval (snd d)) (mkInterval s e)).
  set (w1 := set_calls (S (calls w)) w).
  assert (getOverlappingBookings lid s e w
          = (Ok (List.filter f (map_to_list (bookings w))), w1)) as Hq.
  { unfold getOverlappingBookings, getDocs. by rewrite remote_available. }
  rewrite (slot_taken_found _ _ _ _ _ _ _ Hq).
  destruct (List.filter f (map_to_list (bookings w))) as [|d found] eqn:Hfound;
    [|exact Hinv].
  simpl.
  destruct (createBooking (bookingData u (listing st) plate s e) w1)
    as [[id|err] w2] eqn:Hc; simpl.
  2: { apply createBooking_fails_stores_nothing in Hc. rewrite Hc. exact Hinv. }
  apply createBooking_stores in Hc as [Hfresh Hst]. rewrite Hst.
  change (bookings w1) with (bookings w) in *.
  assert (forall j b, bookings w !! j = Some b -> listing_id b = lid ->
                      overlaps (booking_interval b) (mkInterval s e) = false) as Hfree.
  { intros j b Hj Hl.
    assert (f (j, b) = false) as Hf.
    { apply (filter_nil_inv f (map_to_list (bookings w)) (j, b) Hfound).
      by apply list_elem_of_In, elem_of_map_to_list. }
    unfold f in Hf. simpl in Hf. by rewrite bool_decide_true in Hf. }
  intros i j b1 b2 Hij Hi Hj Hl.
  destruct (decide (i = id)) as [->|Hi'].
  - rewrite lookup_insert_eq in Hi. injection Hi as <-.
    rewrite lookup_insert_ne in Hj by done.
    rewrite overlaps_comm. apply (Hfree j b2 Hj). by rewrite <- Hl.
  - rewrite lookup_insert_ne in Hi by done.
    destruct (decide (j = id)) as [->|Hj'].
    + rewrite lookup_insert_eq in Hj. injection Hj as <-.
      apply (Hfree i b1 Hi). by rewrite Hl.
    + rewrite lookup_insert_ne in Hj by done. by apply (Hinv i j).
Qed.

Lemma handleBooking_keeps_no_double_booking_witness :
  no_double_booking
    (bookings (snd (handleBooking utcSlotDate getOverlappingBookings createBooking
                                  (screen listing10 "10:00" "11:00") (world_A quiet)))).
Proof.
  apply handleBooking_keeps_no_double_booking.
  - intros n. reflexivity.
  - intros i j b1 b2 Hij Hi Hj _. unfold world_A in Hi, Hj. simpl in Hi, Hj.
    apply lookup_singleton_Some in Hi as [<- _].
    apply lookup_singleton_Some in Hj as [<- _]. done.
Defined.

(** ** The payments screen *)

Lemma loadBookingDetails_cons payment rest (acc : gmap string Booking) (w : World) :
  loadBookingDetails (payment :: rest) acc w
  = loadBookingDetails
      rest
      (if faults (env w) (calls w) then acc
       else match bookings w !! booking_id (snd payment) with
            | Some b => <[booking_id (snd payment) := b]> acc
            | None => acc
            end)
      (set_calls (S (calls w)) w).
Proof.
  simpl. unfold getDoc, remote. unfold_M.
  destruct (faults (env w) (calls w)); simpl; [done|].
  by destruct (bookings w !! booking_id (snd payment)).
Qed.

(** The loop never throws and only reads; what it collects are stored
    bookings of the payments it was given, all of them when the store
    answers. *)
Lemma loadBookingDetails_spec (userPayments : list (string * Payment)) :
  forall (acc : gmap string Booking) (w : World),
    acc ⊆ bookings w ->
    exists d w',
      loadBookingDetails userPayments acc w = (Ok d, w')
      /\ env w' = env w /\ bookings w' = bookings w /\ payments w' = payments w
      /\ acc ⊆ d /\ d ⊆ bookings w
      /\ (forall k, is_Some (d !! k) ->
                    is_Some (acc !! k)
                    \/ exists p, p ∈ userPayments /\ booking_id (snd p) = k)
      /\ (available w ->
          forall p b, p ∈ userPayments -> bookings w !! booking_id (snd p) = Some b ->
                      d !! booking_id (snd p) = Some b).
Proof.
  induction userPayments as [|p0 rest IH]; intros acc w Hacc.
  { exists acc, w. repeat split; try done.
    - by left.
    - intros _ p b Hp. by apply elem_of_nil in Hp. }
  rewrite loadBookingDetails_cons.
  set (acc' := if faults (env w) (calls w) then acc
               else match bookings w !! booking_id (snd p0) with
                    | Some b => <[booking_id (snd p0) := b]> acc
                    | None => acc
                    end).
  set (w1 := set_calls (S (calls w)) w).
  assert (acc ⊆ acc') as Hmono.
  { subst acc'. destruct (faults (env w) (calls w)); [done|].
    destruct (bookings w !! booking_id (snd p0)) as [b|] eqn:Hb; [|done].
    apply map_subseteq_spec. intros i x Hi.
    destruct (decide (i = booking_id (snd p0))) as [->|Hne].
    - rewrite lookup_insert_eq. pose proof (lookup_weaken _ _ _ _ Hi Hacc). congruence.
    - by rewrite lookup_insert_ne. }
  assert (acc' ⊆ bookings w1) as Hacc'.
  { subst acc'. change (bookings w1) with (bookings w).
    destruct (faults (env w) (calls w)); [done|].
    destruct (bookings w !! booking_id (snd p0)) as [b|] eqn:Hb; [|done].
    by apply insert_subseteq_l. }
  destruct (IH acc' w1 Hacc') as (d & w' & Hr & He & Hb & Hp & Hsub & Hsound & Hkeys & Hall).
  exists d, w'. split; [exact Hr|]. split; [exact He|]. split; [exact Hb|].
  split; [exact Hp|]. split; [by transitivity acc'|]. split; [exact Hsound|]. split.
  - intros k Hk. destruct (Hkeys k Hk) as [Hacck|(p & Hin & Hpk)].
    + subst acc'. destruct (faults (env w) (calls w)); [by left|].
      destruct (bookings w !! booking_id (snd p0)) as [b|]; [|by left].
      apply lookup_insert_is_Some' in Hacck as [<-|Hacck]; [|by left].
      right. exists p0. split; [by left|done].
    + right. exists p. split; [by right|done].
  - intros Hav p b Hin Hpb. apply elem_of_cons in Hin as [->|Hin].
    + apply (lookup_weaken acc'); [|exact Hsub].
      subst acc'. rewrite Hav, Hpb. by rewrite lookup_insert_eq.
    + by apply Hall.
Qed.

(** X24. [loadPayments] for a signed-in user never throws and writes
    nothing. When its first call is rejected it raises 'Failed to load payment
    history' and keeps the screen's state. Otherwise it shows exactly the
    stored payments that concern the user (those received for a host, those
    made for anyone else), each once and newest first, and the booking
    details it shows are stored bookings of those payments, whatever later
    calls the store rejects; when the store answers throughout, every shown
    payment has its booking's details whenever that booking is stored. *)
Theorem loadPayments_shows_stored_data (st : PaymentsScreen) (w : World) (u : User) :
  ps_user st = Some u ->
  uid u <> "" ->
  let r := loadPayments st w in
  payments (snd r) = payments w
  /\ bookings (snd r) = bookings w
  /\ (faults (env w) (calls w) = true ->
      fst r = Ok (st, Some ("Error", "Failed to load payment history")))
  /\ (faults (env w) (calls w) = false ->
      exists st',
        fst r = Ok (st', None)
        /\ (forall id_ p,
               (id_, p) ∈ ps_payments st' <-> payments w !! id_ = Some p /\ concerns u p)
        /\ StronglySorted newer_first (ps_payments st')
        /\ NoDup (ps_payments st').*1
        /\ ps_bookings st' ⊆ bookings w
        /\ (forall k, is_Some (ps_bookings st' !! k) ->
                      exists id_ p, (id_, p) ∈ ps_payments st' /\ booking_id p = k)
        /\ (available w ->
            forall id_ p, (id_, p) ∈ ps_payments st' ->
                          ps_bookings st' !! booking_id p = bookings w !! booking_id p)).
Proof.
  intros Hu Huid r. subst r. unfold loadPayments. rewrite Hu.
  assert (JS.truthy_string (uid u) = true) as -> by (by destruct (uid u)).
  set (f := fun d : string * Payment =>
              if String.eqb (role u) "host"
              then bool_decide (p_host_id (snd d) = uid u)
              else bool_decide (p_user_id (snd d) = uid u)).
  set (l := merge_sort newer_first (List.filter f (map_to_list (payments w)))).
  set (w1 := set_calls (S (calls w)) w).
  assert ((if String.eqb (role u) "host"
           then getHostPayments (uid u) else getUserPayments (uid u)) w
          = if faults (env w) (calls w)
            then (Throw (FirebaseError "unavailable"), w1) else (Ok l, w1)) as Hq.
  { subst l f. unfold getHostPayments, getUserPayments, getDocs, remote. unfold_M.
    destruct (String.eqb (role u) "host"); by destruct (faults (env w) (calls w)). }
  destruct (loadBookingDetails_spec l ∅ w1 (map_empty_subseteq _))
    as (d & w2 & Hr & He & Hb & Hp & _ & Hsound & Hkeys & Hall).
  unfold_M. rewrite Hq.
  destruct (faults (env w) (calls w)) eqn:Hf; simpl.
  { repeat split; done. }
  rewrite Hr. simpl.
  split; [exact Hp|]. split; [exact Hb|]. split; [done|]. intros _.
  destruct (ordered_query_sound (payments w) f) as (Hiff & Hsorted & Hnodup).
  fold l in Hiff, Hsorted, Hnodup.
  eexists. split; [reflexivity|]. simpl.
  split.
  { intros id_ p. rewrite Hiff. unfold f, concerns. simpl.
    destruct (String.eqb (role u) "host"); by rewrite bool_decide_eq_true. }
  split; [exact Hsorted|]. split; [exact Hnodup|]. split; [exact Hsound|]. split.
  - intros k Hk. destruct (Hkeys k Hk) as [Hempty|([id_ p] & Hin & Hpk)].
    + rewrite lookup_empty in Hempty. by destruct Hempty.
    + by exists id_, p.
  - intros Hav id_ p Hin.
    destruct (bookings w !! booking_id p) as [b|] eqn:Hbk.
    + apply (Hall Hav (id_, p) b Hin Hbk).
    + destruct (d !! booking_id p) as [b|] eqn:Hd; [|done].
      pose proof (lookup_weaken _ _ _ _ Hd Hsound) as Hst.
      change (bookings w1) with (bookings w) in Hst. congruence.
Qed.

Lemma loadPayments_shows_stored_data_witness :
  (exists st',
      fst (loadPayments payments_screen world_two_payments) = Ok (st', None)
      /\ StronglySorted newer_first (ps_payments st')
      /\ ps_bookings st' !! "A" = Some bookingA)
  /\ fst (loadPayments payments_screen world_payments_first_call_fails)
     = Ok (payments_screen, Some ("Error", "Failed to load payment history")).
Proof.
  split.
  - destruct (proj2 (proj2 (proj2 (loadPayments_shows_stored_data
                                     payments_screen world_two_payments driver
                                     eq_refl ltac:(discriminate))))
                    eq_refl)
      as (st' & Hr & Hiff & Hsorted & _ & _ & _ & Hall).
    exists st'. split; [exact Hr|]. split; [exact Hsorted|].
    assert (("payA", paymentA) ∈ ps_payments st') as Hin.
    { apply Hiff. split; [vm_compute; reflexivity|reflexivity]. }
    transitivity (bookings world_two_payments !! booking_id paymentA);
      [exact (Hall (fun n => eq_refl) "payA" paymentA Hin)|vm_compute; reflexivity].
  - apply (proj1 (proj2 (proj2 (loadPayments_shows_stored_data
                                  payments_screen world_payments_first_call_fails driver
                                  eq_refl ltac:(discriminate))))).
    reflexivity.
Defined.

(** ** Loading the plates *)

Lemma one_default_find (l : list LicensePlate) :
  defaults l = 1%nat ->
  exists p, List.find isDefault l = Some p
            /\ p ∈ l /\ isDefault p = true
            /\ forall q, q ∈ l -> isDefault q = true -> q = p.
Proof.
  unfold defaults. intros Hone. rewrite find_head_filter.
  destruct (List.filter isDefault l) as [|p [|p' rest]] eqn:Hf; try done.
  assert (In p (List.filter isDefault l)) as Hin by (rewrite Hf; by left).
  apply filter_In in Hin as [Hin Hp].
  exists p. split; [done|]. split; [by apply list_elem_of_In|]. split; [done|].
  intros q Hq Hd.
  assert (In q (List.filter isDefault l)) as Hqin
      by (apply filter_In; split; [by apply list_elem_of_In|done]).
  rewrite Hf in Hqin. by destruct Hqin.
Qed.

(** X25. The plate preselected for a booking is the user's default plate.
    [loadUserLicensePlates] never throws and never clears a selection. With
    the store answering and the user's document holding a non-empty list with
    exactly one default plate, it shows that list and selects the one plate
    flagged default, and the manager's [loadLicensePlates] shows the same
    list. When the read is rejected the listing screen keeps its state
    without a word, the manager raises 'Failed to load license plates'. *)
Theorem loadUserLicensePlates_preselects_default
        (st : ListingDetail) (shown : list LicensePlate) (w : World) :
  let r := loadUserLicensePlates st shown w in
  (exists st' l,
      fst r = Ok (st', l)
      /\ (is_Some (selectedLicensePlate st) -> is_Some (selectedLicensePlate st')))
  /\ (forall uid_ d,
         signed_in_uid (user st) = Some uid_ ->
         available w ->
         users w !! uid_ = Some d ->
         default [] (licensePlates d) <> [] ->
         one_default (default [] (licensePlates d)) ->
         exists st' p,
           fst r = Ok (st', default [] (licensePlates d))
           /\ selectedLicensePlate st' = Some p
           /\ p ∈ default [] (licensePlates d)
           /\ isDefault p = true
           /\ (forall q, q ∈ default [] (licensePlates d) -> isDefault q = true -> q = p)
           /\ forall m, signed_in_uid (m_user m) = Some uid_ ->
                        fst (loadLicensePlates m w)
                        = Ok (set_licensePlates (default [] (licensePlates d)) m, None))
  /\ (forall uid_,
         signed_in_uid (user st) = Some uid_ ->
         faults (env w) (calls w) = true ->
         fst r = Ok (st, shown)
         /\ forall m, signed_in_uid (m_user m) = Some uid_ ->
                      fst (loadLicensePlates m w)
                      = Ok (m, Some ("Error", "Failed to load license plates"))).
Proof.
  intros r. subst r. split; [|split].
  - unfold loadUserLicensePlates.
    destruct (signed_in_uid (user st)) as [uid_|]; [|by eexists _, _].
    unfold getDoc, remote. unfold_M.
    destruct (faults (env w) (calls w)); simpl; [by eexists _, _|].
    destruct (users w !! uid_) as [d|]; simpl; [|by eexists _, _].
    destruct (List.find isDefault _); simpl; eexists _, _; (split; [reflexivity|]);
      [by eexists|done].
  - intros uid_ d Hu Hav Hd Hne Hone.
    destruct (one_default_find _ (Hone Hne)) as (p & Hfind & Hin & Hp & Huniq).
    exists (set_selectedLicensePlate p st), p.
    split.
    { unfold loadUserLicensePlates. rewrite Hu. run_available Hav.
      rewrite Hd. simpl. by rewrite Hfind. }
    repeat split; try done.
    intros m Hm. unfold loadLicensePlates. rewrite Hm. run_available Hav. by rewrite Hd.
  - intros uid_ Hu Hf. split.
    + unfold loadUserLicensePlates. rewrite Hu. unfold getDoc, remote. unfold_M.
      by rewrite Hf.
    + intros m Hm. unfold loadLicensePlates. rewrite Hm. unfold getDoc, remote. unfold_M.
      by rewrite Hf.
Qed.

Lemma loadUserLicensePlates_preselects_default_witness :
  exists st',
    fst (loadUserLicensePlates (screen listing10 "10:00" "11:00") []
                               (world_plates quiet [plateXYZ; plateABC]))
    = Ok (st', [plateXYZ; plateABC])
    /\ selectedLicensePlate st' = Some plateABC.
Proof.
  destruct (proj1 (proj2 (loadUserLicensePlates_preselects_default
                            (screen listing10 "10:00" "11:00") []
                            (world_plates quiet [plateXYZ; plateABC])))
                  "driver1" (mkUserDoc (Some [plateXYZ; plateABC]) None))
    as (st' & p & Hr & Hsel & Hin & Hp & _).
  - reflexivity.
  - intros n. reflexivity.
  - vm_compute. reflexivity.
  - discriminate.
  - intros _. reflexivity.
  - exists st'. split; [exact Hr|]. rewrite Hsel. f_equal.
    simpl in Hin. apply elem_of_cons in Hin as [->|Hin]; [discriminate|].
    apply elem_of_cons in Hin as [->|Hin]; [done|]. by apply elem_of_nil in Hin.
Defined.
